(** * pptxService: template analysis and slide generation

    A shallow embedding of [server/services/pptxService.ts] (class
    [PPTXService]) and proofs of the properties its specification states.

    Conventions of the embedding:
    - JavaScript strings are [string] (sequences of 8-bit codes); case
      mapping is the ASCII one.
    - A [Promise<T>] or a call that may throw is a value of [Exc T]; code that
      also reads or writes the file system or draws a UUID lives in [M T],
      a state-and-exception monad over [World].
    - The libraries the service imports (JSZip, xml2js, pptxgenjs) are
      not part of the repository; their behaviour is the class [Externals]. *)

From Stdlib Require Import String Ascii List ZArith QArith Qround Bool Lia.
From stdpp Require Import gmap strings list.
Import ListNotations.
Local Open Scope string_scope.

(** ** JavaScript primitives used by the service *)

Module JS.

(** Truthiness of a string: only the empty string is falsy. *)
Definition truthy (s : string) : bool :=
  match s with EmptyString => false | _ => true end.

(** [a || b] on strings-or-null where [a] is a [string | null]. *)
Definition or_default (a : option string) (d : string) : string :=
  match a with
  | Some s => if truthy s then s else d
  | None => d
  end.

(** [a || b] where both sides are arrays/objects or [undefined]: an array
    or an object is always truthy. *)
Definition or_else {A} (a b : option A) : option A :=
  match a with Some _ => a | None => b end.

Definition is_lower (c : ascii) : bool :=
  (97 <=? nat_of_ascii c)%nat && (nat_of_ascii c <=? 122)%nat.
Definition is_upper (c : ascii) : bool :=
  (65 <=? nat_of_ascii c)%nat && (nat_of_ascii c <=? 90)%nat.
Definition is_digit (c : ascii) : bool :=
  (48 <=? nat_of_ascii c)%nat && (nat_of_ascii c <=? 57)%nat.

Definition upper_char (c : ascii) : ascii :=
  if is_lower c then ascii_of_nat (nat_of_ascii c - 32) else c.
Definition lower_char (c : ascii) : ascii :=
  if is_upper c then ascii_of_nat (nat_of_ascii c + 32) else c.

Fixpoint map_chars (f : ascii -> ascii) (s : string) : string :=
  match s with
  | EmptyString => EmptyString
  | String c t => String (f c) (map_chars f t)
  end.

(** [s.toUpperCase()], [s.toLowerCase()] *)
Definition toUpperCase : string -> string := map_chars upper_char.
Definition toLowerCase : string -> string := map_chars lower_char.

(** [s.startsWith(p)] *)
Definition startsWith (s p : string) : bool := String.prefix p s.

(** [s.includes(p)] *)
Fixpoint includes (s p : string) : bool :=
  String.prefix p s ||
  match s with
  | EmptyString => false
  | String _ t => includes t p
  end.

(** [s.endsWith(p)] *)
Fixpoint endsWith (s p : string) : bool :=
  String.eqb s p ||
  match s with
  | EmptyString => false
  | String _ t => endsWith t p
  end.

(** [s.replace('#', '')]: a string pattern replaces the first occurrence
    only, wherever it stands. *)
Fixpoint remove_first (c : ascii) (s : string) : string :=
  match s with
  | EmptyString => EmptyString
  | String d t => if Ascii.eqb d c then t else String d (remove_first c t)
  end.

(** [s.split(sep)] for a non-empty separator: the occurrences of [sep]
    are found left to right without overlap.  [skip] counts the characters
    of a separator still to be passed over, [cur] is the piece being read. *)
Fixpoint split_go (sep s : string) (skip : nat) (cur : string) : list string :=
  match s with
  | EmptyString => [cur]
  | String c t =>
      match skip with
      | S k => split_go sep t k cur
      | O =>
          if String.prefix sep s
          then cur :: split_go sep t (String.length sep - 1) EmptyString
          else split_go sep t 0 (cur +:+ String c EmptyString)
      end
  end.

Definition split (s sep : string) : list string := split_go sep s 0 EmptyString.

(** [parts.join(sep)] *)
Definition join (parts : list string) (sep : string) : string :=
  String.concat sep parts.

(** [arr.slice(start, end)]: a negative index counts from the end, and
    both indices are clamped to the array. *)
Definition clamp_index (len : nat) (i : Z) : nat :=
  if (i <? 0)%Z then Z.to_nat (Z.max 0 (Z.of_nat len + i))
  else Nat.min (Z.to_nat i) len.

Definition slice {A} (l : list A) (start : Z) (stop : option Z) : list A :=
  let len := List.length l in
  let from := clamp_index len start in
  let to := match stop with Some e => clamp_index len e | None => len end in
  firstn (to - from) (skipn from l).

(** [Math.ceil(n / 2)] for an array length [n]: the division is the real
    one. *)
Definition ceil_half (n : nat) : Z := Qceiling (inject_Z (Z.of_nat n) / 2).

(** [title.replace(/[^a-zA-Z0-9]/g, '_')] *)
Definition is_alnum (c : ascii) : bool := is_lower c || is_upper c || is_digit c.
Definition sanitize : string -> string :=
  map_chars (fun c => if is_alnum c then c else "_"%char).

Definition newline : ascii := "010"%char.
(** The two-character string written ['\n\n'] in the source. *)
Definition blank_line : string := String newline (String newline EmptyString).

End JS.

(** ** Exceptions and effects *)

Inductive Exc (A : Type) : Type :=
| Ok (a : A)
| Throw (msg : string).
Arguments Ok {A} a.
Arguments Throw {A} msg.

Definition exc_bind {A B} (m : Exc A) (k : A -> Exc B) : Exc B :=
  match m with Ok a => k a | Throw e => Throw e end.

(** [try { m } catch (error) { h }] *)
Definition exc_catch {A} (m : Exc A) (h : string -> Exc A) : Exc A :=
  match m with Ok a => Ok a | Throw e => h e end.

(** ** Data model (the exported interfaces of the service) *)

Record SlideData := {
  slideNumber : Z;
  title : string;
  content : string;
  layout : string;
  speakerNotes : option string;
  imagePrompt : option string
}.

Record PresentationData := {
  pres_title : string;
  slides : list SlideData;
  totalSlides : Z;
  estimatedDuration : string
}.

Record ExtractedImage := {
  imageId : string;            (* field [id] *)
  originalName : string;
  filePath : string;
  fileType : string;
  slideContext : option string;
  description : option string
}.

Record ColorScheme := {
  background1 : string;
  text1 : string;
  background2 : string;
  text2 : string;
  accent1 : string;
  accent2 : string;
  accent3 : string;
  accent4 : string;
  accent5 : string;
  accent6 : string;
  hyperlink : string;
  followedHyperlink : string
}.

Record FontScheme := {
  majorFont : string;
  minorFont : string
}.

(** [effectScheme: any] only ever holds the empty object literal. *)
Inductive EffectScheme := NoEffects.

Record ThemeData := {
  colorScheme : ColorScheme;
  fontScheme : FontScheme;
  effectScheme : EffectScheme
}.

Record TemplateAnalysis := {
  slideCount : nat;
  imageCount : nat;
  layoutCount : nat;
  colors : list string;
  fonts : list string;
  masterLayouts : list string;
  extractedImages : list ExtractedImage;
  themeData : ThemeData
}.

(** [Object.values(colorScheme)]: the twelve slots in declaration order. *)
Definition color_values (c : ColorScheme) : list string :=
  [ background1 c; text1 c; background2 c; text2 c;
    accent1 c; accent2 c; accent3 c; accent4 c; accent5 c; accent6 c;
    hyperlink c; followedHyperlink c ].

(** ** The world: file system and UUID source *)

Definition Buffer := list Byte.byte.

Record World := {
  files : gmap string Buffer;      (* regular files, by path *)
  read_denied : string -> bool;    (* paths whose read fails (EACCES, EIO) *)
  write_denied : string -> bool;   (* paths whose write fails (EACCES, ENOSPC) *)
  uuids : nat -> string;           (* the values [randomUUID] will return *)
  drawn : nat                      (* how many have been drawn *)
}.

Definition M (A : Type) : Type := World -> Exc A * World.

Definition ret {A} (a : A) : M A := fun w => (Ok a, w).
Definition raise {A} (msg : string) : M A := fun w => (Throw msg, w).
Definition bind {A B} (m : M A) (k : A -> M B) : M B :=
  fun w => match m w with
           | (Ok a, w') => k a w'
           | (Throw e, w') => (Throw e, w')
           end.
Definition lift {A} (e : Exc A) : M A := fun w => (e, w).

(** [try { m } catch (error) { h }]: effects performed before the throw
    stay performed. *)
Definition try_catch {A} (m : M A) (h : string -> M A) : M A :=
  fun w => match m w with
           | (Ok a, w') => (Ok a, w')
           | (Throw e, w') => h e w'
           end.

Declare Scope m_scope.
Delimit Scope m_scope with M.
Notation "x <- m ;; k" := (bind m (fun x => k))
  (at level 100, m at next level, right associativity) : m_scope.

Module Fs.

(** [fs.existsSync(p)] on the paths [World] describes: there is a file at
    [p].  [World] holds regular files only, so the statements that read this
    test are about paths that name a file and paths that name nothing. *)
Definition existsSync (w : World) (p : string) : bool :=
  bool_decide (is_Some (files w !! p)).

Definition readFileSync (p : string) : M Buffer :=
  fun w => match files w !! p with
           | Some data => if read_denied w p
                          then (Throw "EACCES", w) else (Ok data, w)
           | None => (Throw "ENOENT", w)
           end.

Definition writeFileSync (p : string) (data : Buffer) : M unit :=
  fun w => if write_denied w p then (Throw "EACCES", w)
           else (Ok tt, {| files := <[p := data]> (files w);
                           read_denied := read_denied w;
                           write_denied := write_denied w;
                           uuids := uuids w;
                           drawn := drawn w |}).

(** [path.join(dir, name)] for a normalised [dir] and a [name] that is a
    single segment: the only uses the service makes of it. *)
Definition join (dir name : string) : string :=
  if JS.endsWith dir "/" then dir +:+ name else dir +:+ "/" +:+ name.

(** [path.basename(p)] (POSIX): what follows the last slash; trailing
    slashes do not occur in the paths it is applied to. *)
Fixpoint basename_go (p cur : string) : string :=
  match p with
  | EmptyString => cur
  | String c t => if Ascii.eqb c "/"%char then basename_go t EmptyString
                  else basename_go t (cur +:+ String c EmptyString)
  end.
Definition basename (p : string) : string := basename_go p EmptyString.

(** [path.extname(name)] of a base name: from the last dot on, and empty
    when there is no dot or the only dot is the first character (the name
    [..], which no media part has, is not treated apart). *)
Fixpoint extname_go (s : string) (found : option string) : option string :=
  match s with
  | EmptyString => found
  | String c t =>
      extname_go t (if Ascii.eqb c "."%char then Some s else found)
  end.
Definition extname (name : string) : string :=
  match name with
  | EmptyString => EmptyString
  | String _ t => match extname_go t None with Some e => e | None => EmptyString end
  end.

(** [s.substring(1)] *)
Definition substring1 (s : string) : string :=
  match s with EmptyString => EmptyString | String _ t => t end.

End Fs.

(** [randomUUID()] *)
Definition randomUUID : M string :=
  fun w => (Ok (uuids w (drawn w)),
            {| files := files w; read_denied := read_denied w;
               write_denied := write_denied w; uuids := uuids w;
               drawn := S (drawn w) |}).

(** ** JSZip archives *)

Record ZipObject := {
  zdir : bool;              (* the entry is a folder *)
  zdata : Exc Buffer        (* what [async('nodebuffer')] settles to *)
}.

(** [zip.files]: entry names to entries, in listing order. *)
Definition JSZip := list (string * ZipObject).

Fixpoint assoc {A} (k : string) (l : list (string * A)) : option A :=
  match l with
  | [] => None
  | (k', v) :: t => if String.eqb k k' then Some v else assoc k t
  end.

Module Zip.

(** [Object.keys(zip.files)] *)
Definition keys (zip : JSZip) : list string := map fst zip.

(** [zip.file(name)]: the entry of that name unless it is a folder. *)
Definition file (zip : JSZip) (name : string) : option ZipObject :=
  match assoc name zip with
  | Some o => if zdir o then None else Some o
  | None => None
  end.

(** [file.async('nodebuffer')], [file.async('string')] *)
Definition async_nodebuffer (o : ZipObject) : Exc Buffer := zdata o.
Definition async_string (o : ZipObject) : Exc string :=
  exc_bind (zdata o) (fun b => Ok (string_of_list_byte b)).

(** What JSZip guarantees of a loaded archive: names are the keys of an
    object, hence distinct, and folders are the names ending in a slash. *)
Definition folder_names_ok (zip : JSZip) : bool :=
  forallb (fun e => implb (zdir (snd e)) (JS.endsWith (fst e) "/")) zip.

Definition wf (zip : JSZip) : Prop :=
  List.NoDup (keys zip) /\ folder_names_ok zip = true.

End Zip.

(** ** xml2js parse trees *)

(** With the parser's default options an element without attributes and
    without child elements is its text (the empty string when it has none);
    any other element is an object with its attributes under [$] (when it
    has some) and, for each child element name, the array of the children of
    that name. *)
#[warnings="-register-all"]
Inductive XmlNode :=
| XText (s : string)
| XElem (attrs : list (string * string)) (kids : list (string * list XmlNode)).

(** The parser's result: an object with one key, the root element's name. *)
Definition XmlDoc := (string * XmlNode)%type.

Module Xml.

(** Truthiness of a node. *)
Definition truthy (n : XmlNode) : bool :=
  match n with XText s => JS.truthy s | XElem _ _ => true end.

(** [node[name]] for an element name: the array of children, or
    [undefined]; a string has no such property. *)
Definition kids_named (n : XmlNode) (name : string) : option (list XmlNode) :=
  match n with
  | XText _ => None
  | XElem _ ks => assoc name ks
  end.

(** [node['a:x'] || node.x] *)
Definition child (n : XmlNode) (qualified plain : string) : option (list XmlNode) :=
  JS.or_else (kids_named n qualified) (kids_named n plain).

(** [node.$]: the attribute object, present when there are attributes. *)
Definition attrs_of (n : XmlNode) : option (list (string * string)) :=
  match n with
  | XElem (a :: l) _ => Some (a :: l)
  | _ => None
  end.

(** [Object.keys(node)] restricted to the keys that name child elements;
    the other keys ([$], [_], the indices of a string) play no part in the
    one loop that enumerates keys, which keeps those containing ["Clr"]. *)
Definition child_names (n : XmlNode) : list string :=
  match n with
  | XText _ => []
  | XElem _ ks => map fst ks
  end.

(** [arr[0]] *)
Definition first (arr : list XmlNode) : option XmlNode := head arr.

(** [String(node)], the rendering every consumer of a mistyped value
    ends up with: a string is itself, an object is [[object Object]]. *)
Definition to_string (n : XmlNode) : string :=
  match n with XText s => s | XElem _ _ => "[object Object]" end.

(** [String(arr)]: the elements' renderings joined by commas. *)
Definition array_to_string (arr : list XmlNode) : string :=
  JS.join (map to_string arr) ",".

End Xml.

(** ** Theme extraction *)

(** The regular expression [/^[0-9A-Fa-f]{6}$/]. *)
Definition is_hex_char (c : ascii) : bool :=
  JS.is_digit c
  || ((65 <=? nat_of_ascii c)%nat && (nat_of_ascii c <=? 70)%nat)
  || ((97 <=? nat_of_ascii c)%nat && (nat_of_ascii c <=? 102)%nat).

Fixpoint all_chars (p : ascii -> bool) (s : string) : bool :=
  match s with
  | EmptyString => true
  | String c t => p c && all_chars p t
  end.

Definition is_hex6 (s : string) : bool :=
  (String.length s =? 6)%nat && all_chars is_hex_char s.

(** Helper: Get default theme data *)
Definition getDefaultThemeData : ThemeData :=
  {| colorScheme :=
       {| background1 := "#FFFFFF"; text1 := "#000000";
          background2 := "#E7E6E6"; text2 := "#44546A";
          accent1 := "#5B9BD5"; accent2 := "#70AD47";
          accent3 := "#A5A5A5"; accent4 := "#FFC000";
          accent5 := "#4472C4"; accent6 := "#C5504B";
          hyperlink := "#0066CC"; followedHyperlink := "#954F72" |};
     fontScheme := {| majorFont := "Calibri"; minorFont := "Calibri" |};
     effectScheme := NoEffects |}.

(** The idiom [const v = arr[0]?.$ || arr[0]; if (v?.key) ... v.key]:
    [Ok (Some (inl s))] when the attribute [key] holds the non-empty string
    [s]; [Ok (Some (inr kids))] when the element has no attributes and [key]
    names child elements (an array, which is truthy); [Ok None] when the test
    is falsy. *)
Definition first_key (arr : list XmlNode) (key : string)
  : option (string + list XmlNode) :=
  match Xml.first arr with
  | None => None
  | Some n =>
      match Xml.attrs_of n with
      | Some a =>
          match assoc key a with
          | Some v => if JS.truthy v then Some (inl v) else None
          | None => None
          end
      | None =>
          match Xml.kids_named n key with
          | Some ks => Some (inr ks)
          | None => None
          end
      end
  end.

(** [`#${v.toUpperCase()}`]: an array has no [toUpperCase], the call
    throws. *)
Definition hash_upper (v : string + list XmlNode) : Exc string :=
  match v with
  | inl s => Ok ("#" +:+ JS.toUpperCase s)
  | inr _ => Throw "TypeError: toUpperCase is not a function"
  end.

(** The loop over [Object.keys(element)] looking for nested colour
    values. *)
Fixpoint scan_nested (element : XmlNode) (keys : list string) : option string :=
  match keys with
  | [] => None
  | key :: rest =>
      let hit :=
        if JS.includes key "Clr" then
          match Xml.kids_named element key with
          | Some arr =>
              match Xml.first arr with
              | Some n0 =>
                  if Xml.truthy n0 then
                    match Xml.attrs_of n0 with
                    | Some a =>
                        match assoc "val" a with
                        | Some colorVal =>
                            if JS.truthy colorVal && is_hex6 colorVal
                            then Some ("#" +:+ JS.toUpperCase colorVal)
                            else None
                        | None => None
                        end
                    | None => None
                    end
                  else None
              | None => None
              end
          | None => None
          end
        else None in
      match hit with
      | Some r => Some r
      | None => scan_nested element rest
      end
  end.

(** The body of the [try] block of [extractColorValue]. *)
Definition extractColorValue_body (element : XmlNode) : Exc (option string) :=
  (* srgbClr (RGB color) *)
  match (match Xml.child element "a:srgbClr" "srgbClr" with
         | Some srgb => first_key srgb "val"
         | None => None
         end) with
  | Some v => exc_bind (hash_upper v) (fun s => Ok (Some s))
  | None =>
  (* sysClr (system color) *)
  match (match Xml.child element "a:sysClr" "sysClr" with
         | Some sys => first_key sys "lastClr"
         | None => None
         end) with
  | Some v => exc_bind (hash_upper v) (fun s => Ok (Some s))
  | None =>
  (* direct color attribute *)
  match (match Xml.attrs_of element with
         | Some a => match assoc "val" a with
                     | Some v => if JS.truthy v then Some v else None
                     | None => None
                     end
         | None => None
         end) with
  | Some v => Ok (Some ("#" +:+ JS.toUpperCase v))
  | None =>
  (* nested color values *)
  Ok (scan_nested element (Xml.child_names element))
  end end end.

(** Helper: Extract color value from XML element *)
Definition extractColorValue (colorElement : option (list XmlNode)) : option string :=
  match colorElement with
  | None => None
  | Some arr =>
      match Xml.first arr with
      | None => None
      | Some element =>
          if Xml.truthy element then
            match extractColorValue_body element with
            | Ok r => r
            | Throw _ => None
            end
          else None
      end
  end.

(** Helper: Extract font name from XML element.  When [typeface] names
    child elements instead of an attribute the source returns that array;
    it is kept here in its string rendering, which differs from the array
    where the rendering is empty or is [unknown]: the array is truthy and is
    no string.  No statement below is about the fonts of such a theme. *)
Definition extractFontName (fontElement : option (list XmlNode)) : option string :=
  match fontElement with
  | None => None
  | Some arr =>
      match Xml.first arr with
      | None => None
      | Some element =>
          if Xml.truthy element then
            match Xml.child element "a:latin" "latin" with
            | Some latin =>
                match first_key latin "typeface" with
                | Some (inl s) => Some s
                | Some (inr ks) => Some (Xml.array_to_string ks)
                | None => None
                end
            | None => None
            end
          else None
      end
  end.

(** [themeData['a:theme'] || themeData.theme]; reading a property of
    [null] (the parser's result on an empty document) throws. *)
Definition doc_theme (themeData : option XmlDoc) : Exc (option XmlNode) :=
  match themeData with
  | None => Throw "TypeError: cannot read properties of null"
  | Some (root, node) =>
      if String.eqb root "a:theme" && Xml.truthy node then Ok (Some node)
      else if String.eqb root "theme" then Ok (Some node)
      else Ok None
  end.

(** [theme['a:themeElements'] || theme.themeElements], which throws when
    [theme] is [undefined]. *)
Definition theme_elements (theme : option XmlNode) : Exc (option (list XmlNode)) :=
  match theme with
  | None => Throw "TypeError: cannot read properties of undefined"
  | Some t => Ok (Xml.child t "a:themeElements" "themeElements")
  end.

(** [themeElements?.[0]?.['a:x'] || themeElements?.[0]?.x] *)
Definition first_child (themeElements : option (list XmlNode))
    (qualified plain : string) : option (list XmlNode) :=
  match themeElements with
  | None => None
  | Some arr =>
      match Xml.first arr with
      | None => None
      | Some n => Xml.child n qualified plain
      end
  end.

(** [!x || !x[0]] failing: the first element, when it is truthy. *)
Definition first_truthy (x : option (list XmlNode)) : option XmlNode :=
  match x with
  | None => None
  | Some arr =>
      match Xml.first arr with
      | Some n => if Xml.truthy n then Some n else None
      | None => None
      end
  end.

(** The scheme element [parseColorScheme] reads the slots from, when the
    navigation reaches one. *)
Definition color_scheme_node (themeData : option XmlDoc) : Exc (option XmlNode) :=
  exc_bind (doc_theme themeData) (fun theme =>
  exc_bind (theme_elements theme) (fun themeElements =>
  Ok (first_truthy (first_child themeElements "a:clrScheme" "clrScheme")))).

(** [this.extractColorValue(scheme['a:k'] || scheme.k) || dflt] *)
Definition slot (scheme : XmlNode) (qualified plain dflt : string) : string :=
  JS.or_default (extractColorValue (Xml.child scheme qualified plain)) dflt.

Definition scheme_colors (scheme : XmlNode) : ColorScheme :=
  {| background1 := slot scheme "a:lt1" "lt1" "#FFFFFF";
     text1 := slot scheme "a:dk1" "dk1" "#000000";
     background2 := slot scheme "a:lt2" "lt2" "#E7E6E6";
     text2 := slot scheme "a:dk2" "dk2" "#44546A";
     accent1 := slot scheme "a:accent1" "accent1" "#5B9BD5";
     accent2 := slot scheme "a:accent2" "accent2" "#70AD47";
     accent3 := slot scheme "a:accent3" "accent3" "#A5A5A5";
     accent4 := slot scheme "a:accent4" "accent4" "#FFC000";
     accent5 := slot scheme "a:accent5" "accent5" "#4472C4";
     accent6 := slot scheme "a:accent6" "accent6" "#C5504B";
     hyperlink := slot scheme "a:hlink" "hlink" "#0066CC";
     followedHyperlink := slot scheme "a:folHlink" "folHlink" "#954F72" |}.

(** Helper: Parse color scheme from theme XML *)
Definition parseColorScheme (themeData : option XmlDoc) : ColorScheme :=
  match color_scheme_node themeData with
  | Ok (Some scheme) => scheme_colors scheme
  | Ok None => colorScheme getDefaultThemeData
  | Throw _ => colorScheme getDefaultThemeData
  end.

(** Helper: Parse font scheme from theme XML *)
Definition parseFontScheme (themeData : option XmlDoc) : FontScheme :=
  let calibri := {| majorFont := "Calibri"; minorFont := "Calibri" |} in
  match exc_bind (doc_theme themeData) (fun theme =>
        exc_bind (theme_elements theme) (fun themeElements =>
        Ok (first_truthy (first_child themeElements "a:fontScheme" "fontScheme")))) with
  | Ok (Some scheme) =>
      {| majorFont :=
           JS.or_default (extractFontName (Xml.child scheme "a:majorFont" "majorFont")) "Calibri";
         minorFont :=
           JS.or_default (extractFontName (Xml.child scheme "a:minorFont" "minorFont")) "Calibri" |}
  | Ok None => calibri
  | Throw _ => calibri
  end.

(** ** The pptxgenjs document being built *)

Module Pptx.

Record Box := { x : Q; y : Q; w : Q; h : Q }.

(** The options object of [addText] and of a master placeholder; a key
    the caller leaves out is [None]. *)
Record TextProps := {
  box : Box;
  fontSize : Z;
  fontFace : string;
  color : string;
  bold : option bool;
  align : option string;
  valign : option string;
  fill : option string;              (* [fill: { color }] *)
  border : option (Z * string)       (* [border: { pt, color }] *)
}.

Inductive SlideObject :=
| Text (text : string) (props : TextProps)
| Image (path : string) (at_ : Box).

Record Slide := {
  background : option string;        (* [slide.background = { color }] *)
  objects : list SlideObject;        (* in the order they were added *)
  notes : option string
}.

Definition newSlide : Slide :=
  {| background := None; objects := []; notes := None |}.

Definition setBackground (c : string) (s : Slide) : Slide :=
  {| background := Some c; objects := objects s; notes := notes s |}.

Definition addObject (o : SlideObject) (s : Slide) : Slide :=
  {| background := background s; objects := (objects s ++ [o])%list; notes := notes s |}.

Definition addText (text : string) (props : TextProps) : Slide -> Slide :=
  addObject (Text text props).

Definition addNotes (n : string) (s : Slide) : Slide :=
  {| background := background s; objects := objects s; notes := Some n |}.

Record Placeholder := {
  name : string;
  type : string;
  options : TextProps;
  text : string
}.

Record SlideMaster := {
  master_title : string;
  master_background : string;
  master_objects : list Placeholder
}.

Record Layout := { layout_name : string; width : Q; height : Q }.

Record Presentation := {
  author : string;
  title : string;
  subject : string;
  layouts : list Layout;
  masters : list SlideMaster;
  slides : list Slide
}.

Definition defineLayout (l : Layout) (p : Presentation) : Presentation :=
  {| author := author p; title := title p; subject := subject p;
     layouts := (layouts p ++ [l])%list; masters := masters p; slides := slides p |}.

Definition defineSlideMaster (m : SlideMaster) (p : Presentation) : Presentation :=
  {| author := author p; title := title p; subject := subject p;
     layouts := layouts p; masters := (masters p ++ [m])%list; slides := slides p |}.

Definition appendSlide (s : Slide) (p : Presentation) : Presentation :=
  {| author := author p; title := title p; subject := subject p;
     layouts := layouts p; masters := masters p; slides := (slides p ++ [s])%list |}.

End Pptx.

(** ** The imported libraries and the process environment *)

Class Externals := {
  (** [JSZip.loadAsync(data)]: rejects when [data] is not a zip archive. *)
  JSZip_loadAsync : Buffer -> Exc JSZip;
  (** [new xml2js.Parser().parseStringPromise(xml)]: rejects on malformed
      XML, and resolves to [null] on a document without a root element. *)
  xml2js_parse : string -> Exc (option XmlDoc);
  (** Whether [slide.addImage({ path, ... })] throws for this path. *)
  addImage_throws : string -> bool;
  (** [pptx.writeFile({ fileName })]: packs the document and writes it to
      [fileName]; it reads the images the document references from the file
      system, and may fail. *)
  pptx_writeFile : Pptx.Presentation -> string -> M unit;
  (** [process.cwd()], a normalised absolute path. *)
  cwd : string
}.

Section Service.

Context `{Ext : Externals}.

(** The fields the constructor sets (it also creates the two directories
    when they are missing; directories are not part of [World]). *)
Definition uploadsDir : string := Fs.join cwd "uploads".
Definition imagesDir : string := Fs.join uploadsDir "extracted_images".

(** *** Template analysis *)

(** STEP 2: Extract theme data (colors, fonts, effects) *)
Definition extractThemeData (zip : JSZip) : Exc ThemeData :=
  exc_catch
    (match Zip.file zip "ppt/theme/theme1.xml" with
     | None => Ok getDefaultThemeData
     | Some themeFile =>
         exc_bind (Zip.async_string themeFile) (fun themeXml =>
         exc_bind (xml2js_parse themeXml) (fun themeData =>
         Ok {| colorScheme := parseColorScheme themeData;
               fontScheme := parseFontScheme themeData;
               effectScheme := NoEffects |}))
     end)
    (fun _ => Ok getDefaultThemeData).

(** The test [/\.(png|jpg|jpeg|gif|emf|wmf)$/i]. *)
Definition media_extensions : list string :=
  [".png"; ".jpg"; ".jpeg"; ".gif"; ".emf"; ".wmf"].

Definition has_media_extension (fileName : string) : bool :=
  existsb (JS.endsWith (JS.toLowerCase fileName)) media_extensions.

Definition is_media (fileName : string) : bool :=
  JS.startsWith fileName "ppt/media/" && has_media_extension fileName.

Definition mediaFiles (zip : JSZip) : list string :=
  List.filter is_media (Zip.keys zip).

(** One turn of the loop of [extractImages]. *)
Definition extractOne (zip : JSZip) (templatePath mediaPath : string)
    (extractedImages : list ExtractedImage) : M (list ExtractedImage) :=
  match Zip.file zip mediaPath with
  | None => ret extractedImages
  | Some file =>
      (imageBuffer <- lift (Zip.async_nodebuffer file) ;;
       let fileName := Fs.basename mediaPath in
       let fileType := JS.toLowerCase (Fs.substring1 (Fs.extname fileName)) in
       imageId <- randomUUID ;;
       let extractedPath := Fs.join imagesDir (imageId +:+ "_" +:+ fileName) in
       _ <- Fs.writeFileSync extractedPath imageBuffer ;;
       ret (extractedImages ++
              [ {| imageId := imageId;
                   originalName := fileName;
                   filePath := extractedPath;
                   fileType := fileType;
                   slideContext := Some "template";
                   description :=
                     Some ("Extracted from " +:+ Fs.basename templatePath) |} ])%list)%M
  end.

(** [for (const mediaPath of mediaFiles) { ... }] *)
Fixpoint extractLoop (zip : JSZip) (templatePath : string) (paths : list string)
    (extractedImages : list ExtractedImage) : M (list ExtractedImage) :=
  match paths with
  | [] => ret extractedImages
  | mediaPath :: rest =>
      (acc <- extractOne zip templatePath mediaPath extractedImages ;;
       extractLoop zip templatePath rest acc)%M
  end.

(** STEP 2: Extract and save images from template *)
Definition extractImages (zip : JSZip) (templatePath : string)
  : M (list ExtractedImage) :=
  try_catch (extractLoop zip templatePath (mediaFiles zip) [])
            (fun _ => ret []).

(** The tests [/^ppt\/slides\/slide\d+\.xml$/] and
    [/^ppt\/slideLayouts\/slideLayout\d+\.xml$/]: a prefix, one or more
    digits, a suffix. *)
Fixpoint strip_prefix (p s : string) : option string :=
  match p, s with
  | EmptyString, _ => Some s
  | String a p', String b s' =>
      if Ascii.eqb a b then strip_prefix p' s' else None
  | String _ _, EmptyString => None
  end.

Fixpoint drop_digits (s : string) : string :=
  match s with
  | EmptyString => EmptyString
  | String c t => if JS.is_digit c then drop_digits t else s
  end.

Definition numbered_part (prefix suffix f : string) : bool :=
  match strip_prefix prefix f with
  | Some (String c t) => JS.is_digit c && String.eqb (drop_digits t) suffix
  | _ => false
  end.

Record SlideStructure := {
  ss_slideCount : nat;
  ss_layoutCount : nat;
  ss_masterLayouts : list string
}.

Definition defaultMasterLayouts : list string :=
  ["Title Slide"; "Content"; "Two Column"; "Image & Content"; "Section Header"].

(** STEP 2: Analyze slide structure and layouts *)
Definition analyzeSlideStructure (zip : JSZip) : Exc SlideStructure :=
  exc_catch
    (let slideFiles :=
       List.filter (numbered_part "ppt/slides/slide" ".xml") (Zip.keys zip) in
     let layoutFiles :=
       List.filter (numbered_part "ppt/slideLayouts/slideLayout" ".xml") (Zip.keys zip) in
     exc_bind
       (exc_catch
          (match Zip.file zip "ppt/slideMasters/slideMaster1.xml" with
           | Some masterFile =>
               exc_bind (Zip.async_string masterFile) (fun _ =>
               Ok defaultMasterLayouts)
           | None => Ok []
           end)
          (fun _ => Ok defaultMasterLayouts))
       (fun masterLayouts =>
          Ok {| ss_slideCount := List.length slideFiles;
                ss_layoutCount := List.length layoutFiles;
                ss_masterLayouts := masterLayouts |}))
    (fun _ => Ok {| ss_slideCount := 1; ss_layoutCount := 5;
                    ss_masterLayouts := defaultMasterLayouts |}).

(** The record the [catch] block of [analyzeTemplate] returns. *)
Definition fallbackAnalysis : TemplateAnalysis :=
  {| slideCount := 12;
     imageCount := 0;
     layoutCount := 5;
     colors := ["#2563EB"; "#64748B"; "#10B981"; "#F59E0B"];
     fonts := ["Calibri"; "Arial"];
     masterLayouts := defaultMasterLayouts;
     extractedImages := [];
     themeData :=
       {| colorScheme :=
            {| background1 := "#FFFFFF"; text1 := "#000000";
               background2 := "#E7E6E6"; text2 := "#44546A";
               accent1 := "#2563EB"; accent2 := "#64748B";
               accent3 := "#10B981"; accent4 := "#F59E0B";
               accent5 := "#8B5CF6"; accent6 := "#EF4444";
               hyperlink := "#0066CC"; followedHyperlink := "#954F72" |};
          fontScheme := {| majorFont := "Calibri"; minorFont := "Calibri" |};
          effectScheme := NoEffects |} |}.

(** [.filter(c => c && c !== 'unknown')] *)
Definition known (c : string) : bool :=
  JS.truthy c && negb (String.eqb c "unknown").

(** The [try] block of [analyzeTemplate].  The three extractions are started
    together and awaited with [Promise.all]; only [extractImages] touches the
    world and none of them rejects, so their interleaving does not show. *)
Definition analyzeTemplate_body (filePath : string) : M TemplateAnalysis :=
  (w <- (fun w => (Ok w, w)) ;;
   if negb (Fs.existsSync w filePath)
   then raise ("File not found: " +:+ filePath)
   else
     data <- Fs.readFileSync filePath ;;
     zip <- lift (JSZip_loadAsync data) ;;
     themeData <- lift (extractThemeData zip) ;;
     extractedImages <- extractImages zip filePath ;;
     slideStructure <- lift (analyzeSlideStructure zip) ;;
     ret {| slideCount := ss_slideCount slideStructure;
            imageCount := List.length extractedImages;
            layoutCount := ss_layoutCount slideStructure;
            colors := List.filter known (color_values (colorScheme themeData));
            fonts := List.filter known
                       [majorFont (fontScheme themeData);
                        minorFont (fontScheme themeData)];
            masterLayouts := ss_masterLayouts slideStructure;
            extractedImages := extractedImages;
            themeData := themeData |})%M.

Definition analyzeTemplate (filePath : string) : M TemplateAnalysis :=
  try_catch (analyzeTemplate_body filePath) (fun _ => ret fallbackAnalysis).

(** *** Slide generation *)

Record StyleContext := {
  titleColor : string;
  textColor : string;
  accentColor : string;
  titleFont : string;
  bodyFont : string
}.

(** The options bag; [generateNotes] is the only key the service reads. *)
Record GenOptions := { generateNotes : option string }.

(** [s.replace('#', '')] *)
Definition strip_hash (s : string) : string := JS.remove_first "#"%char s.

(** STEP 3: Helper to get styling context from template analysis *)
Definition getStyleContext (templateAnalysis : option TemplateAnalysis) : StyleContext :=
  match templateAnalysis with
  | None =>
      {| titleColor := "2563EB";
         textColor := "1F2937";
         accentColor := "64748B";
         titleFont := "Calibri";
         bodyFont := "Calibri" |}
  | Some ta =>
      let colors := colorScheme (themeData ta) in
      let fonts := fontScheme (themeData ta) in
      {| titleColor := strip_hash (accent1 colors);
         textColor := strip_hash (text1 colors);
         accentColor := strip_hash (accent2 colors);
         titleFont := majorFont fonts;
         bodyFont := minorFont fonts |}
  end.

Definition mkBox (x y w h : Q) : Pptx.Box :=
  {| Pptx.x := x; Pptx.y := y; Pptx.w := w; Pptx.h := h |}.

Definition textProps (b : Pptx.Box) (size : Z) (face color : string)
    (bold : option bool) (align valign : option string) : Pptx.TextProps :=
  {| Pptx.box := b; Pptx.fontSize := size; Pptx.fontFace := face;
     Pptx.color := color; Pptx.bold := bold; Pptx.align := align;
     Pptx.valign := valign; Pptx.fill := None; Pptx.border := None |}.

Definition createTitleSlide (slide : Pptx.Slide) (slideData : SlideData)
    (styleContext : StyleContext) : Pptx.Slide :=
  let slide :=
    Pptx.addText (title slideData)
      (textProps (mkBox 0.5 1.5 9 1.8) 40 (titleFont styleContext)
         (titleColor styleContext) (Some true) (Some "center") (Some "middle"))
      slide in
  if JS.truthy (content slideData) then
    Pptx.addText (content slideData)
      (textProps (mkBox 0.5 3.5 9 1.2) 20 (bodyFont styleContext)
         (accentColor styleContext) None (Some "center") (Some "middle"))
      slide
  else slide.

Definition createContentSlide (slide : Pptx.Slide) (slideData : SlideData)
    (styleContext : StyleContext) : Pptx.Slide :=
  let slide :=
    Pptx.addText (title slideData)
      (textProps (mkBox 0.5 0.3 9 1) 32 (titleFont styleContext)
         (titleColor styleContext) (Some true) (Some "left") None)
      slide in
  Pptx.addText (content slideData)
    (textProps (mkBox 0.5 1.5 9 3.5) 18 (bodyFont styleContext)
       (textColor styleContext) None (Some "left") (Some "top"))
    slide.

(** The two halves [createTwoColumnSlide] cuts the content into. *)
Definition leftContent (content : string) : string :=
  let contentParts := JS.split content JS.blank_line in
  JS.join (JS.slice contentParts 0 (Some (JS.ceil_half (List.length contentParts))))
          JS.blank_line.

Definition rightContent (content : string) : string :=
  let contentParts := JS.split content JS.blank_line in
  JS.join (JS.slice contentParts (JS.ceil_half (List.length contentParts)) None)
          JS.blank_line.

Definition createTwoColumnSlide (slide : Pptx.Slide) (slideData : SlideData)
    (styleContext : StyleContext) : Pptx.Slide :=
  let slide :=
    Pptx.addText (title slideData)
      (textProps (mkBox 0.5 0.3 9 1) 32 (titleFont styleContext)
         (accentColor styleContext) (Some true) (Some "left") None)
      slide in
  let slide :=
    Pptx.addText (leftContent (content slideData))
      (textProps (mkBox 0.5 1.5 4.2 3.5) 18 (bodyFont styleContext)
         (textColor styleContext) None (Some "left") (Some "top"))
      slide in
  Pptx.addText (rightContent (content slideData))
    (textProps (mkBox 5.2 1.5 4.2 3.5) 18 (bodyFont styleContext)
       (textColor styleContext) None (Some "left") (Some "top"))
    slide.

(** STEP 3: Helper to select an image for reuse *)
Definition selectImageForReuse (templateAnalysis : option TemplateAnalysis)
  : option ExtractedImage :=
  match templateAnalysis with
  | None => None
  | Some ta =>
      if (List.length (extractedImages ta) =? 0)%nat then None
      else head (extractedImages ta)
  end.

Definition placeholderText : string :=
  "ðŸ“Š Template Image" +:+ String JS.newline "Placeholder".

(** STEP 3: Helper to add image placeholder with template styling *)
Definition addImagePlaceholder (slide : Pptx.Slide) (styleContext : StyleContext)
  : Pptx.Slide :=
  Pptx.addText placeholderText
    {| Pptx.box := mkBox 5.5 2 4 2.5;
       Pptx.fontSize := 14;
       Pptx.fontFace := bodyFont styleContext;
       Pptx.color := accentColor styleContext;
       Pptx.bold := None;
       Pptx.align := Some "center";
       Pptx.valign := Some "middle";
       Pptx.fill := Some "F3F4F6";
       Pptx.border := Some (1%Z, accentColor styleContext) |}
    slide.

(** [slide.addImage({ path, x, y, w, h })], which may throw. *)
Definition addImage (path : string) (b : Pptx.Box) (slide : Pptx.Slide)
  : Exc Pptx.Slide :=
  if addImage_throws path then Throw "addImage"
  else Ok (Pptx.addObject (Pptx.Image path b) slide).

(** STEP 3: Updated with template styling and image reuse.  The builder
    consults the file system ([fs.existsSync]) of the world [w]. *)
Definition createImageContentSlide (w : World) (slide : Pptx.Slide)
    (slideData : SlideData) (styleContext : StyleContext)
    (templateAnalysis : option TemplateAnalysis) : Exc Pptx.Slide :=
  let slide :=
    Pptx.addText (title slideData)
      (textProps (mkBox 0.5 0.5 9 0.8) 28 (titleFont styleContext)
         (titleColor styleContext) (Some true) None None)
      slide in
  let slide :=
    Pptx.addText (content slideData)
      (textProps (mkBox 0.5 1.5 4.5 3.5) 16 (bodyFont styleContext)
         (textColor styleContext) None None (Some "top"))
      slide in
  match selectImageForReuse templateAnalysis with
  | Some reusedImage =>
      if Fs.existsSync w (filePath reusedImage) then
        exc_catch (addImage (filePath reusedImage) (mkBox 5.5 2 4 2.5) slide)
                  (fun _ => Ok (addImagePlaceholder slide styleContext))
      else Ok (addImagePlaceholder slide styleContext)
  | None => Ok (addImagePlaceholder slide styleContext)
  end.

Definition createConclusionSlide (slide : Pptx.Slide) (slideData : SlideData)
    (styleContext : StyleContext) : Pptx.Slide :=
  let slide :=
    Pptx.addText (title slideData)
      (textProps (mkBox 1 1.5 8 1) 32 (titleFont styleContext)
         (titleColor styleContext) (Some true) (Some "center") None)
      slide in
  Pptx.addText (content slideData)
    (textProps (mkBox 1 2.8 8 2) 18 (bodyFont styleContext)
       (textColor styleContext) None (Some "center") (Some "middle"))
    slide.

(** [templateAnalysis?.themeData.colorScheme.background1.replace('#', '')
     || "FFFFFF"] *)
Definition slideBackground (templateAnalysis : option TemplateAnalysis) : string :=
  JS.or_default
    (option_map (fun ta => strip_hash (background1 (colorScheme (themeData ta))))
                templateAnalysis)
    "FFFFFF".

(** [options?.generateNotes !== "none"] *)
Definition notesAllowed (options : option GenOptions) : bool :=
  match options with
  | Some o => match generateNotes o with
              | Some g => negb (String.eqb g "none")
              | None => true
              end
  | None => true
  end.

(** The notes to attach, when
    [slideData.speakerNotes && options?.generateNotes !== "none"] holds. *)
Definition notesToAdd (slideData : SlideData) (options : option GenOptions)
  : option string :=
  match speakerNotes slideData with
  | Some n => if JS.truthy n && notesAllowed options then Some n else None
  | None => None
  end.

(** STEP 3: Create slide with template styling and image reuse.  The slide
    [pptx.addSlide()] hands out is returned once filled in. *)
Definition createSlide (w : World) (slideData : SlideData)
    (options : option GenOptions) (templateAnalysis : option TemplateAnalysis)
  : Exc Pptx.Slide :=
  let slide := Pptx.setBackground (slideBackground templateAnalysis) Pptx.newSlide in
  let styleContext := getStyleContext templateAnalysis in
  exc_bind
    (if String.eqb (layout slideData) "title_slide" then
       Ok (createTitleSlide slide slideData styleContext)
     else if String.eqb (layout slideData) "content" then
       Ok (createContentSlide slide slideData styleContext)
     else if String.eqb (layout slideData) "two_column" then
       Ok (createTwoColumnSlide slide slideData styleContext)
     else if String.eqb (layout slideData) "image_content" then
       createImageContentSlide w slide slideData styleContext templateAnalysis
     else if String.eqb (layout slideData) "conclusion" then
       Ok (createConclusionSlide slide slideData styleContext)
     else
       Ok (createContentSlide slide slideData styleContext))
    (fun slide =>
       match notesToAdd slideData options with
       | Some n => Ok (Pptx.addNotes n slide)
       | None => Ok slide
       end).

Definition layout16x9 : Pptx.Layout :=
  {| Pptx.layout_name := "LAYOUT_16x9"; Pptx.width := 10; Pptx.height := 5.625 |}.

(** STEP 3: Apply real extracted template styling *)
Definition applyExtractedStyling (pptx : Pptx.Presentation)
    (templateAnalysis : TemplateAnalysis) : Pptx.Presentation :=
  let pptx := Pptx.defineLayout layout16x9 pptx in
  let colors := colorScheme (themeData templateAnalysis) in
  let fonts := fontScheme (themeData templateAnalysis) in
  Pptx.defineSlideMaster
    {| Pptx.master_title := "EXTRACTED_TEMPLATE";
       Pptx.master_background := strip_hash (background1 colors);
       Pptx.master_objects :=
         [ {| Pptx.name := "title"; Pptx.type := "title";
              Pptx.options :=
                textProps (mkBox 0.5 0.5 9 1.5) 28 (majorFont fonts)
                          (strip_hash (accent1 colors)) None None None;
              Pptx.text := "Title Placeholder" |};
           {| Pptx.name := "body"; Pptx.type := "body";
              Pptx.options :=
                textProps (mkBox 0.5 2 9 3) 16 (minorFont fonts)
                          (strip_hash (text1 colors)) None None None;
              Pptx.text := "Content Placeholder" |} ] |}
    pptx.

Definition applyDefaultStyling (pptx : Pptx.Presentation) : Pptx.Presentation :=
  Pptx.defineLayout layout16x9 pptx.

Definition newPresentation (presentationData : PresentationData) : Pptx.Presentation :=
  {| Pptx.author := "Auto PPT Generator";
     Pptx.title := pres_title presentationData;
     Pptx.subject := "Generated Presentation";
     Pptx.layouts := []; Pptx.masters := []; Pptx.slides := [] |}.

(** [if (templatePath && fs.existsSync(templatePath)) ... else ...]: the
    styled document and the analysis the slides are built with. *)
Definition styleDocument (pptx : Pptx.Presentation) (templatePath : option string)
  : M (Pptx.Presentation * option TemplateAnalysis) :=
  (w <- (fun w => (Ok w, w)) ;;
   match templatePath with
   | Some tp =>
       if JS.truthy tp && Fs.existsSync w tp then
         templateAnalysis <- analyzeTemplate tp ;;
         ret (applyExtractedStyling pptx templateAnalysis, Some templateAnalysis)
       else ret (applyDefaultStyling pptx, None)
   | None => ret (applyDefaultStyling pptx, None)
   end)%M.

(** [for (const slideData of presentationData.slides) this.createSlide(...)] *)
Fixpoint createSlides (w : World) (pptx : Pptx.Presentation)
    (slides : list SlideData) (options : option GenOptions)
    (templateAnalysis : option TemplateAnalysis) : Exc Pptx.Presentation :=
  match slides with
  | [] => Ok pptx
  | slideData :: rest =>
      exc_bind (createSlide w slideData options templateAnalysis) (fun slide =>
      createSlides w (Pptx.appendSlide slide pptx) rest options templateAnalysis)
  end.

(** The document [generatePresentation] has built when it comes to write
    it. *)
Definition buildPresentation (presentationData : PresentationData)
    (templatePath : option string) (options : option GenOptions)
  : M Pptx.Presentation :=
  (styled <- styleDocument (newPresentation presentationData) templatePath ;;
   w <- (fun w => (Ok w, w)) ;;
   lift (createSlides w (fst styled) (slides presentationData) options (snd styled)))%M.

Definition generatePresentation (presentationData : PresentationData)
    (templatePath : option string) (options : option GenOptions) : M string :=
  (pptx <- buildPresentation presentationData templatePath options ;;
   uuid <- randomUUID ;;
   let fileName :=
     JS.sanitize (pres_title presentationData) +:+ "_" +:+ uuid +:+ ".pptx" in
   let outputPath := Fs.join uploadsDir fileName in
   _ <- pptx_writeFile pptx outputPath ;;
   ret outputPath)%M.

End Service.

(** ** Cleanup *)

Module FsDir.

(** A directory path with its trailing separator: what [path.join] puts in
    front of an entry name. *)
Definition dir_prefix (dir : string) : string :=
  if JS.endsWith dir "/" then dir else dir +:+ "/".

(** The first segment of a relative path. *)
Fixpoint first_segment (s : string) : string :=
  match s with
  | EmptyString => EmptyString
  | String c t =>
      if Ascii.eqb c "/"%char then EmptyString else String c (first_segment t)
  end.

(** The entry of [dir] that the path [p] is, or lies under. *)
Definition entry_name (dir p : string) : option string :=
  match strip_prefix (dir_prefix dir) p with
  | Some rest =>
      if JS.truthy (first_segment rest) then Some (first_segment rest) else None
  | None => None
  end.

(** [fs.readdirSync(dir)]: the names of the entries of [dir], each once.
    Directories are implicit in [World]; the order is the file system's. *)
Definition readdirSync (dir : string) : M (list string) :=
  fun w => (Ok (remove_dups (omap (entry_name dir) (map fst (map_to_list (files w))))), w).

(** [fs.unlinkSync(p)]: fails on a path that is not a file, and where the
    file system refuses the change. *)
Definition unlinkSync (p : string) : M unit :=
  fun w => match files w !! p with
           | None => (Throw "ENOENT", w)
           | Some _ =>
               if write_denied w p then (Throw "EACCES", w)
               else (Ok tt, {| files := delete p (files w);
                               read_denied := read_denied w;
                               write_denied := write_denied w;
                               uuids := uuids w;
                               drawn := drawn w |})
           end.

End FsDir.

Section Cleanup.

Context `{Ext : Externals}.

Definition cleanupFile (filePath : string) : M unit :=
  try_catch
    (w <- (fun w => (Ok w, w)) ;;
     if Fs.existsSync w filePath then FsDir.unlinkSync filePath else ret tt)%M
    (fun _ => ret tt).

(** [for (const file of files) fs.unlinkSync(path.join(this.imagesDir, file))] *)
Fixpoint unlinkAll (names : list string) : M unit :=
  match names with
  | [] => ret tt
  | file :: rest =>
      (_ <- FsDir.unlinkSync (Fs.join imagesDir file) ;; unlinkAll rest)%M
  end.

(** [for (const imageId of imageIds) { ... }] *)
Fixpoint cleanupLoop (imageIds : list string) : M unit :=
  match imageIds with
  | [] => ret tt
  | imageId :: rest =>
      (names <- FsDir.readdirSync imagesDir ;;
       let files := List.filter (fun f => JS.startsWith f (imageId +:+ "_")) names in
       _ <- unlinkAll files ;;
       cleanupLoop rest)%M
  end.

(** STEP 2: Cleanup extracted images *)
Definition cleanupExtractedImages (imageIds : list string) : M unit :=
  try_catch (cleanupLoop imageIds) (fun _ => ret tt).

End Cleanup.

(** * Vocabulary of the statements *)

(** ** Two-column example *)

(** The content ["A\n\nB\n\nC\n\nD"] of the specification's example. *)
Definition fourParagraphs : string :=
  "A" +:+ JS.blank_line +:+ "B" +:+ JS.blank_line +:+ "C" +:+ JS.blank_line +:+ "D".

(** ** A concrete environment, used to exercise the statements *)

Module Sample.

Definition bytes_of (s : string) : Buffer := list_byte_of_string s.

(** A theme in the usual encoding: one slot as an RGB value, one as a
    system colour, the others left out. *)
Definition themeDoc : XmlDoc :=
  ("a:theme",
   XElem [("name", "Office")]
     [("a:themeElements",
       [XElem []
          [("a:clrScheme",
            [XElem [("name", "Office")]
               [("a:dk1", [XElem [] [("a:sysClr",
                   [XElem [("val", "windowText"); ("lastClr", "000000")] []])]]);
                ("a:accent1", [XElem [] [("a:srgbClr",
                   [XElem [("val", "4f81bd")] []])]])]]);
           ("a:fontScheme",
            [XElem [("name", "Office")]
               [("a:majorFont", [XElem [] [("a:latin",
                   [XElem [("typeface", "Cambria")] []])]])]])]])]).

Definition file (s : string) : ZipObject :=
  {| zdir := false; zdata := Ok (bytes_of s) |}.

(** A template with a theme, two slides and two pictures. *)
Definition zip : JSZip :=
  [ ("ppt/", {| zdir := true; zdata := Ok [] |});
    ("ppt/theme/theme1.xml", file "<a:theme/>");
    ("ppt/slides/slide1.xml", file "<p:sld/>");
    ("ppt/slides/slide2.xml", file "<p:sld/>");
    ("ppt/media/image1.png", file "PNGDATA");
    ("ppt/media/photo.JPEG", file "JPEGDATA!") ].

(** The same template without its theme part. *)
Definition zipNoTheme : JSZip :=
  [ ("ppt/slides/slide1.xml", file "<p:sld/>");
    ("ppt/media/image1.png", file "PNGDATA") ].

(** An environment that takes the bytes ["PK"] for [zip], the bytes
    ["PK-"] for [zipNoTheme] and rejects every other blob, and whose
    [pptx.writeFile] writes the bytes ["PK"] to the file it is given. *)
#[local] Instance externals : Externals :=
  {| JSZip_loadAsync := fun data =>
       if String.eqb (string_of_list_byte data) "PK" then Ok zip
       else if String.eqb (string_of_list_byte data) "PK-" then Ok zipNoTheme
       else Throw "Can't find end of central directory";
     xml2js_parse := fun xml =>
       if String.eqb xml "<a:theme/>" then Ok (Some themeDoc)
       else if String.eqb xml EmptyString then Ok None
       else Throw "Non-whitespace before first tag";
     addImage_throws := fun _ => false;
     pptx_writeFile := fun _ fileName => Fs.writeFileSync fileName (bytes_of "PK");
     cwd := "/app" |}.

Definition uuid (n : nat) : string :=
  match n with
  | 0 => "00000000-0000-4000-8000-000000000000"
  | 1 => "00000000-0000-4000-8000-000000000001"
  | 2 => "00000000-0000-4000-8000-000000000002"
  | _ => "ffffffff-ffff-4fff-bfff-ffffffffffff"
  end.

(** A disk holding a good template and a corrupt one. *)
Definition world : World :=
  {| files := <["/tmp/good.pptx" := bytes_of "PK"]>
                (<["/tmp/bad.pptx" := bytes_of "not a zip"]> ∅);
     read_denied := fun _ => false;
     write_denied := fun _ => false;
     uuids := uuid;
     drawn := 0 |}.

End Sample.

(** ** Style context and layout dispatch *)

(** What the specification calls stripping the leading [#]. *)
Definition spec_strip_leading_hash (s : string) : string :=
  match s with
  | String c t => if Ascii.eqb c "#"%char then t else s
  | EmptyString => EmptyString
  end.

(** A colour value whose [#], if it has one, is its first character: the
    shape of every colour the analysis produces. *)
Definition hash_leads (s : string) : bool :=
  JS.startsWith s "#" || negb (JS.includes s "#").

Definition hashes_lead (templateAnalysis : option TemplateAnalysis) : bool :=
  match templateAnalysis with
  | None => true
  | Some ta =>
      let c := colorScheme (themeData ta) in
      hash_leads (accent1 c) && hash_leads (text1 c) && hash_leads (accent2 c)
  end.

(** The record [sd] with its layout replaced. *)
Definition with_layout (l : string) (sd : SlideData) : SlideData :=
  {| slideNumber := slideNumber sd; title := title sd; content := content sd;
     layout := l; speakerNotes := speakerNotes sd; imagePrompt := imagePrompt sd |}.

(** The layouts [createSlide] has a case for. *)
Definition knownLayouts : list string :=
  ["title_slide"; "content"; "two_column"; "image_content"; "conclusion"].

(** ** Image extraction *)

(** The world after some files have been written and some UUIDs drawn. *)
Definition advance (w : World) (fs : gmap string Buffer) (n : nat) : World :=
  {| files := fs; read_denied := read_denied w; write_denied := write_denied w;
     uuids := uuids w; drawn := n |}.

(** The record [extractImages] pushes for the part [mediaPath] when
    [randomUUID] returned [imageId]. *)
Definition imageRecord `{Externals} (templatePath mediaPath imageId : string)
  : ExtractedImage :=
  {| imageId := imageId;
     originalName := Fs.basename mediaPath;
     filePath := Fs.join imagesDir (imageId +:+ "_" +:+ Fs.basename mediaPath);
     fileType := JS.toLowerCase (Fs.substring1 (Fs.extname (Fs.basename mediaPath)));
     slideContext := Some "template";
     description := Some ("Extracted from " +:+ Fs.basename templatePath) |}.

(** What the loop is going to do, read off the archive, the UUID source
    [uu] and the write permissions [wd]: the records with the bytes written
    for each, or the first failure. *)
Fixpoint planLoop `{Externals} (zip : JSZip) (templatePath : string)
    (uu : nat -> string) (wd : string -> bool) (paths : list string) (n : nat)
  : Exc (list (ExtractedImage * Buffer)) :=
  match paths with
  | [] => Ok []
  | mediaPath :: rest =>
      match Zip.file zip mediaPath with
      | None => planLoop zip templatePath uu wd rest n
      | Some file =>
          exc_bind (Zip.async_nodebuffer file) (fun imageBuffer =>
          let img := imageRecord templatePath mediaPath (uu n) in
          if wd (filePath img) then Throw "EACCES"
          else
            exc_bind (planLoop zip templatePath uu wd rest (S n)) (fun more =>
            Ok ((img, imageBuffer) :: more)))
      end
  end.

(** The disk after the writes of a plan. *)
Definition commit (fs : gmap string Buffer) (plan : list (ExtractedImage * Buffer))
  : gmap string Buffer :=
  fold_left (fun fs e => <[filePath (fst e) := snd e]> fs) plan fs.

(** The media parts among [paths] that the loop extracts -- those
    [zip.file] finds -- each with the index of the UUID its extraction is
    given: an extracted part draws one UUID, so the [i]-th of them gets the
    [i]-th UUID from [n] on. *)
Definition attempts_of (zip : JSZip) (paths : list string) (n : nat)
  : list (string * nat) :=
  let parts :=
    List.filter (fun p => match Zip.file zip p with Some _ => true | None => false end)
                paths in
  combine parts (seq n (List.length parts)).

Definition attempts (zip : JSZip) (n : nat) : list (string * nat) :=
  attempts_of zip (mediaFiles zip) n.

(** The extraction of the part [fst pk] under the [snd pk]-th UUID fails:
    the bytes of the part cannot be read, or the disk refuses the very file it
    is saved as. *)
Definition attempt_fails `{Externals} (zip : JSZip) (templatePath : string)
    (w : World) (pk : string * nat) : bool :=
  match Zip.file zip (fst pk) with
  | Some file =>
      match Zip.async_nodebuffer file with
      | Throw _ => true
      | Ok _ =>
          write_denied w
            (filePath (imageRecord templatePath (fst pk) (uuids w (snd pk))))
      end
  | None => false
  end.

(** The plan entry [e] is the part [fst pk] saved under the [snd pk]-th
    UUID. *)
Definition planned `{Externals} (zip : JSZip) (templatePath : string)
    (uu : nat -> string) (e : ExtractedImage * Buffer) (pk : string * nat) : Prop :=
  fst e = imageRecord templatePath (fst pk) (uu (snd pk)) /\
  exists file, Zip.file zip (fst pk) = Some file /\ zdata file = Ok (snd e).

(** An archive whose second picture cannot be decompressed. *)
Definition zipOneCorrupt : JSZip :=
  [ ("ppt/media/image1.png", Sample.file "PNGDATA");
    ("ppt/media/image2.png",
     {| zdir := false; zdata := Throw "Corrupted zip: CRC32 mismatch" |}) ].

(** A disk that refuses one file only: the one the second picture of
    [Sample.zip] is saved as under the second UUID. *)
Definition worldOneRefusal : World :=
  {| files := files Sample.world;
     read_denied := fun _ => false;
     write_denied :=
       String.eqb
         "/app/uploads/extracted_images/00000000-0000-4000-8000-000000000001_photo.JPEG";
     uuids := Sample.uuid;
     drawn := 0 |}.

(** The specification's sentence on partial failure: every media part that
    can be read gets its record, on a disk that accepts every write,
    whatever happens to the other parts. *)
Definition spec_failure_is_isolated `{Externals} : Prop :=
  forall (zip : JSZip) (templatePath : string) (w : World) (p : string)
         (file : ZipObject) (buf : Buffer),
    In p (mediaFiles zip) ->
    Zip.file zip p = Some file -> Zip.async_nodebuffer file = Ok buf ->
    (forall path, write_denied w path = false) ->
    exists imgs img,
      fst (extractImages zip templatePath w) = Ok imgs /\
      In img imgs /\ originalName img = Fs.basename p.

Fixpoint last_char (s : string) : option ascii :=
  match s with
  | EmptyString => None
  | String c EmptyString => Some c
  | String _ t => last_char t
  end.

(** The UUIDs the next [n] calls of [randomUUID] return are well-formed
    (36 characters) and pairwise distinct. *)
Definition fresh_uuids (w : World) (n : nat) : Prop :=
  List.NoDup (map (uuids w) (seq (drawn w) n)) /\
  Forall (fun u => String.length u = 36) (map (uuids w) (seq (drawn w) n)).

(** ** Colour values *)

(** The pattern [^#[0-9A-F]{6}$]. *)
Definition is_upper_hex_char (c : ascii) : bool :=
  JS.is_digit c || ((65 <=? nat_of_ascii c)%nat && (nat_of_ascii c <=? 70)%nat).

Definition is_hash_hex6 (s : string) : bool :=
  match s with
  | String c t =>
      Ascii.eqb c "#"%char && (String.length t =? 6)%nat
      && all_chars is_upper_hex_char t
  | EmptyString => false
  end.

(** The attribute [key] of an element, when it has one, is a six-digit
    hexadecimal RGB value (the type ST_HexColorRGB of the document format). *)
Definition attr_hex (key : string) (n : XmlNode) : bool :=
  match Xml.attrs_of n with
  | Some a => match assoc key a with Some v => is_hex6 v | None => true end
  | None => true
  end.

Definition children_hex (element : XmlNode) (qualified plain key : string) : bool :=
  match Xml.child element qualified plain with
  | Some arr => forallb (attr_hex key) arr
  | None => true
  end.

(** A colour slot of a valid theme: its RGB children carry a hex [val], its
    system-colour children a hex [lastClr], and the slot itself no other
    [val] than a hex one. *)
Definition slot_valid (element : XmlNode) : bool :=
  children_hex element "a:srgbClr" "srgbClr" "val"
  && children_hex element "a:sysClr" "sysClr" "lastClr"
  && attr_hex "val" element.

Definition scheme_valid (scheme : XmlNode) : bool :=
  match scheme with
  | XText _ => true
  | XElem _ kids => forallb (fun kv => forallb slot_valid (snd kv)) kids
  end.

(** A parsed theme whose colour scheme, when it has one, is valid. *)
Definition theme_colors_valid (themeData : option XmlDoc) : bool :=
  match color_scheme_node themeData with
  | Ok (Some scheme) => scheme_valid scheme
  | _ => true
  end.

(** Without the validity of the theme the pattern can fail: an RGB child
    whose [val] is not hexadecimal is taken as it is. *)
Definition themeDocNamedColour : XmlDoc :=
  ("a:theme",
   XElem []
     [("a:themeElements",
       [XElem []
          [("a:clrScheme",
            [XElem [("name", "Odd")]
               [("a:accent1", [XElem [] [("a:srgbClr",
                   [XElem [("val", "red")] []])]])]])]])]).

(** ** Vocabulary of the further properties *)

(** The string [s] without its first [n] characters. *)
Fixpoint drop_chars (n : nat) (s : string) : string :=
  match n, s with
  | O, _ => s
  | S k, String _ t => drop_chars k t
  | S _, EmptyString => EmptyString
  end.

(** A name a directory entry can have: not empty, without separator, and
    neither [.] nor [..].  For such a name [Fs.join dir name] is what
    [path.join] returns: nothing is left to normalise. *)
Definition is_entry_name (s : string) : bool :=
  JS.truthy s && negb (JS.includes s "/")
  && negb (String.eqb s ".") && negb (String.eqb s "..").

(** [w'] is [w] after some UUIDs were drawn and some files written, every
    one of them at a path satisfying [P]. *)
Definition grown_by (P : string -> Prop) (w w' : World) : Prop :=
  uuids w' = uuids w /\ read_denied w' = read_denied w /\
  write_denied w' = write_denied w /\ drawn w <= drawn w' /\
  forall p, files w' !! p = files w !! p \/ (is_Some (files w' !! p) /\ P p).

(** The path of a picture saved in the images directory under one of the
    UUIDs of [uu] from the [n]-th on. *)
Definition image_path `{Externals} (uu : nat -> string) (n : nat) (p : string)
  : Prop :=
  exists k base,
    n <= k /\ JS.includes base "/" = false /\
    p = Fs.join imagesDir (uu k +:+ "_" +:+ base).

(** What the statements on the disk assume of [pptx.writeFile]: the only
    file it creates or changes is the one it is given the name of, and it
    removes none. *)
Definition writeFile_confined `{Externals} : Prop :=
  forall (doc : Pptx.Presentation) (fileName : string) (w : World) (p : string),
    files (snd (pptx_writeFile doc fileName w)) !! p = files w !! p \/
    (is_Some (files (snd (pptx_writeFile doc fileName w)) !! p) /\ p = fileName).

(** The characters a sanitised title is made of. *)
Definition is_name_char (c : ascii) : bool :=
  JS.is_alnum c || Ascii.eqb c "_"%char.

(** A colour as every path of the extraction writes it: [#] followed by
    characters none of which is a lower-case letter. *)
Definition hash_then_upper (c : string) : bool :=
  match c with
  | String h t => Ascii.eqb h "#"%char && all_chars (fun x => negb (JS.is_lower x)) t
  | EmptyString => false
  end.

(** The fields of an analysis that do not mention the extracted images. *)
Definition analysis_summary (ta : TemplateAnalysis)
  : nat * nat * list string * list string * list string * ThemeData :=
  (slideCount ta, layoutCount ta, colors ta, fonts ta, masterLayouts ta, themeData ta).

(** An archive whose theme part is not XML. *)
Definition zipBrokenTheme : JSZip :=
  [ ("ppt/theme/theme1.xml", Sample.file "<a:theme><oops") ].

(** A colour slot that gives both an RGB value and a system colour. *)
Definition slotRgbAndSystem : XmlNode :=
  XElem []
    [("a:sysClr", [XElem [("val", "window"); ("lastClr", "ffffff")] []]);
     ("a:srgbClr", [XElem [("val", "1f497d")] []])].

(** A colour slot whose RGB child carries [val] as a child element. *)
Definition slotValAsElement : XmlNode :=
  XElem []
    [("a:srgbClr", [XElem [] [("val", [XText "1F497D"])]]);
     ("a:sysClr", [XElem [("val", "window"); ("lastClr", "FFFFFF")] []])].

(** The leading digits of a string. *)
Fixpoint take_digits (s : string) : string :=
  match s with
  | EmptyString => EmptyString
  | String c t => if JS.is_digit c then String c (take_digits t) else EmptyString
  end.

(** [w'] is [w] after some files were removed, every one of them
    satisfying [P]. *)
Definition shrunk_by (P : string -> Prop) (w w' : World) : Prop :=
  uuids w' = uuids w /\ read_denied w' = read_denied w /\
  write_denied w' = write_denied w /\ drawn w' = drawn w /\
  forall p, files w' !! p = files w !! p \/ (files w' !! p = None /\ P p).

(** The path is an entry of the images directory whose name starts with
    one of the ids followed by an underscore. *)
Definition cleanup_target `{Externals} (imageIds : list string) (p : string) : Prop :=
  exists imageId name,
    In imageId imageIds /\ JS.startsWith name (imageId +:+ "_") = true /\
    is_entry_name name = true /\ p = Fs.join imagesDir name.

(** The disk after the removal of some paths. *)
Definition remove_all (paths : list string) (fs : gmap string Buffer)
  : gmap string Buffer :=
  fold_left (fun fs p => delete p fs) paths fs.

(** Every file under [dir] is an entry of [dir] itself: [dir] has no
    sub-directories. *)
Definition flat (dir : string) (fs : gmap string Buffer) : Prop :=
  forall p rest,
    is_Some (fs !! p) -> strip_prefix (FsDir.dir_prefix dir) p = Some rest ->
    FsDir.entry_name dir p = Some rest.

(** The same, as a check on the paths of the disk. *)
Definition flatb (dir : string) (fs : gmap string Buffer) : bool :=
  forallb (fun p =>
             match strip_prefix (FsDir.dir_prefix dir) p with
             | Some rest =>
                 match FsDir.entry_name dir p with
                 | Some name => String.eqb name rest
                 | None => false
                 end
             | None => true
             end)
          (map fst (map_to_list fs)).

(** The names [fs.readdirSync(dir)] returns on the disk [fs]. *)
Definition dir_listing (dir : string) (fs : gmap string Buffer) : list string :=
  remove_dups (omap (FsDir.entry_name dir) (map fst (map_to_list fs))).

(** A disk with two extracted pictures of one template, one of another,
    and a generated document. *)
Definition worldWithImages : World :=
  {| files :=
       <["/app/uploads/extracted_images/aaa_image1.png" := Sample.bytes_of "P1"]>
       (<["/app/uploads/extracted_images/aaa_image2.png" := Sample.bytes_of "P2"]>
       (<["/app/uploads/extracted_images/bbb_logo.png" := Sample.bytes_of "L"]>
       (<["/app/uploads/Plan_1234.pptx" := Sample.bytes_of "PK"]> ∅)));
     read_denied := fun _ => false;
     write_denied := fun _ => false;
     uuids := Sample.uuid;
     drawn := 0 |}.

(** * Properties *)

(** ** Arithmetic and list facts about the JavaScript primitives *)

Lemma ceil_half_div2 (n : nat) : JS.ceil_half n = Z.of_nat (Nat.div2 (S n)).
Proof.
  unfold JS.ceil_half, Qceiling, Qfloor, Qdiv, Qmult, Qinv, Qopp, inject_Z.
  cbn [Qnum Qden].
  rewrite Nat.div2_div, Nat2Z.inj_div.
  change (Z.of_nat 2) with 2%Z.
  replace (Z.of_nat (S n)) with (Z.of_nat n + 1)%Z by lia.
  change (Z.pos (1 * 2)) with 2%Z.
  generalize (Z.of_nat n). intros z.
  rewrite Z.mul_1_r.
  pose proof (Z.div_mod (- z) 2 ltac:(lia)) as E1.
  pose proof (Z.mod_pos_bound (- z) 2 ltac:(lia)) as B1.
  pose proof (Z.div_mod (z + 1) 2 ltac:(lia)) as E2.
  pose proof (Z.mod_pos_bound (z + 1) 2 ltac:(lia)) as B2.
  lia.
Qed.

Lemma slice_prefix {A} (l : list A) (k : nat) :
  JS.slice l 0 (Some (Z.of_nat k)) = firstn k l.
Proof.
  unfold JS.slice, JS.clamp_index.
  change (0 <? 0)%Z with false. cbn [Z.to_nat skipn]. rewrite Nat.min_0_l.
  destruct (Z.ltb_spec (Z.of_nat k) 0) as [Hn | _]; [lia |].
  rewrite Nat2Z.id, Nat.sub_0_r.
  destruct (Nat.le_ge_cases k (List.length l)) as [Hle | Hge].
  - now rewrite Nat.min_l.
  - rewrite Nat.min_r by exact Hge.
    rewrite !firstn_all2; auto.
Qed.

Lemma slice_suffix {A} (l : list A) (k : nat) :
  JS.slice l (Z.of_nat k) None = skipn k l.
Proof.
  unfold JS.slice, JS.clamp_index.
  destruct (Z.ltb_spec (Z.of_nat k) 0) as [Hn | _]; [lia |].
  rewrite Nat2Z.id.
  destruct (Nat.le_ge_cases k (List.length l)) as [Hle | Hge].
  - rewrite Nat.min_l by exact Hle.
    apply firstn_all2. rewrite length_skipn. lia.
  - rewrite Nat.min_r by exact Hge.
    rewrite Nat.sub_diag. cbn [firstn].
    symmetry. apply skipn_all2. exact Hge.
Qed.

(** ** Two-column layout *)

Lemma leftContent_firstn (c : string) :
  leftContent c =
  JS.join (firstn (Nat.div2 (S (List.length (JS.split c JS.blank_line))))
                  (JS.split c JS.blank_line)) JS.blank_line.
Proof. unfold leftContent. now rewrite ceil_half_div2, slice_prefix. Qed.

Lemma rightContent_skipn (c : string) :
  rightContent c =
  JS.join (skipn (Nat.div2 (S (List.length (JS.split c JS.blank_line))))
                 (JS.split c JS.blank_line)) JS.blank_line.
Proof. unfold rightContent. now rewrite ceil_half_div2, slice_suffix. Qed.

(** C5. A two_column slide whose content splits on the blank-line separator
    into [n] paragraphs gets three text boxes: the title, then a left column
    holding the first [ceil(n/2)] paragraphs rejoined with the separator, then
    a right column holding the remaining ones.  On ["A\n\nB\n\nC\n\nD"] the
    left column is paragraphs 1-2 and the right column paragraphs 3-4. *)
Theorem createTwoColumnSlide_ceiling_split
    (slide : Pptx.Slide) (sd : SlideData) (sc : StyleContext) :
  let parts := JS.split (content sd) JS.blank_line in
  let half := Nat.div2 (S (List.length parts)) in
  Pptx.objects (createTwoColumnSlide slide sd sc) =
    (Pptx.objects slide ++
     [ Pptx.Text (title sd)
         (textProps (mkBox 0.5 0.3 9 1) 32 (titleFont sc) (accentColor sc)
                    (Some true) (Some "left") None);
       Pptx.Text (JS.join (firstn half parts) JS.blank_line)
         (textProps (mkBox 0.5 1.5 4.2 3.5) 18 (bodyFont sc) (textColor sc)
                    None (Some "left") (Some "top"));
       Pptx.Text (JS.join (skipn half parts) JS.blank_line)
         (textProps (mkBox 5.2 1.5 4.2 3.5) 18 (bodyFont sc) (textColor sc)
                    None (Some "left") (Some "top")) ])%list
  /\ JS.split fourParagraphs JS.blank_line = ["A"; "B"; "C"; "D"]
  /\ leftContent fourParagraphs = "A" +:+ JS.blank_line +:+ "B"
  /\ rightContent fourParagraphs = "C" +:+ JS.blank_line +:+ "D".
Proof.
  intros parts half. split; [| repeat split; reflexivity].
  unfold createTwoColumnSlide, Pptx.addText, Pptx.addObject.
  cbn [Pptx.objects].
  rewrite leftContent_firstn, rightContent_skipn.
  fold parts. fold half.
  now rewrite <- !app_assoc.
Qed.

(** ** Fallbacks of the analysis *)

(** C1. When the bytes of the template are not a zip archive
    ([JSZip.loadAsync] rejects them), [analyzeTemplate] does not raise: it
    returns the fallback record -- 12 slides, 0 images, 5 layouts, the four
    accent colours, Calibri and Arial, the five layout names, no extracted
    image and the fallback theme -- and leaves the world as it was. *)
Theorem analyzeTemplate_corrupt_fallback `{Externals}
    (filePath : string) (w : World) (data : Buffer) (e : string) :
  files w !! filePath = Some data ->
  JSZip_loadAsync data = Throw e ->
  analyzeTemplate filePath w =
    (Ok {| slideCount := 12;
           imageCount := 0;
           layoutCount := 5;
           colors := ["#2563EB"; "#64748B"; "#10B981"; "#F59E0B"];
           fonts := ["Calibri"; "Arial"];
           masterLayouts := ["Title Slide"; "Content"; "Two Column";
                             "Image & Content"; "Section Header"];
           extractedImages := [];
           themeData :=
             {| colorScheme :=
                  {| background1 := "#FFFFFF"; text1 := "#000000";
                     background2 := "#E7E6E6"; text2 := "#44546A";
                     accent1 := "#2563EB"; accent2 := "#64748B";
                     accent3 := "#10B981"; accent4 := "#F59E0B";
                     accent5 := "#8B5CF6"; accent6 := "#EF4444";
                     hyperlink := "#0066CC"; followedHyperlink := "#954F72" |};
                fontScheme := {| majorFont := "Calibri"; minorFont := "Calibri" |};
                effectScheme := NoEffects |} |}, w).
Proof.
  intros Hfile Hzip.
  unfold analyzeTemplate, try_catch, analyzeTemplate_body, bind.
  unfold Fs.existsSync. rewrite bool_decide_eq_true_2 by (rewrite Hfile; eauto).
  cbn [negb]. unfold Fs.readFileSync, lift. rewrite Hfile.
  destruct (read_denied w filePath); [reflexivity |].
  now rewrite Hzip.
Qed.

Lemma analyzeTemplate_corrupt_fallback_witness :
  files Sample.world !! "/tmp/bad.pptx" = Some (Sample.bytes_of "not a zip")
  /\ JSZip_loadAsync (Externals := Sample.externals) (Sample.bytes_of "not a zip")
     = Throw "Can't find end of central directory"
  /\ analyzeTemplate (Ext := Sample.externals) "/tmp/bad.pptx" Sample.world
     = (Ok fallbackAnalysis, Sample.world).
Proof.
  assert (Hf : files Sample.world !! "/tmp/bad.pptx"
               = Some (Sample.bytes_of "not a zip")) by (vm_compute; reflexivity).
  assert (Hz : JSZip_loadAsync (Externals := Sample.externals)
                 (Sample.bytes_of "not a zip")
               = Throw "Can't find end of central directory")
    by (vm_compute; reflexivity).
  split; [exact Hf | split; [exact Hz |]].
  exact (analyzeTemplate_corrupt_fallback (H := Sample.externals)
           "/tmp/bad.pptx" Sample.world _ _ Hf Hz).
Defined.

Lemma assoc_not_key {A} (k : string) (l : list (string * A)) :
  ~ In k (map fst l) -> assoc k l = None.
Proof.
  induction l as [| [k' v] l IH]; cbn; [reflexivity |].
  intros Hn. destruct (String.eqb_spec k k') as [-> | _].
  - exfalso. apply Hn. now left.
  - apply IH. intros Hin. apply Hn. now right.
Qed.

(** C2. For a container that lists no part named [ppt/theme/theme1.xml],
    theme extraction returns, without error, the default theme: the twelve
    default colours and Calibri for both fonts. *)
Theorem extractThemeData_missing_theme_default `{Externals} (zip : JSZip) :
  ~ In "ppt/theme/theme1.xml" (Zip.keys zip) ->
  extractThemeData zip =
    Ok {| colorScheme :=
            {| background1 := "#FFFFFF"; text1 := "#000000";
               background2 := "#E7E6E6"; text2 := "#44546A";
               accent1 := "#5B9BD5"; accent2 := "#70AD47";
               accent3 := "#A5A5A5"; accent4 := "#FFC000";
               accent5 := "#4472C4"; accent6 := "#C5504B";
               hyperlink := "#0066CC"; followedHyperlink := "#954F72" |};
          fontScheme := {| majorFont := "Calibri"; minorFont := "Calibri" |};
          effectScheme := NoEffects |}.
Proof.
  intros Hno. unfold extractThemeData, Zip.file.
  now rewrite (assoc_not_key _ _ Hno).
Qed.

Lemma extractThemeData_missing_theme_default_witness :
  ~ In "ppt/theme/theme1.xml" (Zip.keys Sample.zipNoTheme)
  /\ extractThemeData (Ext := Sample.externals) Sample.zipNoTheme
     = Ok getDefaultThemeData.
Proof.
  assert (Hno : ~ In "ppt/theme/theme1.xml" (Zip.keys Sample.zipNoTheme))
    by (cbn; intros [E | [E | []]]; discriminate E).
  split; [exact Hno |].
  exact (extractThemeData_missing_theme_default (H := Sample.externals)
           Sample.zipNoTheme Hno).
Defined.

(** ** Style context *)

Lemma remove_first_absent (s : string) :
  JS.includes s "#" = false -> JS.remove_first "#"%char s = s.
Proof.
  induction s as [| c t IH]; [reflexivity |].
  cbn [JS.includes JS.remove_first String.prefix].
  destruct (ascii_dec "#" c) as [<- | Hc].
  - destruct t; cbn; discriminate.
  - cbn [orb]. intros Ht.
    rewrite (proj2 (Ascii.eqb_neq c "#"%char)) by congruence.
    now rewrite IH.
Qed.

Lemma strip_hash_leading (s : string) :
  hash_leads s = true -> strip_hash s = spec_strip_leading_hash s.
Proof.
  unfold hash_leads, strip_hash, JS.startsWith.
  destruct s as [| c t]; [reflexivity |].
  cbn [String.prefix spec_strip_leading_hash].
  destruct (ascii_dec "#" c) as [<- | Hc].
  - reflexivity.
  - cbn [orb]. intros Hn. apply negb_true_iff in Hn.
    rewrite (remove_first_absent _ Hn).
    now rewrite (proj2 (Ascii.eqb_neq c "#"%char)) by congruence.
Qed.

(** C4. Without an analysis the resolver returns the fixed context
    [2563EB] / [1F2937] / [64748B] / Calibri / Calibri; with one it returns
    accent1, text1 and accent2 of the analysis's theme with the leading [#]
    stripped, and the theme's major and minor fonts. *)
Theorem getStyleContext_resolves (templateAnalysis : option TemplateAnalysis) :
  hashes_lead templateAnalysis = true ->
  getStyleContext templateAnalysis =
    match templateAnalysis with
    | None =>
        {| titleColor := "2563EB"; textColor := "1F2937";
           accentColor := "64748B";
           titleFont := "Calibri"; bodyFont := "Calibri" |}
    | Some ta =>
        {| titleColor := spec_strip_leading_hash (accent1 (colorScheme (themeData ta)));
           textColor := spec_strip_leading_hash (text1 (colorScheme (themeData ta)));
           accentColor := spec_strip_leading_hash (accent2 (colorScheme (themeData ta)));
           titleFont := majorFont (fontScheme (themeData ta));
           bodyFont := minorFont (fontScheme (themeData ta)) |}
    end.
Proof.
  destruct templateAnalysis as [ta |]; [| reflexivity].
  cbn [hashes_lead getStyleContext]. intros Hl.
  apply andb_true_iff in Hl as [Hl H2]. apply andb_true_iff in Hl as [H1 Ht].
  now rewrite !strip_hash_leading.
Qed.

Lemma getStyleContext_resolves_witness :
  hashes_lead (Some fallbackAnalysis) = true
  /\ hashes_lead None = true
  /\ getStyleContext (Some fallbackAnalysis) =
       {| titleColor := "2563EB"; textColor := "000000"; accentColor := "64748B";
          titleFont := "Calibri"; bodyFont := "Calibri" |}
  /\ getStyleContext None =
       {| titleColor := "2563EB"; textColor := "1F2937"; accentColor := "64748B";
          titleFont := "Calibri"; bodyFont := "Calibri" |}.
Proof.
  split; [reflexivity | split; [reflexivity | split]].
  - exact (getStyleContext_resolves (Some fallbackAnalysis) eq_refl).
  - exact (getStyleContext_resolves None eq_refl).
Defined.

(** ** Dispatch on the layout *)

(** C6. A slide record whose layout is none of title_slide, content,
    two_column, image_content, conclusion is built exactly as the same
    record with layout [content], for the same world, options and analysis. *)
Theorem createSlide_unknown_layout_as_content `{Externals}
    (w : World) (sd : SlideData) (options : option GenOptions)
    (templateAnalysis : option TemplateAnalysis) :
  ~ In (layout sd) knownLayouts ->
  createSlide w sd options templateAnalysis =
  createSlide w (with_layout "content" sd) options templateAnalysis.
Proof.
  intros Hunk. unfold createSlide.
  assert (Hne : forall l, In l knownLayouts -> String.eqb (layout sd) l = false).
  { intros l Hl. apply String.eqb_neq. intros E. apply Hunk. now rewrite E. }
  rewrite !Hne by (cbn; tauto).
  reflexivity.
Qed.

Lemma createSlide_unknown_layout_as_content_witness :
  let sd := {| slideNumber := 3; title := "Roadmap"; content := "Next steps";
               layout := "weird"; speakerNotes := Some "Keep it short";
               imagePrompt := None |} in
  ~ In (layout sd) knownLayouts
  /\ createSlide (Ext := Sample.externals) Sample.world sd None None =
     createSlide (Ext := Sample.externals) Sample.world
                 (with_layout "content" sd) None None.
Proof.
  intros sd.
  assert (Hunk : ~ In (layout sd) knownLayouts)
    by (cbn; intros [E | [E | [E | [E | [E | []]]]]]; discriminate E).
  split; [exact Hunk |].
  exact (createSlide_unknown_layout_as_content (H := Sample.externals)
           Sample.world sd None None Hunk).
Defined.

(** ** The image_content builder *)

(** C9. The image_content builder never throws: it returns the slide with
    three more objects, the title box, the content box at the left, and at the
    right either the first extracted image or the placeholder box.  The image
    is the first one of the analysis, whatever the record says, and is placed
    when its file exists on disk (and pptxgenjs takes it); with no analysis, no
    extracted image, a missing file or an image pptxgenjs refuses, the right
    object is the placeholder: the two-line text "Template Image /
    Placeholder" centred in the same box, 14 points, in the body font and the
    accent colour, on a fill of [F3F4F6] within a one-point border of the
    accent colour. *)
Theorem createImageContentSlide_image_or_placeholder `{Externals}
    (w : World) (slide : Pptx.Slide) (sd : SlideData) (sc : StyleContext)
    (templateAnalysis : option TemplateAnalysis) :
  let rightBox := {| Pptx.x := 5.5; Pptx.y := 2; Pptx.w := 4; Pptx.h := 2.5 |} in
  let titleText :=
    Pptx.Text (title sd)
      {| Pptx.box := {| Pptx.x := 0.5; Pptx.y := 0.5; Pptx.w := 9; Pptx.h := 0.8 |};
         Pptx.fontSize := 28; Pptx.fontFace := titleFont sc;
         Pptx.color := titleColor sc; Pptx.bold := Some true;
         Pptx.align := None; Pptx.valign := None;
         Pptx.fill := None; Pptx.border := None |} in
  let contentText :=
    Pptx.Text (content sd)
      {| Pptx.box := {| Pptx.x := 0.5; Pptx.y := 1.5; Pptx.w := 4.5; Pptx.h := 3.5 |};
         Pptx.fontSize := 16; Pptx.fontFace := bodyFont sc;
         Pptx.color := textColor sc; Pptx.bold := None;
         Pptx.align := None; Pptx.valign := Some "top";
         Pptx.fill := None; Pptx.border := None |} in
  let placeholder :=
    Pptx.Text ("ðŸ“Š Template Image" +:+ String JS.newline "Placeholder")
      {| Pptx.box := rightBox;
         Pptx.fontSize := 14; Pptx.fontFace := bodyFont sc;
         Pptx.color := accentColor sc; Pptx.bold := None;
         Pptx.align := Some "center"; Pptx.valign := Some "middle";
         Pptx.fill := Some "F3F4F6";
         Pptx.border := Some (1%Z, accentColor sc) |} in
  let right :=
    match templateAnalysis with
    | Some {| extractedImages := first :: _ |} =>
        if Fs.existsSync w (filePath first) then
          if addImage_throws (filePath first) then placeholder
          else Pptx.Image (filePath first) rightBox
        else placeholder
    | _ => placeholder
    end in
  createImageContentSlide w slide sd sc templateAnalysis =
  Ok {| Pptx.background := Pptx.background slide;
        Pptx.objects := (Pptx.objects slide ++ [titleText; contentText; right])%list;
        Pptx.notes := Pptx.notes slide |}.
Proof.
  cbv zeta.
  assert (Happ : forall (a b c : Pptx.SlideObject),
            (((Pptx.objects slide ++ [a]) ++ [b]) ++ [c])%list
            = (Pptx.objects slide ++ [a; b; c])%list)
    by (intros; now rewrite <- !app_assoc).
  unfold createImageContentSlide, selectImageForReuse, addImagePlaceholder,
    addImage, Pptx.addText, Pptx.addObject, placeholderText, textProps, mkBox.
  cbn [Pptx.background Pptx.objects Pptx.notes].
  destruct templateAnalysis as [[sc' ic lc cs fs ml [| first rest] td] |];
    cbn [extractedImages List.length Nat.eqb head];
    [now rewrite Happ | | now rewrite Happ].
  destruct (Fs.existsSync w (filePath first)); [| now rewrite Happ].
  destruct (addImage_throws (filePath first));
    cbn [exc_catch Pptx.background Pptx.objects Pptx.notes]; now rewrite Happ.
Qed.

(** ** Generation without a usable template *)

Lemma createSlide_no_analysis `{Externals} (w w' : World) (sd : SlideData)
    (options : option GenOptions) :
  createSlide w sd options None = createSlide w' sd options None.
Proof. reflexivity. Qed.

Lemma createSlides_no_analysis `{Externals} (w w' : World)
    (sds : list SlideData) (pptx : Pptx.Presentation)
    (options : option GenOptions) :
  createSlides w pptx sds options None = createSlides w' pptx sds options None.
Proof.
  revert pptx. induction sds as [| sd sds IH]; intros pptx; [reflexivity |].
  cbn [createSlides]. rewrite (createSlide_no_analysis w w').
  destruct (createSlide w' sd options None) as [s | e]; cbn [exc_bind];
    [apply IH | reflexivity].
Qed.

Lemma buildPresentation_no_template `{Externals} (pd : PresentationData)
    (options : option GenOptions) (w : World) :
  buildPresentation pd None options w =
  (createSlides w (applyDefaultStyling (newPresentation pd)) (slides pd)
                options None, w).
Proof. reflexivity. Qed.

(** C10. Generating with a template path that names no file on disk gives
    what generating without a template gives: no analysis is attempted (the
    world is left as it was), every slide is built with the default style
    context, the document is the same whatever the disk and the UUID source
    are, and on the same world the whole call has the same outcome. *)
Theorem generatePresentation_missing_template `{Externals}
    (pd : PresentationData) (templatePath : string)
    (options : option GenOptions) (w : World) :
  Fs.existsSync w templatePath = false ->
  buildPresentation pd (Some templatePath) options w =
    (createSlides w (applyDefaultStyling (newPresentation pd)) (slides pd)
                  options None, w)
  /\ (forall w' : World,
        fst (buildPresentation pd (Some templatePath) options w) =
        fst (buildPresentation pd None options w'))
  /\ generatePresentation pd (Some templatePath) options w =
     generatePresentation pd None options w.
Proof.
  intros Hmissing.
  assert (Hb : buildPresentation pd (Some templatePath) options w =
               buildPresentation pd None options w).
  { unfold buildPresentation, styleDocument, bind.
    rewrite Hmissing, andb_false_r. reflexivity. }
  split; [| split].
  - rewrite Hb. apply buildPresentation_no_template.
  - intros w'. rewrite Hb, !buildPresentation_no_template. cbn [fst].
    apply createSlides_no_analysis.
  - unfold generatePresentation, bind. now rewrite Hb.
Qed.

Lemma generatePresentation_missing_template_witness :
  let pd := {| pres_title := "Q3 review";
               slides := [ {| slideNumber := 1; title := "Q3 review";
                              content := "Results"; layout := "title_slide";
                              speakerNotes := None; imagePrompt := None |};
                           {| slideNumber := 2; title := "Numbers";
                              content := "Chart"; layout := "image_content";
                              speakerNotes := Some "Explain"; imagePrompt := None |} ];
               totalSlides := 2; estimatedDuration := "5 min" |} in
  Fs.existsSync Sample.world "/tmp/gone.pptx" = false
  /\ generatePresentation (Ext := Sample.externals) pd (Some "/tmp/gone.pptx") None
       Sample.world
     = generatePresentation (Ext := Sample.externals) pd None None Sample.world.
Proof.
  intros pd.
  assert (Hm : Fs.existsSync Sample.world "/tmp/gone.pptx" = false)
    by (vm_compute; reflexivity).
  split; [exact Hm |].
  exact (proj2 (proj2 (generatePresentation_missing_template
                         (H := Sample.externals) pd "/tmp/gone.pptx" None
                         Sample.world Hm))).
Defined.

(** ** Image extraction as a plan *)

Lemma extractOne_eq `{Externals} (zip : JSZip) (templatePath p : string)
    (acc : list ExtractedImage) (w : World) :
  extractOne zip templatePath p acc w =
  match Zip.file zip p with
  | None => (Ok acc, w)
  | Some file =>
      match zdata file with
      | Throw e => (Throw e, w)
      | Ok buf =>
          let img := imageRecord templatePath p (uuids w (drawn w)) in
          if write_denied w (filePath img)
          then (Throw "EACCES", advance w (files w) (S (drawn w)))
          else (Ok (acc ++ [img])%list,
                advance w (<[filePath img := buf]> (files w)) (S (drawn w)))
      end
  end.
Proof.
  unfold extractOne. destruct (Zip.file zip p) as [file |]; [| reflexivity].
  unfold bind, lift, Zip.async_nodebuffer, randomUUID, Fs.writeFileSync, ret.
  destruct (zdata file) as [buf | e]; [| reflexivity].
  cbn [write_denied files read_denied uuids drawn imageRecord filePath].
  now destruct (write_denied w _).
Qed.

Lemma extractLoop_plan `{Externals} (zip : JSZip) (templatePath : string)
    (paths : list string) (acc : list ExtractedImage) (w : World) :
  match planLoop zip templatePath (uuids w) (write_denied w) paths (drawn w) with
  | Ok plan =>
      extractLoop zip templatePath paths acc w =
      (Ok (acc ++ map fst plan)%list,
       advance w (commit (files w) plan) (drawn w + List.length plan))
  | Throw e => exists w', extractLoop zip templatePath paths acc w = (Throw e, w')
  end.
Proof.
  revert acc w. induction paths as [| p rest IH]; intros acc w.
  - cbn. rewrite app_nil_r, Nat.add_0_r. destruct w; reflexivity.
  - cbn [planLoop extractLoop]. unfold bind. rewrite extractOne_eq.
    destruct (Zip.file zip p) as [file |]; [| apply IH].
    unfold Zip.async_nodebuffer.
    destruct (zdata file) as [buf | e]; cbn [exc_bind]; [| eauto].
    cbv zeta.
    set (img := imageRecord templatePath p (uuids w (drawn w))).
    destruct (write_denied w (filePath img)); [eauto |].
    set (w1 := advance w (<[filePath img := buf]> (files w)) (S (drawn w))).
    specialize (IH (acc ++ [img])%list w1).
    cbn [uuids write_denied drawn w1 advance] in IH.
    destruct (planLoop zip templatePath (uuids w) (write_denied w) rest (S (drawn w)))
      as [plan | e]; cbn [exc_bind]; [| exact IH].
    rewrite IH. cbn [map fst List.length commit fold_left snd files w1 advance].
    rewrite <- app_assoc. cbn [app].
    unfold advance. cbn [read_denied write_denied uuids].
    now rewrite Nat.add_succ_r.
Qed.

Lemma extractImages_plan `{Externals} (zip : JSZip) (templatePath : string)
    (w : World) :
  match planLoop zip templatePath (uuids w) (write_denied w) (mediaFiles zip) (drawn w) with
  | Ok plan =>
      extractImages zip templatePath w =
      (Ok (map fst plan),
       advance w (commit (files w) plan) (drawn w + List.length plan))
  | Throw _ => exists w', extractImages zip templatePath w = (Ok [], w')
  end.
Proof.
  unfold extractImages, try_catch.
  pose proof (extractLoop_plan zip templatePath (mediaFiles zip) [] w) as Hl.
  destruct (planLoop zip templatePath (uuids w) (write_denied w) (mediaFiles zip) (drawn w))
    as [plan | e].
  - now rewrite Hl.
  - destruct Hl as [w' ->]. now exists w'.
Qed.

Lemma attempts_of_cons (zip : JSZip) (p : string) (rest : list string) (n : nat) :
  attempts_of zip (p :: rest) n =
  match Zip.file zip p with
  | Some _ => (p, n) :: attempts_of zip rest (S n)
  | None => attempts_of zip rest n
  end.
Proof.
  unfold attempts_of. cbn [List.filter].
  destruct (Zip.file zip p); reflexivity.
Qed.

Lemma attempts_of_all (zip : JSZip) (paths : list string) (n : nat) :
  (forall p, In p paths -> exists file, Zip.file zip p = Some file) ->
  map fst (attempts_of zip paths n) = paths.
Proof.
  revert n. induction paths as [| p rest IH]; intros n Hfiles; [reflexivity |].
  rewrite attempts_of_cons.
  destruct (Hfiles p (or_introl eq_refl)) as [file ->].
  cbn [map fst]. f_equal. apply IH. intros q Hq. apply Hfiles. now right.
Qed.

(** The plan fails exactly when one of the attempts does, and otherwise
    holds the record of each attempt, in order. *)
Lemma planLoop_attempts `{Externals} (zip : JSZip) (templatePath : string)
    (w : World) (paths : list string) (n : nat) :
  match planLoop zip templatePath (uuids w) (write_denied w) paths n with
  | Ok plan =>
      existsb (attempt_fails zip templatePath w) (attempts_of zip paths n) = false /\
      map fst plan =
      map (fun pk => imageRecord templatePath (fst pk) (uuids w (snd pk)))
          (attempts_of zip paths n)
  | Throw _ =>
      existsb (attempt_fails zip templatePath w) (attempts_of zip paths n) = true
  end.
Proof.
  revert n. induction paths as [| p rest IH]; intros n.
  - cbn. split; reflexivity.
  - cbn [planLoop]. rewrite attempts_of_cons.
    destruct (Zip.file zip p) as [file |] eqn:Hfile; [| apply IH].
    cbn [existsb map]. unfold attempt_fails at 1 3. cbn [fst snd]. rewrite Hfile.
    destruct (Zip.async_nodebuffer file) as [buf | e]; cbn [exc_bind]; [| reflexivity].
    destruct (write_denied w _); [reflexivity |].
    specialize (IH (S n)).
    destruct (planLoop zip templatePath (uuids w) (write_denied w) rest (S n))
      as [plan | e]; cbn [exc_bind orb].
    + destruct IH as [Hno Hrec]. split; [exact Hno |].
      cbn [map fst]. now rewrite Hrec.
    + exact IH.
Qed.

Lemma planLoop_no_failure `{Externals} (zip : JSZip) (templatePath : string)
    (uu : nat -> string) (wd : string -> bool) (paths : list string) (n : nat) :
  (forall p, In p paths ->
     exists file buf, Zip.file zip p = Some file /\ zdata file = Ok buf) ->
  (forall path, wd path = false) ->
  exists plan,
    planLoop zip templatePath uu wd paths n = Ok plan /\
    Forall2 (planned zip templatePath uu)
            plan (combine paths (seq n (List.length paths))).
Proof.
  intros Hread Hwrite. revert n.
  induction paths as [| p rest IH]; intros n.
  - exists []. split; [reflexivity | constructor].
  - destruct (Hread p (or_introl eq_refl)) as (file & buf & Hfile & Hbuf).
    destruct (IH (fun q Hq => Hread q (or_intror Hq)) (S n)) as (plan & Hplan & Hall).
    exists ((imageRecord templatePath p (uu n), buf) :: plan). split.
    + cbn [planLoop]. rewrite Hfile. unfold Zip.async_nodebuffer. rewrite Hbuf.
      cbn [exc_bind]. rewrite Hwrite, Hplan. reflexivity.
    + cbn [List.length seq combine]. constructor; [| exact Hall].
      split; [reflexivity |]. exists file. now split.
Qed.

(** ** One failing part loses the whole batch *)

(** C7, as stated, fails: in [zipOneCorrupt] the first picture is read and
    saved, the second cannot be read, and the extractor returns no record at
    all. *)
Lemma extractImages_failure_not_isolated :
  fst (extractImages (Ext := Sample.externals) zipOneCorrupt "/tmp/good.pptx"
         Sample.world) = Ok []
  /\ files (snd (extractImages (Ext := Sample.externals) zipOneCorrupt
                   "/tmp/good.pptx" Sample.world))
       !! "/app/uploads/extracted_images/00000000-0000-4000-8000-000000000000_image1.png"
     = Some (Sample.bytes_of "PNGDATA")
  /\ ~ spec_failure_is_isolated (H := Sample.externals).
Proof.
  assert (Hres : fst (extractImages (Ext := Sample.externals) zipOneCorrupt
                        "/tmp/good.pptx" Sample.world) = Ok [])
    by (vm_compute; reflexivity).
  split; [exact Hres | split; [vm_compute; reflexivity |]].
  intros Hspec.
  destruct (Hspec zipOneCorrupt "/tmp/good.pptx" Sample.world
              "ppt/media/image1.png" (Sample.file "PNGDATA")
              (Sample.bytes_of "PNGDATA"))
    as (imgs & img & Himgs & Hin & _).
  - cbn. now left.
  - reflexivity.
  - reflexivity.
  - reflexivity.
  - rewrite Hres in Himgs. injection Himgs as <-. destruct Hin.
Qed.

(** C7 (amended). Extraction never raises to its caller.  A failure while
    extracting any single media part -- its bytes cannot be read, or the disk
    refuses the file it is saved as -- abandons the batch: the result is the
    empty list, whatever was extracted before.  When no part fails, the result
    has one record per media part the loop extracts, in listing order, each
    under the UUID drawn for it; and the loop extracts every media part when
    each of them is a file of the archive, as it is in a loaded archive. *)
Theorem extractImages_all_or_nothing `{Externals}
    (zip : JSZip) (templatePath : string) (w : World) :
  let tries := attempts zip (drawn w) in
  (exists imgs w', extractImages zip templatePath w = (Ok imgs, w'))
  /\ (forall pk, In pk tries -> attempt_fails zip templatePath w pk = true ->
        fst (extractImages zip templatePath w) = Ok [])
  /\ ((forall pk, In pk tries -> attempt_fails zip templatePath w pk = false) ->
      fst (extractImages zip templatePath w) =
      Ok (map (fun pk => imageRecord templatePath (fst pk) (uuids w (snd pk)))
              tries))
  /\ ((forall p, In p (mediaFiles zip) -> exists file, Zip.file zip p = Some file) ->
      map fst tries = mediaFiles zip).
Proof.
  cbv zeta. unfold attempts.
  pose proof (extractImages_plan zip templatePath w) as Hp.
  pose proof (planLoop_attempts zip templatePath w (mediaFiles zip) (drawn w)) as Ha.
  assert (Hparts : (forall p, In p (mediaFiles zip) ->
                      exists file, Zip.file zip p = Some file) ->
                   map fst (attempts_of zip (mediaFiles zip) (drawn w))
                   = mediaFiles zip) by apply attempts_of_all.
  destruct (planLoop zip templatePath (uuids w) (write_denied w) (mediaFiles zip) (drawn w))
    as [plan | e].
  - destruct Ha as [Hno Hrec]. rewrite Hp. cbn [fst].
    split; [eauto | split; [| split; [| exact Hparts]]].
    + intros pk Hin Hfail. exfalso.
      assert (Hex : existsb (attempt_fails zip templatePath w)
                      (attempts_of zip (mediaFiles zip) (drawn w)) = true)
        by (apply existsb_exists; eauto).
      congruence.
    + intros _. now rewrite Hrec.
  - destruct Hp as [w' Hw']. rewrite Hw'. cbn [fst].
    split; [eauto | split; [reflexivity | split; [| exact Hparts]]].
    intros Hnone. exfalso.
    apply existsb_exists in Ha as (pk & Hin & Hfail).
    rewrite (Hnone pk Hin) in Hfail. discriminate.
Qed.

Lemma extractImages_all_or_nothing_witness :
  let second :=
    ("ppt/media/photo.JPEG", 1) in
  In second (attempts Sample.zip (drawn worldOneRefusal))
  /\ attempt_fails (H := Sample.externals) Sample.zip "/tmp/good.pptx"
       worldOneRefusal second = true
  /\ write_denied worldOneRefusal
       (filePath (imageRecord (H := Sample.externals) "/tmp/good.pptx"
                    "ppt/media/photo.JPEG" (Sample.uuid 2))) = false
  /\ fst (extractImages (Ext := Sample.externals) Sample.zip "/tmp/good.pptx"
            worldOneRefusal) = Ok [].
Proof.
  intros second.
  assert (Hin : In second (attempts Sample.zip (drawn worldOneRefusal)))
    by (vm_compute; right; left; reflexivity).
  assert (Hf : attempt_fails (H := Sample.externals) Sample.zip "/tmp/good.pptx"
                 worldOneRefusal second = true) by (vm_compute; reflexivity).
  split; [exact Hin | split; [exact Hf | split; [vm_compute; reflexivity |]]].
  exact (proj1 (proj2 (extractImages_all_or_nothing (H := Sample.externals)
                         Sample.zip "/tmp/good.pptx" worldOneRefusal))
           second Hin Hf).
Defined.

(** ** Round trip of the extracted pictures *)

Lemma endsWith_last_char (s p : string) :
  JS.endsWith s p = true -> p <> EmptyString -> last_char s = last_char p.
Proof.
  intros He Hp. induction s as [| c t IH].
  - cbn [JS.endsWith] in He. rewrite orb_false_r in He.
    apply String.eqb_eq in He. congruence.
  - cbn [JS.endsWith] in He. apply orb_true_iff in He as [He | He].
    + apply String.eqb_eq in He. now subst.
    + destruct t as [| d t'].
      * cbn [JS.endsWith] in He. rewrite orb_false_r in He.
        apply String.eqb_eq in He. congruence.
      * rewrite <- (IH He). reflexivity.
Qed.

Lemma last_char_map_chars (f : ascii -> ascii) (s : string) :
  last_char (JS.map_chars f s) = option_map f (last_char s).
Proof.
  induction s as [| c t IH]; [reflexivity |].
  destruct t as [| d t']; [reflexivity |].
  cbn [JS.map_chars last_char] in *. exact IH.
Qed.

Lemma media_name_not_folder (p : string) :
  has_media_extension p = true -> JS.endsWith p "/" = false.
Proof.
  intros Hm. destruct (JS.endsWith p "/") eqn:Hs; [| reflexivity].
  exfalso.
  apply endsWith_last_char in Hs; [| discriminate].
  assert (Hl : last_char (JS.toLowerCase p) = Some "/"%char).
  { unfold JS.toLowerCase. now rewrite last_char_map_chars, Hs. }
  unfold has_media_extension in Hm. apply existsb_exists in Hm as (ext & Hin & He).
  apply endsWith_last_char in He.
  - rewrite Hl in He. cbn in Hin.
    destruct Hin as [<- | [<- | [<- | [<- | [<- | [<- | []]]]]]]; discriminate He.
  - cbn in Hin.
    destruct Hin as [<- | [<- | [<- | [<- | [<- | [<- | []]]]]]]; discriminate.
Qed.

Lemma assoc_In {A} (k : string) (l : list (string * A)) (v : A) :
  assoc k l = Some v -> In (k, v) l.
Proof.
  induction l as [| [k' v'] l IH]; cbn; [discriminate |].
  destruct (String.eqb_spec k k') as [-> | _].
  - intros [= ->]. now left.
  - intros Hl. right. now apply IH.
Qed.

Lemma assoc_key {A} (k : string) (l : list (string * A)) :
  In k (map fst l) -> exists v, assoc k l = Some v.
Proof.
  induction l as [| [k' v'] l IH]; cbn; [intros [] |].
  destruct (String.eqb_spec k k') as [-> | Hne]; [eauto |].
  intros [E | Hin]; [congruence | now apply IH].
Qed.

(** In a well-formed archive every listed media part is a file. *)
Lemma media_part_is_file (zip : JSZip) (p : string) :
  Zip.wf zip -> In p (mediaFiles zip) -> exists file, Zip.file zip p = Some file.
Proof.
  intros [_ Hdirs] Hin. unfold mediaFiles in Hin.
  apply filter_In in Hin as [Hkey Hmedia].
  destruct (assoc_key p zip Hkey) as [o Ho].
  unfold Zip.file. rewrite Ho.
  destruct (zdir o) eqn:Hd; [| eauto].
  exfalso. apply assoc_In in Ho.
  unfold Zip.folder_names_ok in Hdirs. rewrite forallb_forall in Hdirs.
  specialize (Hdirs _ Ho). cbn [fst snd] in Hdirs. rewrite Hd in Hdirs.
  cbn [implb] in Hdirs.
  unfold is_media in Hmedia. apply andb_true_iff in Hmedia as [_ Hext].
  rewrite (media_name_not_folder p Hext) in Hdirs. discriminate.
Qed.

Lemma append_cancel_l (a x y : string) : a +:+ x = a +:+ y -> x = y.
Proof.
  induction a as [| c a IH]; cbn; [auto |]. intros [= E]. auto.
Qed.

Lemma append_same_length (a b x y : string) :
  String.length a = String.length b -> a +:+ x = b +:+ y -> a = b.
Proof.
  revert b. induction a as [| c a IH]; intros [| d b]; cbn; try discriminate.
  - reflexivity.
  - intros [= Hl] [= -> E]. f_equal. now apply IH.
Qed.

(** Two parts saved under UUIDs of the same length land on the same path
    only if the UUIDs are the same. *)
Lemma imageRecord_path_inj `{Externals} (t p q u v : string) :
  String.length u = String.length v ->
  filePath (imageRecord t p u) = filePath (imageRecord t q v) -> u = v.
Proof.
  intros Hl. cbn [filePath imageRecord]. unfold Fs.join.
  destruct (JS.endsWith imagesDir "/"); intros E.
  - apply append_cancel_l in E. exact (append_same_length _ _ _ _ Hl E).
  - apply append_cancel_l, append_cancel_l in E.
    exact (append_same_length _ _ _ _ Hl E).
Qed.

Lemma commit_lookup_other (plan : list (ExtractedImage * Buffer))
    (fs : gmap string Buffer) (path : string) :
  ~ In path (map (fun e => filePath (fst e)) plan) ->
  commit fs plan !! path = fs !! path.
Proof.
  revert fs. induction plan as [| e plan IH]; intros fs Hn; [reflexivity |].
  cbn [commit fold_left]. fold (commit (<[filePath (fst e) := snd e]> fs) plan).
  rewrite IH by (intros Hin; apply Hn; now right).
  apply lookup_insert_ne. intros E. apply Hn. now left.
Qed.

Lemma commit_lookup (plan : list (ExtractedImage * Buffer))
    (fs : gmap string Buffer) (e : ExtractedImage * Buffer) :
  List.NoDup (map (fun e => filePath (fst e)) plan) -> In e plan ->
  commit fs plan !! filePath (fst e) = Some (snd e).
Proof.
  revert fs. induction plan as [| e0 plan IH]; intros fs Hnd Hin; [destruct Hin |].
  cbn [map] in Hnd. apply NoDup_cons_iff in Hnd as [Hfresh Hnd].
  cbn [commit fold_left]. fold (commit (<[filePath (fst e0) := snd e0]> fs) plan).
  destruct Hin as [-> | Hin].
  - rewrite commit_lookup_other by exact Hfresh. apply lookup_insert_eq.
  - now apply IH.
Qed.

Lemma extractThemeData_total `{Externals} (zip : JSZip) :
  exists td, extractThemeData zip = Ok td.
Proof.
  unfold extractThemeData, Zip.async_string.
  destruct (Zip.file zip "ppt/theme/theme1.xml") as [f |]; cbn; [| eauto].
  destruct (zdata f) as [b | e]; cbn; [| eauto].
  destruct (xml2js_parse (string_of_list_byte b)); cbn; eauto.
Qed.

Lemma analyzeSlideStructure_total (zip : JSZip) :
  exists ss, analyzeSlideStructure zip = Ok ss.
Proof.
  unfold analyzeSlideStructure, Zip.async_string.
  destruct (Zip.file zip "ppt/slideMasters/slideMaster1.xml") as [f |]; cbn; [| eauto].
  destruct (zdata f); cbn; eauto.
Qed.

Lemma planned_member `{Externals} (zip : JSZip) (t : string) (uu : nat -> string)
    (paths : list string) (plan : list (ExtractedImage * Buffer)) (n : nat)
    (e : ExtractedImage * Buffer) :
  Forall2 (planned zip t uu) plan (combine paths (seq n (List.length paths))) ->
  In e plan ->
  exists p k, In k (seq n (List.length paths)) /\ fst e = imageRecord t p (uu k).
Proof.
  revert plan n. induction paths as [| p rest IH]; intros plan n Hall Hin.
  - inversion Hall; subst. destruct Hin.
  - cbn [List.length seq combine] in Hall.
    inversion Hall as [| e0 pk plan' l' [He0 _] Hrest]; subst.
    destruct Hin as [-> | Hin].
    + exists p, n. split; [now left | exact He0].
    + destruct (IH _ _ Hrest Hin) as (q & k & Hk & Hq).
      exists q, k. split; [now right | exact Hq].
Qed.

Lemma planned_paths_nodup `{Externals} (zip : JSZip) (t : string)
    (uu : nat -> string) (paths : list string)
    (plan : list (ExtractedImage * Buffer)) (n : nat) :
  Forall2 (planned zip t uu) plan (combine paths (seq n (List.length paths))) ->
  List.NoDup (map uu (seq n (List.length paths))) ->
  Forall (fun u => String.length u = 36) (map uu (seq n (List.length paths))) ->
  List.NoDup (map (fun e => filePath (fst e)) plan).
Proof.
  revert plan n. induction paths as [| p rest IH]; intros plan n Hall Hnd Hlen.
  - inversion Hall; subst. constructor.
  - cbn [List.length seq combine map] in *.
    inversion Hall as [| e0 pk plan' l' [He0 _] Hrest]; subst.
    apply NoDup_cons_iff in Hnd as [Hfresh Hnd].
    apply Forall_cons_iff in Hlen as [Hl0 Hlen].
    cbn [map]. constructor; [| now apply (IH _ _ Hrest)].
    intros Hin. apply in_map_iff in Hin as (e & Hpath & Hine).
    destruct (planned_member _ _ _ _ _ _ _ Hrest Hine) as (q & k & Hk & Hq).
    apply Hfresh. apply in_map_iff. exists k. split; [| exact Hk].
    rewrite Hq, He0 in Hpath. cbn [fst snd] in Hpath.
    apply imageRecord_path_inj in Hpath; [exact Hpath |].
    rewrite Hl0. rewrite List.Forall_forall in Hlen.
    apply Hlen. apply in_map_iff. eauto.
Qed.

(** C8. A successful analysis of a template whose container lists [N]
    media parts of the allowed types returns exactly [N] extracted-image
    records, one per part in listing order, and for each record the file at
    its path holds the bytes of that part, hence as many bytes.  Successful
    means: the template is read and opened, every media part is read, every
    write is accepted, and [randomUUID] returns fresh UUIDs. *)
Theorem analyzeTemplate_media_roundtrip `{Externals}
    (templatePath : string) (w : World) (data : Buffer) (zip : JSZip) :
  files w !! templatePath = Some data ->
  read_denied w templatePath = false ->
  JSZip_loadAsync data = Ok zip ->
  Zip.wf zip ->
  (forall p file, In p (mediaFiles zip) -> Zip.file zip p = Some file ->
                  exists buf, zdata file = Ok buf) ->
  (forall path, write_denied w path = false) ->
  fresh_uuids w (List.length (mediaFiles zip)) ->
  exists ta w',
    analyzeTemplate templatePath w = (Ok ta, w') /\
    List.length (extractedImages ta) = List.length (mediaFiles zip) /\
    imageCount ta = List.length (mediaFiles zip) /\
    Forall2 (fun img p =>
               exists file src saved,
                 Zip.file zip p = Some file /\ zdata file = Ok src /\
                 originalName img = Fs.basename p /\
                 files w' !! filePath img = Some saved /\
                 saved = src /\ List.length saved = List.length src)
            (extractedImages ta) (mediaFiles zip).
Proof.
  intros Hfile Hread Hzip Hwf Hparts Hwrite [Hnd Hlen].
  assert (Hall : forall p, In p (mediaFiles zip) ->
            exists file buf, Zip.file zip p = Some file /\ zdata file = Ok buf).
  { intros p Hp. destruct (media_part_is_file zip p Hwf Hp) as [file Hf].
    destruct (Hparts p file Hp Hf) as [buf Hb]. eauto. }
  destruct (planLoop_no_failure zip templatePath (uuids w) (write_denied w)
              (mediaFiles zip) (drawn w) Hall Hwrite) as (plan & Hplan & Hpl).
  pose proof (extractImages_plan zip templatePath w) as Hex. rewrite Hplan in Hex.
  destruct (extractThemeData_total zip) as [td Htd].
  destruct (analyzeSlideStructure_total zip) as [ss Hss].
  pose proof (planned_paths_nodup _ _ _ _ _ _ Hpl Hnd Hlen) as Hpaths.
  eexists. exists (advance w (commit (files w) plan) (drawn w + List.length plan)).
  split; [| split; [| split]].
  - unfold analyzeTemplate, try_catch, analyzeTemplate_body, bind.
    unfold Fs.existsSync. rewrite bool_decide_eq_true_2 by (rewrite Hfile; eauto).
    cbn [negb]. unfold Fs.readFileSync, lift. rewrite Hfile, Hread, Hzip, Htd, Hex, Hss.
    reflexivity.
  - cbn [extractedImages]. rewrite length_map.
    apply Forall2_length in Hpl. rewrite Hpl, length_combine, length_seq. lia.
  - cbn [imageCount]. rewrite length_map.
    apply Forall2_length in Hpl. rewrite Hpl, length_combine, length_seq. lia.
  - cbn [extractedImages advance files].
    assert (Hsaved : forall e, In e plan ->
              commit (files w) plan !! filePath (fst e) = Some (snd e))
      by (intros e He; now apply commit_lookup).
    clear Hex Hplan Hnd Hlen Hpaths Hall Hparts.
    generalize dependent (commit (files w) plan). intros disk Hsaved.
    generalize dependent (drawn w). intros n Hpl.
    revert plan n Hpl Hsaved.
    induction (mediaFiles zip) as [| p rest IH]; intros plan n Hpl Hsaved.
    + inversion Hpl; subst. constructor.
    + cbn [List.length seq combine] in Hpl.
      inversion Hpl as [| e pk plan' l' [He (file & Hf & Hb)] Hrest]; subst.
      cbn [map fst snd] in *. constructor.
      * exists file, (snd e), (snd e). rewrite He at 1. cbn [originalName imageRecord].
        repeat split; try assumption. apply Hsaved. now left.
      * apply (IH plan' (S n) Hrest). intros e' He'. apply Hsaved. now right.
Qed.

Lemma analyzeTemplate_media_roundtrip_witness :
  files Sample.world !! "/tmp/good.pptx" = Some (Sample.bytes_of "PK")
  /\ read_denied Sample.world "/tmp/good.pptx" = false
  /\ JSZip_loadAsync (Externals := Sample.externals) (Sample.bytes_of "PK")
     = Ok Sample.zip
  /\ Zip.wf Sample.zip
  /\ (forall p file, In p (mediaFiles Sample.zip) ->
        Zip.file Sample.zip p = Some file -> exists buf, zdata file = Ok buf)
  /\ (forall path, write_denied Sample.world path = false)
  /\ fresh_uuids Sample.world (List.length (mediaFiles Sample.zip))
  /\ exists ta w',
       analyzeTemplate (Ext := Sample.externals) "/tmp/good.pptx" Sample.world
       = (Ok ta, w') /\
       List.length (extractedImages ta) = 2 /\
       imageCount ta = 2 /\
       Forall2 (fun img p =>
                  exists file src saved,
                    Zip.file Sample.zip p = Some file /\ zdata file = Ok src /\
                    originalName img = Fs.basename p /\
                    files w' !! filePath img = Some saved /\
                    saved = src /\ List.length saved = List.length src)
               (extractedImages ta)
               ["ppt/media/image1.png"; "ppt/media/photo.JPEG"].
Proof.
  assert (H1 : files Sample.world !! "/tmp/good.pptx" = Some (Sample.bytes_of "PK"))
    by (vm_compute; reflexivity).
  assert (H2 : read_denied Sample.world "/tmp/good.pptx" = false) by reflexivity.
  assert (H3 : JSZip_loadAsync (Externals := Sample.externals) (Sample.bytes_of "PK")
               = Ok Sample.zip) by (vm_compute; reflexivity).
  assert (H4 : Zip.wf Sample.zip).
  { split; [| reflexivity].
    repeat (constructor; [cbn; intuition discriminate |]). constructor. }
  assert (H5 : forall p file, In p (mediaFiles Sample.zip) ->
                 Zip.file Sample.zip p = Some file -> exists buf, zdata file = Ok buf).
  { intros p file Hin.
    change (mediaFiles Sample.zip)
      with ["ppt/media/image1.png"; "ppt/media/photo.JPEG"] in Hin.
    destruct Hin as [<- | [<- | []]]; intros [= <-]; eexists; reflexivity. }
  assert (H6 : forall path, write_denied Sample.world path = false) by reflexivity.
  assert (H7 : fresh_uuids Sample.world (List.length (mediaFiles Sample.zip))).
  { split; vm_compute.
    - constructor; [intros [E | []]; discriminate E |].
      constructor; [intros [] | constructor].
    - repeat constructor. }
  repeat (split; [assumption |]).
  exact (analyzeTemplate_media_roundtrip (H := Sample.externals)
           "/tmp/good.pptx" Sample.world (Sample.bytes_of "PK") Sample.zip
           H1 H2 H3 H4 H5 H6 H7).
Defined.

(** ** Shape of the extracted colours *)

Lemma upper_hex_char (c : ascii) :
  is_hex_char c = true -> is_upper_hex_char (JS.upper_char c) = true.
Proof.
  destruct c as [[] [] [] [] [] [] [] []]; vm_compute; intros E;
    first [reflexivity | discriminate E].
Qed.

Lemma length_map_chars (f : ascii -> ascii) (s : string) :
  String.length (JS.map_chars f s) = String.length s.
Proof. induction s as [| c t IH]; cbn; congruence. Qed.

Lemma hash_upper_hex6 (v : string) :
  is_hex6 v = true -> is_hash_hex6 ("#" +:+ JS.toUpperCase v) = true.
Proof.
  unfold is_hex6. intros Hv. apply andb_true_iff in Hv as [Hlen Hall].
  change (is_hash_hex6 (String "#" (JS.toUpperCase v)) = true).
  cbn [is_hash_hex6]. unfold JS.toUpperCase.
  rewrite length_map_chars, Hlen.
  change (Ascii.eqb "#" "#") with true. cbn [andb].
  clear Hlen. induction v as [| c t IH]; [reflexivity |].
  cbn [all_chars JS.map_chars] in *. apply andb_true_iff in Hall as [Hc Ht].
  now rewrite (upper_hex_char c Hc), (IH Ht).
Qed.

Lemma first_key_hex (arr : list XmlNode) (key v : string) :
  forallb (attr_hex key) arr = true ->
  first_key arr key = Some (inl v) -> is_hex6 v = true.
Proof.
  unfold first_key, Xml.first. destruct arr as [| n rest]; [discriminate |].
  cbn [head forallb]. intros Hall. apply andb_true_iff in Hall as [Hn _].
  unfold attr_hex in Hn.
  destruct (Xml.attrs_of n) as [a |].
  - destruct (assoc key a) as [v' |]; [| discriminate].
    destruct (JS.truthy v'); [| discriminate]. now intros [= <-].
  - destruct (Xml.kids_named n key); discriminate.
Qed.

Lemma scan_nested_hex (element : XmlNode) (keys : list string) (s : string) :
  scan_nested element keys = Some s -> is_hash_hex6 s = true.
Proof.
  induction keys as [| key rest IH]; [discriminate |].
  cbn [scan_nested].
  destruct (JS.includes key "Clr"); [| exact IH].
  destruct (Xml.kids_named element key) as [arr |]; [| exact IH].
  destruct (Xml.first arr) as [n0 |]; [| exact IH].
  destruct (Xml.truthy n0); [| exact IH].
  destruct (Xml.attrs_of n0) as [a |]; [| exact IH].
  destruct (assoc "val" a) as [colorVal |]; [| exact IH].
  destruct (JS.truthy colorVal && is_hex6 colorVal) eqn:Hv; [| exact IH].
  intros [= <-]. apply andb_true_iff in Hv as [_ Hv]. now apply hash_upper_hex6.
Qed.

(** The last two strategies of [extractColorValue]: the slot's own [val],
    then the scan of its children. *)
Ltac direct_or_nested Hval :=
  unfold attr_hex in Hval;
  destruct (Xml.attrs_of _) as [a |];
  [ destruct (assoc "val" a) as [v |]; [destruct (JS.truthy v) |] |];
  intros [= E];
  first [ subst; now apply hash_upper_hex6
        | exact (scan_nested_hex _ _ _ E) ].

(** The first two strategies: an attribute of the first child of a given
    name. *)
Ltac from_first_child Hall Hk :=
  first [ discriminate
        | cbn; intros [= <-]; apply hash_upper_hex6;
          exact (first_key_hex _ _ _ Hall Hk) ].

Lemma extractColorValue_body_hex (element : XmlNode) (s : string) :
  slot_valid element = true ->
  extractColorValue_body element = Ok (Some s) -> is_hash_hex6 s = true.
Proof.
  unfold slot_valid, children_hex, extractColorValue_body. intros Hv.
  apply andb_true_iff in Hv as [Hv Hval]. apply andb_true_iff in Hv as [Hrgb Hsys].
  destruct (Xml.child element "a:srgbClr" "srgbClr") as [srgb |];
    [destruct (first_key srgb "val") as [[v | ks] |] eqn:Hk;
       [from_first_child Hrgb Hk .. |] |];
    (destruct (Xml.child element "a:sysClr" "sysClr") as [sys |];
     [destruct (first_key sys "lastClr") as [[v' | ks'] |] eqn:Hk';
        [from_first_child Hsys Hk' .. |] |]);
    direct_or_nested Hval.
Qed.

Lemma extractColorValue_hex (arr : list XmlNode) (s : string) :
  forallb slot_valid arr = true ->
  extractColorValue (Some arr) = Some s -> is_hash_hex6 s = true.
Proof.
  unfold extractColorValue, Xml.first.
  destruct arr as [| element rest]; [discriminate |].
  cbn [head forallb]. intros Hv. apply andb_true_iff in Hv as [Hv _].
  destruct (Xml.truthy element); [| discriminate].
  destruct (extractColorValue_body element) as [[r |] | e] eqn:Hb; try discriminate.
  intros [= <-]. exact (extractColorValue_body_hex _ _ Hv Hb).
Qed.

Lemma assoc_forallb {A} (P : A -> bool) (k : string) (l : list (string * A)) (v : A) :
  forallb (fun kv => P (snd kv)) l = true -> assoc k l = Some v -> P v = true.
Proof.
  intros Hall Hk. apply assoc_In in Hk.
  rewrite forallb_forall in Hall. exact (Hall _ Hk).
Qed.

Lemma slot_hex (scheme : XmlNode) (qualified plain dflt : string) :
  scheme_valid scheme = true -> is_hash_hex6 dflt = true ->
  is_hash_hex6 (slot scheme qualified plain dflt) = true.
Proof.
  intros Hv Hd. unfold slot, JS.or_default.
  destruct (extractColorValue (Xml.child scheme qualified plain)) as [s |] eqn:He;
    [| exact Hd].
  destruct (JS.truthy s); [| exact Hd].
  destruct (Xml.child scheme qualified plain) as [arr |] eqn:Hc; [| discriminate He].
  apply (extractColorValue_hex arr); [| exact He].
  destruct scheme as [t | attrs kids]; [discriminate Hc |].
  cbn [scheme_valid] in Hv. unfold Xml.child, JS.or_else, Xml.kids_named in Hc.
  destruct (assoc qualified kids) as [arr' |] eqn:Hq.
  - injection Hc as <-. exact (assoc_forallb (forallb slot_valid) _ _ _ Hv Hq).
  - exact (assoc_forallb (forallb slot_valid) _ _ _ Hv Hc).
Qed.

Lemma parseColorScheme_hex (themeData : option XmlDoc) :
  theme_colors_valid themeData = true ->
  Forall (fun c => is_hash_hex6 c = true) (color_values (parseColorScheme themeData)).
Proof.
  unfold theme_colors_valid, parseColorScheme. intros Hv.
  destruct (color_scheme_node themeData) as [[scheme |] | e];
    try (repeat constructor).
  all: cbn [scheme_colors background1 text1 background2 text2 accent1 accent2
            accent3 accent4 accent5 accent6 hyperlink followedHyperlink];
    now apply slot_hex.
Qed.

(** C3. For a template whose theme part is there, is read and parses, and
    whose theme is valid (the colour attributes are six-digit hexadecimal
    values), theme extraction succeeds and the colour scheme it returns has
    its twelve slots populated, each matching [^#[0-9A-F]{6}$]. *)
Theorem extractThemeData_hex_slots `{Externals}
    (zip : JSZip) (themeFile : ZipObject) (themeXml : string)
    (themeData : option XmlDoc) :
  Zip.file zip "ppt/theme/theme1.xml" = Some themeFile ->
  Zip.async_string themeFile = Ok themeXml ->
  xml2js_parse themeXml = Ok themeData ->
  theme_colors_valid themeData = true ->
  exists td,
    extractThemeData zip = Ok td /\
    color_values (colorScheme td) =
      [ background1 (colorScheme td); text1 (colorScheme td);
        background2 (colorScheme td); text2 (colorScheme td);
        accent1 (colorScheme td); accent2 (colorScheme td);
        accent3 (colorScheme td); accent4 (colorScheme td);
        accent5 (colorScheme td); accent6 (colorScheme td);
        hyperlink (colorScheme td); followedHyperlink (colorScheme td) ] /\
    Forall (fun c => is_hash_hex6 c = true) (color_values (colorScheme td)).
Proof.
  intros Hfile Hxml Hparse Hvalid.
  exists {| colorScheme := parseColorScheme themeData;
            fontScheme := parseFontScheme themeData;
            effectScheme := NoEffects |}.
  split; [| split; [reflexivity |]].
  - unfold extractThemeData. rewrite Hfile, Hxml. cbn [exc_bind].
    rewrite Hparse. reflexivity.
  - cbn [colorScheme]. now apply parseColorScheme_hex.
Qed.

Lemma extractThemeData_hex_slots_witness :
  Zip.file Sample.zip "ppt/theme/theme1.xml" = Some (Sample.file "<a:theme/>")
  /\ Zip.async_string (Sample.file "<a:theme/>") = Ok "<a:theme/>"
  /\ xml2js_parse (Externals := Sample.externals) "<a:theme/>" = Ok (Some Sample.themeDoc)
  /\ theme_colors_valid (Some Sample.themeDoc) = true
  /\ exists td,
       extractThemeData (Ext := Sample.externals) Sample.zip = Ok td /\
       text1 (colorScheme td) = "#000000" /\
       accent1 (colorScheme td) = "#4F81BD" /\
       Forall (fun c => is_hash_hex6 c = true) (color_values (colorScheme td)).
Proof.
  assert (H1 : Zip.file Sample.zip "ppt/theme/theme1.xml"
               = Some (Sample.file "<a:theme/>")) by reflexivity.
  assert (H2 : Zip.async_string (Sample.file "<a:theme/>") = Ok "<a:theme/>")
    by reflexivity.
  assert (H3 : xml2js_parse (Externals := Sample.externals) "<a:theme/>"
               = Ok (Some Sample.themeDoc)) by reflexivity.
  assert (H4 : theme_colors_valid (Some Sample.themeDoc) = true)
    by (vm_compute; reflexivity).
  repeat (split; [assumption |]).
  destruct (extractThemeData_hex_slots (H := Sample.externals) Sample.zip _ _ _
              H1 H2 H3 H4) as (td & Htd & _ & Hall).
  exists td. split; [exact Htd |].
  assert (E : td = {| colorScheme := parseColorScheme (Some Sample.themeDoc);
                      fontScheme := parseFontScheme (Some Sample.themeDoc);
                      effectScheme := NoEffects |})
    by (vm_compute in Htd; injection Htd as <-; vm_compute; reflexivity).
  split; [rewrite E; vm_compute; reflexivity |].
  split; [rewrite E; vm_compute; reflexivity | exact Hall].
Defined.

Lemma parseColorScheme_unchecked_value :
  theme_colors_valid (Some themeDocNamedColour) = false
  /\ accent1 (parseColorScheme (Some themeDocNamedColour)) = "#RED"
  /\ is_hash_hex6 (accent1 (parseColorScheme (Some themeDocNamedColour))) = false.
Proof. repeat split; vm_compute; reflexivity. Qed.

(** ** Every colour the analysis produces starts with [#] *)

Lemma scan_nested_hash (element : XmlNode) (keys : list string) (s : string) :
  scan_nested element keys = Some s -> exists v, s = String "#" (JS.toUpperCase v).
Proof.
  induction keys as [| key rest IH]; [discriminate |].
  cbn [scan_nested].
  destruct (JS.includes key "Clr"); [| exact IH].
  destruct (Xml.kids_named element key) as [arr |]; [| exact IH].
  destruct (Xml.first arr) as [n0 |]; [| exact IH].
  destruct (Xml.truthy n0); [| exact IH].
  destruct (Xml.attrs_of n0) as [a |]; [| exact IH].
  destruct (assoc "val" a) as [colorVal |]; [| exact IH].
  destruct (JS.truthy colorVal && is_hex6 colorVal); [| exact IH].
  intros [= <-]. eauto.
Qed.

Lemma extractColorValue_body_hash (element : XmlNode) (s : string) :
  extractColorValue_body element = Ok (Some s) ->
  exists v, s = String "#" (JS.toUpperCase v).
Proof.
  unfold extractColorValue_body.
  destruct (Xml.child element "a:srgbClr" "srgbClr") as [srgb |];
    [destruct (first_key srgb "val") as [[v | ks] |];
       [cbn; intros [= <-]; eauto | discriminate |] |];
    (destruct (Xml.child element "a:sysClr" "sysClr") as [sys |];
     [destruct (first_key sys "lastClr") as [[v' | ks'] |];
        [cbn; intros [= <-]; eauto | discriminate |] |]);
    (destruct (Xml.attrs_of element) as [a |];
     [destruct (assoc "val" a) as [v0 |]; [destruct (JS.truthy v0) |] |]);
    intros [= E];
    first [subst; eexists; reflexivity | exact (scan_nested_hash _ _ _ E)].
Qed.

Lemma hash_leads_hash (t : string) : hash_leads (String "#" t) = true.
Proof.
  unfold hash_leads, JS.startsWith. cbn [String.prefix].
  destruct (ascii_dec "#" "#") as [_ | Hne]; [| congruence].
  now destruct t.
Qed.

Lemma slot_hash_leads (scheme : XmlNode) (qualified plain dflt : string) :
  hash_leads dflt = true -> hash_leads (slot scheme qualified plain dflt) = true.
Proof.
  intros Hd. unfold slot, JS.or_default, extractColorValue.
  destruct (Xml.child scheme qualified plain) as [arr |]; [| exact Hd].
  destruct (Xml.first arr) as [element |]; [| exact Hd].
  destruct (Xml.truthy element); [| exact Hd].
  destruct (extractColorValue_body element) as [[s |] | e] eqn:Hb; try exact Hd.
  destruct (JS.truthy s); [| exact Hd].
  destruct (extractColorValue_body_hash _ _ Hb) as [v ->]. apply hash_leads_hash.
Qed.

Lemma parseColorScheme_hash_leads (themeData : option XmlDoc) :
  Forall (fun c => hash_leads c = true) (color_values (parseColorScheme themeData)).
Proof.
  unfold parseColorScheme.
  destruct (color_scheme_node themeData) as [[scheme |] | e];
    try (repeat constructor).
  all: cbn [scheme_colors background1 text1 background2 text2 accent1 accent2
            accent3 accent4 accent5 accent6 hyperlink followedHyperlink];
    now apply slot_hash_leads.
Qed.

Lemma extractThemeData_hash_leads `{Externals} (zip : JSZip) (td : ThemeData) :
  extractThemeData zip = Ok td ->
  Forall (fun c => hash_leads c = true) (color_values (colorScheme td)).
Proof.
  unfold extractThemeData, Zip.async_string.
  destruct (Zip.file zip "ppt/theme/theme1.xml") as [f |]; cbn [exc_catch].
  - destruct (zdata f) as [b | e]; cbn [exc_bind exc_catch].
    + destruct (xml2js_parse (string_of_list_byte b)) as [doc | e];
        cbn [exc_bind exc_catch]; intros [= <-].
      * apply parseColorScheme_hash_leads.
      * repeat constructor.
    + intros [= <-]. repeat constructor.
  - intros [= <-]. repeat constructor.
Qed.

(** [analyzeTemplate] always returns an analysis, and the colours the
    style context is resolved from have their [#] in front. *)
Lemma analyzeTemplate_hashes_lead `{Externals} (filePath : string) (w : World) :
  exists ta w',
    analyzeTemplate filePath w = (Ok ta, w') /\ hashes_lead (Some ta) = true.
Proof.
  unfold analyzeTemplate, try_catch, analyzeTemplate_body, bind, lift, ret, raise.
  destruct (negb (Fs.existsSync w filePath)); [eauto |].
  destruct (Fs.readFileSync filePath w) as [[data | e] w1]; [| eauto].
  destruct (JSZip_loadAsync data) as [zip | e]; [| eauto].
  destruct (extractThemeData zip) as [td | e] eqn:Htd; [| eauto].
  destruct (extractImages zip filePath w1) as [[imgs | e] w2]; [| eauto].
  destruct (analyzeSlideStructure zip) as [ss | e]; [| eauto].
  eexists. eexists. split; [reflexivity |].
  pose proof (extractThemeData_hash_leads zip td Htd) as Hall.
  cbn [hashes_lead themeData]. unfold color_values in Hall.
  repeat match goal with
         | Hf : Forall _ (_ :: _) |- _ =>
             apply Forall_cons_iff in Hf; destruct Hf as [? Hf]
         end.
  repeat (apply andb_true_iff; split); assumption.
Qed.


(** * Further properties of the service *)

(** ** The two-column split loses nothing *)

Lemma split_go_nonempty (sep s : string) (skip : nat) (cur : string) :
  JS.split_go sep s skip cur <> [].
Proof.
  revert skip cur. induction s as [| c t IH]; intros skip cur; cbn [JS.split_go].
  - discriminate.
  - destruct skip; [| apply IH].
    destruct (String.prefix sep (String c t)); [discriminate | apply IH].
Qed.

Lemma append_nil_l (b : string) : EmptyString +:+ b = b.
Proof. reflexivity. Qed.

Lemma append_cons (c : ascii) (a b : string) :
  String c a +:+ b = String c (a +:+ b).
Proof. reflexivity. Qed.

Lemma append_empty_r (s : string) : s +:+ EmptyString = s.
Proof.
  induction s as [| c t IH]; [reflexivity |]. now rewrite append_cons, IH.
Qed.

Lemma append_assoc (a b c : string) : (a +:+ b) +:+ c = a +:+ (b +:+ c).
Proof.
  induction a as [| x a IH]; [reflexivity |]. now rewrite !append_cons, IH.
Qed.

Lemma prefix_drop (sep s : string) :
  String.prefix sep s = true -> s = sep +:+ drop_chars (String.length sep) s.
Proof.
  revert s. induction sep as [| a sep IH]; intros s; [reflexivity |].
  destruct s as [| b s]; cbn [String.prefix]; [discriminate |].
  destruct (ascii_dec a b) as [<- | _]; [| discriminate].
  intros Hp. cbn [String.length drop_chars]. rewrite append_cons.
  f_equal. now apply IH.
Qed.

Lemma prefix_length (sep s : string) :
  String.prefix sep s = true -> String.length sep <= String.length s.
Proof.
  revert s. induction sep as [| a sep IH]; intros s; cbn [String.length]; [lia |].
  destruct s as [| b s]; cbn [String.prefix String.length]; [discriminate |].
  destruct (ascii_dec a b); [| discriminate].
  intros Hp. apply IH in Hp. lia.
Qed.

Lemma concat_cons (sep x : string) (l : list string) :
  l <> [] -> String.concat sep (x :: l) = x +:+ sep +:+ String.concat sep l.
Proof. intros Hl. destruct l; [now destruct Hl | reflexivity]. Qed.

Lemma split_go_join (sep s : string) (skip : nat) (cur : string) :
  sep <> EmptyString -> skip <= String.length s ->
  JS.join (JS.split_go sep s skip cur) sep = cur +:+ drop_chars skip s.
Proof.
  intros Hsep. unfold JS.join. revert skip cur.
  induction s as [| c t IH]; intros skip cur Hskip.
  - cbn [String.length] in Hskip. assert (skip = 0) as -> by lia.
    cbn [JS.split_go String.concat drop_chars]. now rewrite append_empty_r.
  - cbn [JS.split_go]. destruct skip as [| k].
    + destruct (String.prefix sep (String c t)) eqn:Hp.
      * rewrite concat_cons by apply split_go_nonempty.
        pose proof (prefix_length _ _ Hp) as Hl. cbn [String.length] in Hl.
        destruct sep as [| a sep']; [congruence |].
        cbn [String.length] in *.
        replace (S (String.length sep') - 1) with (String.length sep') by lia.
        rewrite IH by lia. rewrite append_nil_l. cbn [drop_chars].
        f_equal. symmetry. exact (prefix_drop _ _ Hp).
      * rewrite IH by lia. cbn [drop_chars].
        now rewrite append_assoc, append_cons, append_nil_l.
    + cbn [String.length] in Hskip. rewrite IH by lia. reflexivity.
Qed.

(** Splitting on a non-empty separator and joining again gives the string
    back. *)
Lemma split_join (s sep : string) :
  sep <> EmptyString -> JS.join (JS.split s sep) sep = s.
Proof.
  intros Hsep. unfold JS.split.
  rewrite split_go_join by (auto; cbn; lia). reflexivity.
Qed.

Lemma concat_app (sep : string) (l1 l2 : list string) :
  l1 <> [] -> l2 <> [] ->
  String.concat sep (l1 ++ l2) =
  String.concat sep l1 +:+ sep +:+ String.concat sep l2.
Proof.
  intros H1 H2. induction l1 as [| x l1 IH]; [congruence |].
  destruct l1 as [| y l1].
  - cbn [app]. now apply concat_cons.
  - change ((x :: y :: l1) ++ l2)%list with (x :: ((y :: l1) ++ l2))%list.
    rewrite concat_cons by discriminate.
    rewrite IH by discriminate.
    rewrite (concat_cons sep x (y :: l1)) by discriminate.
    now rewrite !append_assoc.
Qed.

(** X1. The two columns together hold the whole content: with two
    paragraphs or more the left text, the separator and the right text make
    up the content again; a content without separator goes to the left column
    whole and the right column is empty. *)
Theorem twoColumn_split_complete (content : string) :
  if (2 <=? List.length (JS.split content JS.blank_line))%nat
  then leftContent content +:+ JS.blank_line +:+ rightContent content = content
  else leftContent content = content /\ rightContent content = EmptyString.
Proof.
  rewrite leftContent_firstn, rightContent_skipn.
  pose proof (split_join content JS.blank_line ltac:(discriminate)) as Hj.
  pose proof (split_go_nonempty JS.blank_line content 0 EmptyString) as Hne.
  fold (JS.split content JS.blank_line) in Hne.
  set (parts := JS.split content JS.blank_line) in *.
  destruct (Nat.leb_spec 2 (List.length parts)) as [Hn | Hn].
  - set (half := Nat.div2 (S (List.length parts))).
    assert (Hh : 1 <= half /\ half < List.length parts).
    { unfold half. rewrite Nat.div2_div.
      split; [apply Nat.div_le_lower_bound; lia
             | apply Nat.Div0.div_lt_upper_bound; lia]. }
    symmetry. etransitivity; [symmetry; exact Hj |].
    unfold JS.join. rewrite <- (firstn_skipn half parts) at 1.
    apply concat_app.
    + intros E. apply (f_equal (@List.length _)) in E.
      rewrite length_firstn in E. cbn [List.length] in E. lia.
    + intros E. apply (f_equal (@List.length _)) in E.
      rewrite length_skipn in E. cbn [List.length] in E. lia.
  - destruct parts as [| x [| y l]]; [congruence | | cbn in Hn; lia].
    cbn in Hj |- *. split; [exact Hj | reflexivity].
Qed.

(** ** What every slide and every document has *)

Lemma slideBackground_truthy (templateAnalysis : option TemplateAnalysis) :
  JS.truthy (slideBackground templateAnalysis) = true.
Proof.
  unfold slideBackground, JS.or_default.
  destruct templateAnalysis as [ta |]; cbn [option_map]; [| reflexivity].
  destruct (JS.truthy (strip_hash _)) eqn:E; [exact E | reflexivity].
Qed.

(** X2. Whatever the layout and the analysis, [createSlide] returns a
    slide: its background is set and not empty, its first object is the
    record's title, in bold and in the title font of the style context, and
    its notes are the record's speaker notes when these are not empty and the
    options do not say [none], and absent otherwise. *)
Theorem createSlide_always_titled `{Externals}
    (w : World) (sd : SlideData) (options : option GenOptions)
    (templateAnalysis : option TemplateAnalysis) :
  exists slide props rest,
    createSlide w sd options templateAnalysis = Ok slide /\
    Pptx.background slide = Some (slideBackground templateAnalysis) /\
    JS.truthy (slideBackground templateAnalysis) = true /\
    Pptx.objects slide = Pptx.Text (title sd) props :: rest /\
    Pptx.fontFace props = titleFont (getStyleContext templateAnalysis) /\
    Pptx.bold props = Some true /\
    Pptx.notes slide =
      match speakerNotes sd with
      | Some n => if JS.truthy n && notesAllowed options then Some n else None
      | None => None
      end.
Proof.
  pose proof (slideBackground_truthy templateAnalysis) as Hbg.
  unfold createSlide.
  set (sc := getStyleContext templateAnalysis).
  set (blank := Pptx.setBackground (slideBackground templateAnalysis) Pptx.newSlide).
  assert (Hbuilt : exists built props rest,
            (if String.eqb (layout sd) "title_slide" then
               Ok (createTitleSlide blank sd sc)
             else if String.eqb (layout sd) "content" then
               Ok (createContentSlide blank sd sc)
             else if String.eqb (layout sd) "two_column" then
               Ok (createTwoColumnSlide blank sd sc)
             else if String.eqb (layout sd) "image_content" then
               createImageContentSlide w blank sd sc templateAnalysis
             else if String.eqb (layout sd) "conclusion" then
               Ok (createConclusionSlide blank sd sc)
             else Ok (createContentSlide blank sd sc)) = Ok built /\
            Pptx.background built = Some (slideBackground templateAnalysis) /\
            Pptx.notes built = None /\
            Pptx.objects built = Pptx.Text (title sd) props :: rest /\
            Pptx.fontFace props = titleFont sc /\ Pptx.bold props = Some true).
  { destruct (String.eqb (layout sd) "title_slide").
    { unfold createTitleSlide. destruct (JS.truthy (content sd));
        do 3 eexists; repeat split; reflexivity. }
    destruct (String.eqb (layout sd) "content").
    { do 3 eexists; repeat split; reflexivity. }
    destruct (String.eqb (layout sd) "two_column").
    { do 3 eexists; repeat split; reflexivity. }
    destruct (String.eqb (layout sd) "image_content").
    { unfold createImageContentSlide.
      destruct (selectImageForReuse templateAnalysis) as [img |];
        [destruct (Fs.existsSync w (filePath img));
           [unfold addImage; destruct (addImage_throws (filePath img)) |] |];
        do 3 eexists; repeat split; reflexivity. }
    destruct (String.eqb (layout sd) "conclusion");
      do 3 eexists; repeat split; reflexivity. }
  destruct Hbuilt as (built & props & rest & -> & Hb & Hn & Ho & Hf & Hbold).
  cbn [exc_bind]. unfold notesToAdd.
  destruct (speakerNotes sd) as [n |];
    [destruct (JS.truthy n && notesAllowed options) |];
    eexists; exists props, rest; repeat split; eauto.
Qed.

Lemma createSlide_total `{Externals} (w : World) (sd : SlideData)
    (options : option GenOptions) (templateAnalysis : option TemplateAnalysis) :
  exists slide, createSlide w sd options templateAnalysis = Ok slide.
Proof.
  unfold createSlide.
  assert (Himg : exists s, createImageContentSlide w
                   (Pptx.setBackground (slideBackground templateAnalysis) Pptx.newSlide)
                   sd (getStyleContext templateAnalysis) templateAnalysis = Ok s).
  { unfold createImageContentSlide.
    destruct (selectImageForReuse templateAnalysis) as [img |]; [| eauto].
    destruct (Fs.existsSync w (filePath img)); [| eauto].
    unfold addImage. destruct (addImage_throws (filePath img)); cbn; eauto. }
  destruct Himg as [s Hs]. rewrite Hs.
  repeat match goal with
         | |- context [String.eqb ?a ?b] => destruct (String.eqb a b)
         end;
    cbn [exc_bind]; destruct (notesToAdd sd options); eauto.
Qed.

Lemma createSlides_spec `{Externals} (w : World) (sds : list SlideData)
    (pptx : Pptx.Presentation) (options : option GenOptions)
    (templateAnalysis : option TemplateAnalysis) :
  exists built,
    createSlides w pptx sds options templateAnalysis =
      Ok {| Pptx.author := Pptx.author pptx; Pptx.title := Pptx.title pptx;
            Pptx.subject := Pptx.subject pptx; Pptx.layouts := Pptx.layouts pptx;
            Pptx.masters := Pptx.masters pptx;
            Pptx.slides := (Pptx.slides pptx ++ built)%list |} /\
    Forall2 (fun sd slide => createSlide w sd options templateAnalysis = Ok slide)
            sds built.
Proof.
  revert pptx. induction sds as [| sd sds IH]; intros pptx.
  - exists []. split; [| constructor]. cbn. rewrite app_nil_r. now destruct pptx.
  - destruct (createSlide_total w sd options templateAnalysis) as [slide Hs].
    destruct (IH (Pptx.appendSlide slide pptx)) as (built & Hb & Hall).
    exists (slide :: built). split; [| now constructor].
    cbn [createSlides]. rewrite Hs. cbn [exc_bind]. rewrite Hb.
    cbn. now rewrite <- app_assoc.
Qed.

Lemma analyzeTemplate_total `{Externals} (filePath : string) (w : World) :
  exists ta w', analyzeTemplate filePath w = (Ok ta, w').
Proof.
  destruct (analyzeTemplate_hashes_lead filePath w) as (ta & w' & Ha & _). eauto.
Qed.

Lemma styleDocument_spec `{Externals} (pptx : Pptx.Presentation)
    (templatePath : option string) (w : World) :
  exists ta w1,
    styleDocument pptx templatePath w =
      (Ok (match ta with
           | Some a => applyExtractedStyling pptx a
           | None => applyDefaultStyling pptx
           end, ta), w1) /\
    match ta with
    | Some a =>
        exists tp, templatePath = Some tp /\ JS.truthy tp = true /\
                   analyzeTemplate tp w = (Ok a, w1)
    | None =>
        w1 = w /\
        forall tp, templatePath = Some tp ->
                   JS.truthy tp && Fs.existsSync w tp = false
    end.
Proof.
  unfold styleDocument, bind, ret.
  destruct templatePath as [tp |].
  - destruct (JS.truthy tp && Fs.existsSync w tp) eqn:Huse.
    + destruct (analyzeTemplate_total tp w) as (a & w' & Ha).
      exists (Some a), w'. rewrite Ha. split; [reflexivity |].
      apply andb_true_iff in Huse as [Ht _]. eauto.
    + exists None, w. split; [reflexivity |].
      split; [reflexivity |]. now intros tp' [= <-].
  - exists None, w. split; [reflexivity |]. split; [reflexivity | discriminate].
Qed.

(** X3. [buildPresentation] always yields a document: it carries the fixed
    author and subject and the model's title, the one 16:9 layout, and one
    slide per record of the model, in order, each the slide [createSlide]
    builds for that record against the analysis in use.  Without a template
    path, or with an empty one, there is no analysis, the disk is not touched
    and no master is defined.  With a path that names a file of the disk the
    analysis is the one [analyzeTemplate] returns for it, and the document
    has exactly one master, [EXTRACTED_TEMPLATE]: its background is the
    theme's background1, its title placeholder is in the major font and the
    colour accent1, its body placeholder in the minor font and the colour
    text1, each colour with its first [#] removed. *)
Theorem buildPresentation_document `{Externals}
    (pd : PresentationData) (templatePath : option string)
    (options : option GenOptions) (w : World) :
  exists doc w1 ta,
    buildPresentation pd templatePath options w = (Ok doc, w1) /\
    Pptx.author doc = "Auto PPT Generator" /\
    Pptx.title doc = pres_title pd /\
    Pptx.subject doc = "Generated Presentation" /\
    Pptx.layouts doc =
      [ {| Pptx.layout_name := "LAYOUT_16x9";
           Pptx.width := 10; Pptx.height := 5.625 |} ] /\
    Pptx.masters doc =
      match ta with
      | None => []
      | Some a =>
          let colors := colorScheme (themeData a) in
          let fonts := fontScheme (themeData a) in
          [ {| Pptx.master_title := "EXTRACTED_TEMPLATE";
               Pptx.master_background := JS.remove_first "#" (background1 colors);
               Pptx.master_objects :=
                 [ {| Pptx.name := "title"; Pptx.type := "title";
                      Pptx.options :=
                        {| Pptx.box := {| Pptx.x := 0.5; Pptx.y := 0.5;
                                          Pptx.w := 9; Pptx.h := 1.5 |};
                           Pptx.fontSize := 28;
                           Pptx.fontFace := majorFont fonts;
                           Pptx.color := JS.remove_first "#" (accent1 colors);
                           Pptx.bold := None; Pptx.align := None;
                           Pptx.valign := None;
                           Pptx.fill := None; Pptx.border := None |};
                      Pptx.text := "Title Placeholder" |};
                   {| Pptx.name := "body"; Pptx.type := "body";
                      Pptx.options :=
                        {| Pptx.box := {| Pptx.x := 0.5; Pptx.y := 2;
                                          Pptx.w := 9; Pptx.h := 3 |};
                           Pptx.fontSize := 16;
                           Pptx.fontFace := minorFont fonts;
                           Pptx.color := JS.remove_first "#" (text1 colors);
                           Pptx.bold := None; Pptx.align := None;
                           Pptx.valign := None;
                           Pptx.fill := None; Pptx.border := None |};
                      Pptx.text := "Content Placeholder" |} ] |} ]
      end /\
    Forall2 (fun sd slide => createSlide w1 sd options ta = Ok slide)
            (slides pd) (Pptx.slides doc) /\
    (templatePath = None \/ templatePath = Some EmptyString ->
       ta = None /\ w1 = w) /\
    (forall tp, templatePath = Some tp -> JS.truthy tp = true ->
       is_Some (files w !! tp) ->
       exists a, ta = Some a /\ analyzeTemplate tp w = (Ok a, w1)).
Proof.
  destruct (styleDocument_spec (newPresentation pd) templatePath w)
    as (ta & w1 & Hs & Hta).
  unfold buildPresentation, bind. rewrite Hs. cbn [fst snd]. unfold lift.
  destruct (createSlides_spec w1 (slides pd)
              (match ta with
               | Some a => applyExtractedStyling (newPresentation pd) a
               | None => applyDefaultStyling (newPresentation pd)
               end) options ta) as (built & Hb & Hall).
  rewrite Hb. eexists _, w1, ta. split; [reflexivity |].
  cbn [Pptx.author Pptx.title Pptx.subject Pptx.layouts Pptx.masters Pptx.slides].
  assert (Hfacts :
    (templatePath = None \/ templatePath = Some EmptyString ->
       ta = None /\ w1 = w) /\
    (forall tp, templatePath = Some tp -> JS.truthy tp = true ->
       is_Some (files w !! tp) ->
       exists a, ta = Some a /\ analyzeTemplate tp w = (Ok a, w1))).
  { destruct ta as [a |].
    - destruct Hta as (tp & -> & Htp & Ha). split.
      + intros [[=] | [= ->]]. discriminate Htp.
      + intros tp' [= <-] _ _. eauto.
    - destruct Hta as [-> Hno]. split; [auto |].
      intros tp Htp Htruthy Hfile. specialize (Hno tp Htp).
      unfold Fs.existsSync in Hno.
      rewrite Htruthy, bool_decide_eq_true_2 in Hno by exact Hfile.
      discriminate Hno. }
  destruct Hfacts as [Hnone Hfile].
  destruct ta as [a |]; cbn;
    (do 5 (split; [reflexivity |])); (split; [exact Hall |]);
    (split; [exact Hnone | exact Hfile]).
Qed.

Lemma buildPresentation_total `{Externals}
    (pd : PresentationData) (templatePath : option string)
    (options : option GenOptions) (w : World) :
  exists doc w1, buildPresentation pd templatePath options w = (Ok doc, w1).
Proof.
  destruct (styleDocument_spec (newPresentation pd) templatePath w)
    as (ta & w1 & Hs & _).
  unfold buildPresentation, bind. rewrite Hs. cbn [fst snd]. unfold lift.
  destruct (createSlides_spec w1 (slides pd)
              (match ta with
               | Some a => applyExtractedStyling (newPresentation pd) a
               | None => applyDefaultStyling (newPresentation pd)
               end) options ta) as (built & Hb & _).
  rewrite Hb. eauto.
Qed.

Lemma all_chars_no_slash (P : ascii -> bool) (s : string) :
  P "/"%char = false -> all_chars P s = true -> JS.includes s "/" = false.
Proof.
  intros HP. induction s as [| c t IH]; [reflexivity |].
  cbn [all_chars JS.includes String.prefix]. intros Hall.
  apply andb_true_iff in Hall as [Hc Ht].
  destruct (ascii_dec "/" c) as [<- | _]; [congruence |].
  cbn [orb]. now apply IH.
Qed.

Lemma prefix_empty (s : string) : String.prefix EmptyString s = true.
Proof. now destruct s. Qed.

Lemma prefix_append (a b : string) : String.prefix a (a +:+ b) = true.
Proof.
  induction a as [| c a IH]; [apply prefix_empty |].
  rewrite append_cons. cbn [String.prefix].
  destruct (ascii_dec c c) as [_ | Hne]; [exact IH | congruence].
Qed.

Lemma includes_char_append (c : ascii) (a b : string) :
  JS.includes (a +:+ b) (String c EmptyString) =
  JS.includes a (String c EmptyString) || JS.includes b (String c EmptyString).
Proof.
  induction a as [| x a IH].
  - rewrite append_nil_l. cbn [JS.includes String.prefix orb]. reflexivity.
  - rewrite append_cons. cbn [JS.includes String.prefix].
    rewrite IH, !prefix_empty.
    destruct (ascii_dec c x); [reflexivity | reflexivity].
Qed.

(** X5. The title cannot steer the output path: the sanitised title has
    the length of the title, consists of letters, digits and underscores only,
    is not changed by sanitising again, and the file name built from it has no
    path separator when the UUID has none. *)
Theorem sanitized_file_name (pageTitle uuid : string) :
  String.length (JS.sanitize pageTitle) = String.length pageTitle
  /\ all_chars is_name_char (JS.sanitize pageTitle) = true
  /\ JS.sanitize (JS.sanitize pageTitle) = JS.sanitize pageTitle
  /\ (JS.includes uuid "/" = false ->
      JS.includes (JS.sanitize pageTitle +:+ "_" +:+ uuid +:+ ".pptx") "/" = false).
Proof.
  assert (Hall : all_chars is_name_char (JS.sanitize pageTitle) = true).
  { unfold JS.sanitize, is_name_char.
    induction pageTitle as [| c t IH]; [reflexivity |].
    cbn [JS.map_chars all_chars]. rewrite IH, andb_true_r.
    destruct (JS.is_alnum c) eqn:E; [now rewrite E | reflexivity]. }
  split; [apply length_map_chars | split; [exact Hall | split]].
  - clear Hall. unfold JS.sanitize.
    induction pageTitle as [| c t IH]; [reflexivity |].
    cbn [JS.map_chars]. rewrite IH. f_equal.
    destruct (JS.is_alnum c) eqn:E; [now rewrite E | reflexivity].
  - intros Hu. rewrite !includes_char_append, Hu.
    rewrite (all_chars_no_slash is_name_char _ eq_refl Hall). reflexivity.
Qed.

Lemma sanitized_file_name_witness :
  JS.includes "00000000-0000-4000-8000-000000000000" "/" = false
  /\ JS.sanitize "../../etc/passwd" = "______etc_passwd"
  /\ JS.includes (JS.sanitize "../../etc/passwd" +:+ "_"
                    +:+ "00000000-0000-4000-8000-000000000000" +:+ ".pptx") "/"
     = false.
Proof.
  assert (Hu : JS.includes "00000000-0000-4000-8000-000000000000" "/" = false)
    by reflexivity.
  split; [exact Hu | split; [reflexivity |]].
  exact (proj2 (proj2 (proj2 (sanitized_file_name "../../etc/passwd" _))) Hu).
Defined.

(** ** What the analysis does to the disk *)

Lemma grown_by_refl (P : string -> Prop) (w : World) : grown_by P w w.
Proof. unfold grown_by. repeat split; auto. Qed.

Lemma grown_by_trans (P : string -> Prop) (w1 w2 w3 : World) :
  grown_by P w1 w2 -> grown_by P w2 w3 -> grown_by P w1 w3.
Proof.
  intros (Hu1 & Hr1 & Hw1 & Hd1 & Hf1) (Hu2 & Hr2 & Hw2 & Hd2 & Hf2).
  unfold grown_by. repeat split; try congruence; [lia |].
  intros p. destruct (Hf2 p) as [E2 | H2]; [| now right].
  rewrite E2. apply Hf1.
Qed.

Lemma grown_by_weaken (P Q : string -> Prop) (w w' : World) :
  (forall p, P p -> Q p) -> grown_by P w w' -> grown_by Q w w'.
Proof.
  intros HPQ (Hu & Hr & Hw & Hd & Hf). unfold grown_by. repeat split; auto.
  intros p. destruct (Hf p) as [E | [E HP]]; auto.
Qed.

Lemma grown_by_draw (P : string -> Prop) (w : World) :
  grown_by P w (advance w (files w) (S (drawn w))).
Proof. unfold grown_by, advance. cbn. repeat split; auto. Qed.

Lemma grown_by_write (P : string -> Prop) (path : string) (data : Buffer)
    (w : World) :
  P path ->
  grown_by P w (advance w (<[path := data]> (files w)) (S (drawn w))).
Proof.
  intros HP. unfold grown_by, advance. cbn. repeat split; auto.
  intros p. destruct (decide (path = p)) as [<- | Hne].
  - right. rewrite lookup_insert_eq. eauto.
  - left. now apply lookup_insert_ne.
Qed.

Lemma basename_go_no_slash (p cur : string) :
  JS.includes cur "/" = false -> JS.includes (Fs.basename_go p cur) "/" = false.
Proof.
  revert cur. induction p as [| c t IH]; intros cur Hcur; [exact Hcur |].
  cbn [Fs.basename_go]. destruct (Ascii.eqb_spec c "/"%char) as [-> | Hc].
  - now apply IH.
  - apply IH. rewrite includes_char_append, Hcur. cbn [JS.includes String.prefix orb].
    destruct (ascii_dec "/" c) as [E | _]; [congruence | reflexivity].
Qed.

Lemma basename_no_slash (p : string) : JS.includes (Fs.basename p) "/" = false.
Proof. now apply basename_go_no_slash. Qed.

Lemma extractLoop_grown `{Externals} (zip : JSZip) (templatePath : string)
    (paths : list string) (acc : list ExtractedImage) (w w' : World)
    (r : Exc (list ExtractedImage)) :
  extractLoop zip templatePath paths acc w = (r, w') ->
  grown_by (image_path (uuids w) (drawn w)) w w'.
Proof.
  revert acc w. induction paths as [| p rest IH]; intros acc w.
  - intros [= <- <-]. apply grown_by_refl.
  - cbn [extractLoop]. unfold bind. rewrite extractOne_eq.
    destruct (Zip.file zip p) as [file |]; [| apply IH].
    destruct (zdata file) as [buf | e]; [| intros [= <- <-]; apply grown_by_refl].
    cbv zeta. destruct (write_denied w _).
    + intros [= <- <-]. apply grown_by_draw.
    + intros Hl. apply IH in Hl. cbn [uuids drawn advance] in Hl.
      eapply grown_by_trans.
      * apply grown_by_write. cbn [filePath imageRecord].
        exists (drawn w), (Fs.basename p).
        split; [lia | split; [apply basename_no_slash | reflexivity]].
      * eapply grown_by_weaken; [| exact Hl].
        intros q (k & base & Hk & Hbase & ->). exists k, base.
        split; [lia | split; [exact Hbase | reflexivity]].
Qed.

Lemma extractImages_grown `{Externals} (zip : JSZip) (templatePath : string)
    (w w' : World) (r : Exc (list ExtractedImage)) :
  extractImages zip templatePath w = (r, w') ->
  grown_by (image_path (uuids w) (drawn w)) w w'.
Proof.
  unfold extractImages, try_catch.
  destruct (extractLoop zip templatePath (mediaFiles zip) [] w) as [[imgs | e] w1] eqn:Hl;
    intros [= <- <-]; exact (extractLoop_grown _ _ _ _ _ _ _ Hl).
Qed.

Lemma extractImages_total `{Externals} (zip : JSZip) (templatePath : string)
    (w : World) :
  exists imgs w', extractImages zip templatePath w = (Ok imgs, w').
Proof.
  pose proof (extractImages_plan zip templatePath w) as Hp.
  destruct (planLoop _ _ _ _ _ _) as [plan | e]; [eauto |].
  destruct Hp as [w' Hw']. eauto.
Qed.

(** What [analyzeTemplate] returns once the template is read and opened. *)
Lemma analyzeTemplate_opened `{Externals} (filePath : string) (w : World)
    (data : Buffer) (zip : JSZip) :
  files w !! filePath = Some data -> read_denied w filePath = false ->
  JSZip_loadAsync data = Ok zip ->
  exists td ss imgs w',
    extractThemeData zip = Ok td /\ analyzeSlideStructure zip = Ok ss /\
    extractImages zip filePath w = (Ok imgs, w') /\
    analyzeTemplate filePath w =
      (Ok {| slideCount := ss_slideCount ss;
             imageCount := List.length imgs;
             layoutCount := ss_layoutCount ss;
             colors := List.filter known (color_values (colorScheme td));
             fonts := List.filter known [majorFont (fontScheme td);
                                         minorFont (fontScheme td)];
             masterLayouts := ss_masterLayouts ss;
             extractedImages := imgs;
             themeData := td |}, w').
Proof.
  intros Hfile Hread Hzip.
  destruct (extractThemeData_total zip) as [td Htd].
  destruct (analyzeSlideStructure_total zip) as [ss Hss].
  destruct (extractImages_total zip filePath w) as (imgs & w' & Hex).
  exists td, ss, imgs, w'. repeat split; try assumption.
  unfold analyzeTemplate, try_catch, analyzeTemplate_body, bind.
  unfold Fs.existsSync. rewrite bool_decide_eq_true_2 by (rewrite Hfile; eauto).
  cbn [negb]. unfold Fs.readFileSync, lift.
  rewrite Hfile, Hread, Hzip, Htd, Hex, Hss. reflexivity.
Qed.

(** What it returns when the template cannot be read or opened. *)
Lemma analyzeTemplate_not_opened `{Externals} (filePath : string) (w : World) :
  match files w !! filePath with
  | Some data =>
      read_denied w filePath = true \/ exists e, JSZip_loadAsync data = Throw e
  | None => True
  end ->
  analyzeTemplate filePath w = (Ok fallbackAnalysis, w).
Proof.
  unfold analyzeTemplate, try_catch, analyzeTemplate_body, bind, Fs.existsSync.
  destruct (files w !! filePath) as [data |] eqn:Hfile.
  - rewrite bool_decide_eq_true_2 by eauto. cbn [negb].
    unfold Fs.readFileSync, lift. rewrite Hfile.
    intros [Hd | [e He]].
    + now rewrite Hd.
    + destruct (read_denied w filePath); [reflexivity | now rewrite He].
  - intros _. rewrite bool_decide_eq_false_2 by (intros [? [=]]). reflexivity.
Qed.

Lemma analyzeTemplate_grown `{Externals} (filePath : string) (w : World) :
  grown_by (image_path (uuids w) (drawn w)) w (snd (analyzeTemplate filePath w)).
Proof.
  destruct (files w !! filePath) as [data |] eqn:Hfile.
  - destruct (read_denied w filePath) eqn:Hread.
    + rewrite analyzeTemplate_not_opened by (rewrite Hfile; auto).
      apply grown_by_refl.
    + destruct (JSZip_loadAsync data) as [zip | e] eqn:Hzip.
      * destruct (analyzeTemplate_opened _ _ _ _ Hfile Hread Hzip)
          as (td & ss & imgs & w' & _ & _ & Hex & ->).
        exact (extractImages_grown _ _ _ _ _ Hex).
      * rewrite analyzeTemplate_not_opened by (rewrite Hfile; eauto).
        apply grown_by_refl.
  - rewrite analyzeTemplate_not_opened by now rewrite Hfile.
    apply grown_by_refl.
Qed.

Lemma includes_self (c : ascii) (t : string) :
  JS.includes (String c t) (String c EmptyString) = true.
Proof.
  cbn [JS.includes String.prefix].
  destruct (ascii_dec c c) as [_ | Hne]; [| congruence].
  now rewrite prefix_empty.
Qed.

(** A name without separator that holds an underscore is an entry name. *)
Lemma underscore_entry_name (s : string) :
  JS.includes s "_" = true -> JS.includes s "/" = false ->
  is_entry_name s = true.
Proof.
  intros Hu Hs. unfold is_entry_name. rewrite Hs.
  destruct (String.eqb_spec s ".") as [-> | _]; [discriminate Hu |].
  destruct (String.eqb_spec s "..") as [-> | _]; [discriminate Hu |].
  destruct s; [discriminate Hu | reflexivity].
Qed.

(** The name a picture is saved under. *)
Lemma saved_name_entry (u base : string) :
  JS.includes u "/" = false -> JS.includes base "/" = false ->
  is_entry_name (u +:+ "_" +:+ base) = true.
Proof.
  intros Hu Hb. apply underscore_entry_name.
  - rewrite includes_char_append.
    change ("_" +:+ base) with (String "_" base).
    now rewrite includes_self, orb_true_r.
  - now rewrite !includes_char_append, Hu, Hb.
Qed.

Lemma image_path_entry `{Externals} (uu : nat -> string) (n : nat) (p : string) :
  (forall k, JS.includes (uu k) "/" = false) ->
  image_path uu n p ->
  exists k name,
    n <= k /\ is_entry_name name = true /\
    JS.startsWith name (uu k +:+ "_") = true /\ p = Fs.join imagesDir name.
Proof.
  intros Hu (k & base & Hk & Hbase & ->).
  exists k, (uu k +:+ "_" +:+ base).
  split; [exact Hk | split; [now apply saved_name_entry | split; [| reflexivity]]].
  unfold JS.startsWith.
  change (uu k +:+ "_" +:+ base) with (uu k +:+ ("_" +:+ base)).
  rewrite <- append_assoc. apply prefix_append.
Qed.

(** X6. With UUIDs free of path separators, whatever the template and
    however the analysis ends, the only thing [analyzeTemplate] does to the
    disk is to add or replace files that lie directly in the images directory:
    a path whose content is not what it was holds a file afterwards and is the
    images directory joined with a single entry name, which starts with a UUID
    drawn during the call and an underscore.  No file disappears, and the
    permissions and the UUID source are as before. *)
Theorem analyzeTemplate_writes_only_images `{Externals}
    (filePath : string) (w : World) :
  (forall k, JS.includes (uuids w k) "/" = false) ->
  let w' := snd (analyzeTemplate filePath w) in
  (forall p, files w' !! p = files w !! p \/
             (is_Some (files w' !! p) /\
              exists k name,
                drawn w <= k /\ is_entry_name name = true /\
                JS.startsWith name (uuids w k +:+ "_") = true /\
                p = Fs.join imagesDir name))
  /\ (forall p, is_Some (files w !! p) -> is_Some (files w' !! p))
  /\ read_denied w' = read_denied w /\ write_denied w' = write_denied w
  /\ uuids w' = uuids w.
Proof.
  intros Huu.
  destruct (analyzeTemplate_grown filePath w) as (Hu & Hr & Hw & _ & Hf).
  cbv zeta. repeat split; try assumption.
  - intros p. destruct (Hf p) as [E | [Hs Hp]]; [now left | right].
    split; [exact Hs |]. exact (image_path_entry _ _ _ Huu Hp).
  - intros p Hp. destruct (Hf p) as [E | [Hs _]]; [now rewrite E | exact Hs].
Qed.

Lemma analyzeTemplate_writes_only_images_witness :
  let saved :=
    "/app/uploads/extracted_images/00000000-0000-4000-8000-000000000000_image1.png" in
  let w' := snd (analyzeTemplate (Ext := Sample.externals) "/tmp/good.pptx"
                   Sample.world) in
  (forall k, JS.includes (uuids Sample.world k) "/" = false)
  /\ files w' !! saved = Some (Sample.bytes_of "PNGDATA")
  /\ files Sample.world !! saved = None
  /\ exists k name,
       is_entry_name name = true /\
       JS.startsWith name (uuids Sample.world k +:+ "_") = true /\
       saved = Fs.join (imagesDir (Ext := Sample.externals)) name.
Proof.
  intros saved w'.
  assert (Hu : forall k, JS.includes (uuids Sample.world k) "/" = false)
    by (intros [| [| [| k]]]; reflexivity).
  assert (Hnew : files w' !! saved = Some (Sample.bytes_of "PNGDATA"))
    by (vm_compute; reflexivity).
  assert (Hold : files Sample.world !! saved = None) by (vm_compute; reflexivity).
  split; [exact Hu | split; [exact Hnew | split; [exact Hold |]]].
  destruct (proj1 (analyzeTemplate_writes_only_images (H := Sample.externals)
                     "/tmp/good.pptx" Sample.world Hu) saved)
    as [E | [_ (k & name & _ & Hname & Hstart & Hpath)]].
  - fold w' in E. rewrite Hnew, Hold in E. discriminate E.
  - exists k, name. auto.
Defined.

(** X7. A template that is not on disk, or that cannot be read, is
    answered like a corrupt one: the fallback record, and nothing written. *)
Theorem analyzeTemplate_unreadable_fallback `{Externals}
    (filePath : string) (w : World) :
  files w !! filePath = None \/ read_denied w filePath = true ->
  analyzeTemplate filePath w = (Ok fallbackAnalysis, w).
Proof.
  intros Hcase. apply analyzeTemplate_not_opened.
  destruct (files w !! filePath); [| exact I].
  destruct Hcase as [[=] | Hd]. now left.
Qed.

Lemma analyzeTemplate_unreadable_fallback_witness :
  (files Sample.world !! "/tmp/none.pptx" = None
   \/ read_denied Sample.world "/tmp/none.pptx" = true)
  /\ analyzeTemplate (Ext := Sample.externals) "/tmp/none.pptx" Sample.world
     = (Ok fallbackAnalysis, Sample.world).
Proof.
  assert (Hc : files Sample.world !! "/tmp/none.pptx" = None
               \/ read_denied Sample.world "/tmp/none.pptx" = true)
    by (left; vm_compute; reflexivity).
  split; [exact Hc |].
  exact (analyzeTemplate_unreadable_fallback (H := Sample.externals)
           "/tmp/none.pptx" Sample.world Hc).
Defined.

(** ** Invariants of the theme and of the analysis *)

Lemma upper_char_not_lower (c : ascii) : JS.is_lower (JS.upper_char c) = false.
Proof.
  destruct c as [[] [] [] [] [] [] [] []]; vm_compute; reflexivity.
Qed.

Lemma hash_then_upper_intro (v : string) :
  hash_then_upper (String "#" (JS.toUpperCase v)) = true.
Proof.
  cbn [hash_then_upper]. change (Ascii.eqb "#" "#") with true. cbn [andb].
  unfold JS.toUpperCase. induction v as [| c t IH]; [reflexivity |].
  cbn [JS.map_chars all_chars]. now rewrite upper_char_not_lower, IH.
Qed.

Lemma slot_hash_then_upper (scheme : XmlNode) (qualified plain dflt : string) :
  hash_then_upper dflt = true ->
  hash_then_upper (slot scheme qualified plain dflt) = true.
Proof.
  intros Hd. unfold slot, JS.or_default, extractColorValue.
  destruct (Xml.child scheme qualified plain) as [arr |]; [| exact Hd].
  destruct (Xml.first arr) as [element |]; [| exact Hd].
  destruct (Xml.truthy element); [| exact Hd].
  destruct (extractColorValue_body element) as [[s |] | e] eqn:Hb; try exact Hd.
  destruct (JS.truthy s); [| exact Hd].
  destruct (extractColorValue_body_hash _ _ Hb) as [v ->].
  apply hash_then_upper_intro.
Qed.

Lemma parseColorScheme_hash_then_upper (themeData : option XmlDoc) :
  Forall (fun c => hash_then_upper c = true)
         (color_values (parseColorScheme themeData)).
Proof.
  unfold parseColorScheme.
  destruct (color_scheme_node themeData) as [[scheme |] | e];
    try (repeat constructor).
  all: cbn [scheme_colors background1 text1 background2 text2 accent1 accent2
            accent3 accent4 accent5 accent6 hyperlink followedHyperlink];
    now apply slot_hash_then_upper.
Qed.

Lemma extractThemeData_cases `{Externals} (zip : JSZip) :
  extractThemeData zip = Ok getDefaultThemeData \/
  exists doc, extractThemeData zip =
                Ok {| colorScheme := parseColorScheme doc;
                      fontScheme := parseFontScheme doc;
                      effectScheme := NoEffects |}.
Proof.
  unfold extractThemeData, Zip.async_string.
  destruct (Zip.file zip "ppt/theme/theme1.xml") as [f |]; [| now left].
  destruct (zdata f) as [b | e]; cbn [exc_bind exc_catch]; [| now left].
  destruct (xml2js_parse (string_of_list_byte b)) as [doc | e];
    cbn [exc_bind exc_catch]; [right; eauto | now left].
Qed.

Lemma extractThemeData_shape `{Externals} (zip : JSZip) (td : ThemeData) :
  extractThemeData zip = Ok td ->
  Forall (fun c => hash_then_upper c = true) (color_values (colorScheme td)).
Proof.
  destruct (extractThemeData_cases zip) as [-> | [doc ->]]; intros [= <-].
  - repeat constructor.
  - apply parseColorScheme_hash_then_upper.
Qed.

(** X8. Theme extraction never fails, whatever the archive, the parser and
    the theme: it returns a theme each of whose twelve colours is a [#]
    followed by characters without any lower-case letter. *)
Theorem extractThemeData_colours_shape `{Externals} (zip : JSZip) :
  exists td,
    extractThemeData zip = Ok td /\
    Forall (fun c => hash_then_upper c = true) (color_values (colorScheme td)).
Proof.
  destruct (extractThemeData_total zip) as [td Htd].
  exists td. split; [exact Htd | exact (extractThemeData_shape zip td Htd)].
Qed.

Lemma hash_then_upper_known (c : string) :
  hash_then_upper c = true -> known c = true.
Proof.
  unfold hash_then_upper, known. destruct c as [| h t]; [discriminate |].
  intros Hc. apply andb_true_iff in Hc as [Hh _].
  apply Ascii.eqb_eq in Hh as ->. reflexivity.
Qed.

Lemma filter_all {A} (f : A -> bool) (l : list A) :
  Forall (fun x => f x = true) l -> List.filter f l = l.
Proof.
  induction 1 as [| x l Hx _ IH]; [reflexivity |]. cbn. now rewrite Hx, IH.
Qed.

Lemma analyzeSlideStructure_layouts (zip : JSZip) (ss : SlideStructure) :
  analyzeSlideStructure zip = Ok ss ->
  ss_masterLayouts ss = [] \/ ss_masterLayouts ss = defaultMasterLayouts.
Proof.
  unfold analyzeSlideStructure, Zip.async_string.
  destruct (Zip.file zip "ppt/slideMasters/slideMaster1.xml") as [f |];
    [destruct (zdata f) |]; cbn; intros [= <-]; auto.
Qed.

(** X9. [analyzeTemplate] always returns an analysis, and in it the image
    count is the number of extracted images; unless it is the fallback
    record, its colour list is the twelve colours of its theme, in slot
    order, and its layout names are the five default names or none. *)
Theorem analyzeTemplate_consistent `{Externals} (filePath : string) (w : World) :
  exists ta w',
    analyzeTemplate filePath w = (Ok ta, w') /\
    imageCount ta = List.length (extractedImages ta) /\
    (ta = fallbackAnalysis \/
     (colors ta = color_values (colorScheme (themeData ta)) /\
      List.length (colors ta) = 12 /\
      (masterLayouts ta = [] \/ masterLayouts ta = defaultMasterLayouts))).
Proof.
  destruct (files w !! filePath) as [data |] eqn:Hfile.
  - destruct (read_denied w filePath) eqn:Hread.
    + rewrite analyzeTemplate_not_opened by (rewrite Hfile; auto). exists fallbackAnalysis, w; auto.
    + destruct (JSZip_loadAsync data) as [zip | e] eqn:Hzip.
      * destruct (analyzeTemplate_opened _ _ _ _ Hfile Hread Hzip)
          as (td & ss & imgs & w' & Htd & Hss & _ & ->).
        eexists. exists w'. split; [reflexivity |]. split; [reflexivity |].
        right. cbn [colors themeData masterLayouts].
        assert (Hcol : List.filter known (color_values (colorScheme td))
                       = color_values (colorScheme td)).
        { apply filter_all.
          eapply List.Forall_impl; [| exact (extractThemeData_shape zip td Htd)].
          intros c. apply hash_then_upper_known. }
        rewrite Hcol. split; [reflexivity |]. split; [reflexivity |].
        exact (analyzeSlideStructure_layouts zip ss Hss).
      * rewrite analyzeTemplate_not_opened by (rewrite Hfile; eauto). exists fallbackAnalysis, w; auto.
  - rewrite analyzeTemplate_not_opened by now rewrite Hfile. exists fallbackAnalysis, w; auto.
Qed.

(** X10. Apart from the extracted images, the analysis is a function of
    the template's bytes: on two disks where the template has the same
    content and the same readability, the slide and layout counts, the
    colours, the fonts, the layout names and the theme come out the same,
    whatever else the disks hold and whatever UUIDs are drawn. *)
Theorem analyzeTemplate_summary_stable `{Externals}
    (filePath : string) (w1 w2 : World) :
  files w1 !! filePath = files w2 !! filePath ->
  read_denied w1 filePath = read_denied w2 filePath ->
  exists ta1 ta2,
    fst (analyzeTemplate filePath w1) = Ok ta1 /\
    fst (analyzeTemplate filePath w2) = Ok ta2 /\
    analysis_summary ta1 = analysis_summary ta2.
Proof.
  intros Hf Hr.
  destruct (files w1 !! filePath) as [data |] eqn:Hfile1; symmetry in Hf.
  - destruct (read_denied w1 filePath) eqn:Hread1; symmetry in Hr.
    + rewrite !analyzeTemplate_not_opened by (rewrite ?Hfile1, ?Hf; auto).
      eauto.
    + destruct (JSZip_loadAsync data) as [zip | e] eqn:Hzip.
      * destruct (analyzeTemplate_opened _ _ _ _ Hfile1 Hread1 Hzip)
          as (td & ss & imgs & w' & Htd & Hss & _ & ->).
        destruct (analyzeTemplate_opened _ _ _ _ Hf Hr Hzip)
          as (td' & ss' & imgs' & w'' & Htd' & Hss' & _ & ->).
        rewrite Htd in Htd'. injection Htd' as <-.
        rewrite Hss in Hss'. injection Hss' as <-.
        eauto.
      * rewrite !analyzeTemplate_not_opened by (rewrite ?Hfile1, ?Hf; eauto).
        eauto.
  - rewrite !analyzeTemplate_not_opened by (rewrite ?Hfile1, ?Hf; auto). eauto.
Qed.

Lemma analyzeTemplate_summary_stable_witness :
  let w2 := advance Sample.world
              (<["/srv/other.bin" := Sample.bytes_of "x"]> (files Sample.world)) 7 in
  files Sample.world !! "/tmp/good.pptx" = files w2 !! "/tmp/good.pptx"
  /\ read_denied Sample.world "/tmp/good.pptx" = read_denied w2 "/tmp/good.pptx"
  /\ exists ta1 ta2,
       fst (analyzeTemplate (Ext := Sample.externals) "/tmp/good.pptx" Sample.world)
         = Ok ta1 /\
       fst (analyzeTemplate (Ext := Sample.externals) "/tmp/good.pptx" w2) = Ok ta2 /\
       analysis_summary ta1 = analysis_summary ta2.
Proof.
  intros w2.
  assert (H1 : files Sample.world !! "/tmp/good.pptx" = files w2 !! "/tmp/good.pptx")
    by (vm_compute; reflexivity).
  assert (H2 : read_denied Sample.world "/tmp/good.pptx"
               = read_denied w2 "/tmp/good.pptx") by reflexivity.
  split; [exact H1 | split; [exact H2 |]].
  exact (analyzeTemplate_summary_stable (H := Sample.externals)
           "/tmp/good.pptx" Sample.world w2 H1 H2).
Defined.

(** ** The records of the extracted images *)

Lemma planLoop_records `{Externals} (zip : JSZip) (templatePath : string)
    (uu : nat -> string) (wd : string -> bool) (paths : list string) (n : nat)
    (plan : list (ExtractedImage * Buffer)) :
  planLoop zip templatePath uu wd paths n = Ok plan ->
  Forall (fun e => exists p k, In p paths /\ n <= k /\
                   fst e = imageRecord templatePath p (uu k)) plan.
Proof.
  revert n plan. induction paths as [| p rest IH]; intros n plan.
  - intros [= <-]. constructor.
  - cbn [planLoop]. destruct (Zip.file zip p) as [file |].
    + destruct (Zip.async_nodebuffer file) as [buf | e]; cbn [exc_bind];
        [| discriminate].
      destruct (wd _); [discriminate |].
      destruct (planLoop zip templatePath uu wd rest (S n)) as [more | e] eqn:Hm;
        cbn [exc_bind]; [| discriminate].
      intros [= <-]. constructor.
      * exists p, n. cbn [fst]. split; [now left | split; [lia | reflexivity]].
      * eapply List.Forall_impl; [| exact (IH _ _ Hm)].
        intros e (q & k & Hq & Hk & He). exists q, k.
        split; [now right | split; [lia | exact He]].
    + intros Hp. eapply List.Forall_impl; [| exact (IH _ _ Hp)].
      intros e (q & k & Hq & Hk & He). exists q, k.
      split; [now right | split; [lia | exact He]].
Qed.

(** X11. Extraction never raises, and the names in the archive cannot steer
    where the pictures are saved: every record it returns is for a listed
    media part, its original name is the base name of that part and contains
    no path separator, its file is the entry [<id>_<original name>] of the
    images directory, its id is a UUID drawn during this call, and it is
    tagged with the template's base name. *)
Theorem extractImages_records `{Externals}
    (zip : JSZip) (templatePath : string) (w : World) :
  exists imgs,
    fst (extractImages zip templatePath w) = Ok imgs /\
    Forall (fun img =>
              (exists p, In p (mediaFiles zip) /\ originalName img = Fs.basename p) /\
              JS.includes (originalName img) "/" = false /\
              filePath img =
                Fs.join imagesDir (imageId img +:+ "_" +:+ originalName img) /\
              (exists k, drawn w <= k /\ imageId img = uuids w k) /\
              slideContext img = Some "template" /\
              description img =
                Some ("Extracted from " +:+ Fs.basename templatePath))
           imgs.
Proof.
  pose proof (extractImages_plan zip templatePath w) as Hp.
  destruct (planLoop zip templatePath (uuids w) (write_denied w) (mediaFiles zip) (drawn w))
    as [plan | e] eqn:Hplan.
  - rewrite Hp. exists (map fst plan). split; [reflexivity |].
    apply Forall_map.
    eapply List.Forall_impl; [| exact (planLoop_records _ _ _ _ _ _ _ Hplan)].
    intros e (p & k & Hin & Hk & ->). cbn [originalName imageRecord filePath imageId
                                           slideContext description].
    repeat split; eauto. apply basename_no_slash.
  - destruct Hp as [w' ->]. exists []. split; [reflexivity | constructor].
Qed.

(** ** Theme extraction: failures and precedence *)

(** X12. When the theme part is there but its bytes cannot be read, or the
    XML parser rejects its text, theme extraction returns the whole default
    theme: nothing of a partial result is kept. *)
Theorem extractThemeData_failure_default `{Externals}
    (zip : JSZip) (themeFile : ZipObject) :
  Zip.file zip "ppt/theme/theme1.xml" = Some themeFile ->
  (exists e, Zip.async_string themeFile = Throw e) \/
  (exists xml e, Zip.async_string themeFile = Ok xml /\ xml2js_parse xml = Throw e) ->
  extractThemeData zip = Ok getDefaultThemeData.
Proof.
  intros Hfile Hfail. unfold extractThemeData. rewrite Hfile.
  destruct Hfail as [[e He] | (xml & e & Hx & Hp)].
  - now rewrite He.
  - rewrite Hx. cbn [exc_bind]. now rewrite Hp.
Qed.

Lemma extractThemeData_failure_default_witness :
  Zip.file zipBrokenTheme "ppt/theme/theme1.xml" = Some (Sample.file "<a:theme><oops")
  /\ ((exists e, Zip.async_string (Sample.file "<a:theme><oops") = Throw e) \/
      (exists xml e,
         Zip.async_string (Sample.file "<a:theme><oops") = Ok xml /\
         xml2js_parse (Externals := Sample.externals) xml = Throw e))
  /\ extractThemeData (Ext := Sample.externals) zipBrokenTheme = Ok getDefaultThemeData.
Proof.
  assert (H1 : Zip.file zipBrokenTheme "ppt/theme/theme1.xml"
               = Some (Sample.file "<a:theme><oops")) by reflexivity.
  assert (H2 : (exists e, Zip.async_string (Sample.file "<a:theme><oops") = Throw e) \/
               (exists xml e,
                  Zip.async_string (Sample.file "<a:theme><oops") = Ok xml /\
                  xml2js_parse (Externals := Sample.externals) xml = Throw e)).
  { right. exists "<a:theme><oops", "Non-whitespace before first tag".
    split; reflexivity. }
  split; [exact H1 | split; [exact H2 |]].
  exact (extractThemeData_failure_default (H := Sample.externals)
           zipBrokenTheme _ H1 H2).
Defined.

(** X13. An explicit RGB value wins: when the first RGB child of a colour
    slot has a non-empty [val] attribute, the slot's colour is [#] followed by
    that value in upper case, whatever system colour, direct value or other
    children the slot also has. *)
Theorem extractColorValue_rgb_first
    (attrs : list (string * string)) (kids : list (string * list XmlNode))
    (others srgb : list XmlNode) (a : string * string)
    (rgbAttrs : list (string * string)) (rgbKids : list (string * list XmlNode))
    (v : string) :
  Xml.child (XElem attrs kids) "a:srgbClr" "srgbClr"
    = Some (XElem (a :: rgbAttrs) rgbKids :: srgb) ->
  assoc "val" (a :: rgbAttrs) = Some v ->
  JS.truthy v = true ->
  extractColorValue (Some (XElem attrs kids :: others))
    = Some ("#" +:+ JS.toUpperCase v).
Proof.
  intros Hchild Hval Hv.
  unfold extractColorValue, extractColorValue_body.
  cbn [Xml.first head Xml.truthy]. rewrite Hchild.
  unfold first_key. cbn [Xml.first head Xml.attrs_of]. rewrite Hval, Hv.
  reflexivity.
Qed.

Lemma extractColorValue_rgb_first_witness :
  Xml.child slotRgbAndSystem "a:srgbClr" "srgbClr"
    = Some [XElem [("val", "1f497d")] []]
  /\ assoc "val" [("val", "1f497d")] = Some "1f497d"
  /\ JS.truthy "1f497d" = true
  /\ extractColorValue (Some [slotRgbAndSystem]) = Some "#1F497D".
Proof.
  assert (H1 : Xml.child slotRgbAndSystem "a:srgbClr" "srgbClr"
               = Some [XElem [("val", "1f497d")] []]) by reflexivity.
  assert (H2 : assoc "val" [("val", "1f497d")] = Some "1f497d") by reflexivity.
  assert (H3 : JS.truthy "1f497d" = true) by reflexivity.
  split; [exact H1 | split; [exact H2 | split; [exact H3 |]]].
  exact (extractColorValue_rgb_first [] _ [] [] ("val", "1f497d") [] [] "1f497d"
           H1 H2 H3).
Defined.

(** X14. A slot whose first RGB child has no attribute but child elements
    named [val] yields no colour at all: upper-casing that array throws, the
    exception ends the extraction for the slot, and the later strategies
    (system colour, direct value, nested scan) are not tried, so the slot
    takes its default. *)
Theorem extractColorValue_val_element_aborts
    (attrs : list (string * string)) (kids : list (string * list XmlNode))
    (others srgb vals : list XmlNode) (rgbKids : list (string * list XmlNode))
    (qualified plain dflt : string) (scheme : XmlNode) :
  Xml.child (XElem attrs kids) "a:srgbClr" "srgbClr"
    = Some (XElem [] rgbKids :: srgb) ->
  assoc "val" rgbKids = Some vals ->
  extractColorValue (Some (XElem attrs kids :: others)) = None
  /\ (Xml.child scheme qualified plain = Some (XElem attrs kids :: others) ->
      slot scheme qualified plain dflt = dflt).
Proof.
  intros Hchild Hval.
  assert (Hnone : extractColorValue (Some (XElem attrs kids :: others)) = None).
  { unfold extractColorValue, extractColorValue_body.
    cbn [Xml.first head Xml.truthy]. rewrite Hchild.
    unfold first_key. cbn [Xml.first head Xml.attrs_of Xml.kids_named].
    rewrite Hval. reflexivity. }
  split; [exact Hnone |].
  intros Hs. unfold slot. rewrite Hs, Hnone. reflexivity.
Qed.

Lemma extractColorValue_val_element_aborts_witness :
  Xml.child slotValAsElement "a:srgbClr" "srgbClr"
    = Some [XElem [] [("val", [XText "1F497D"])]]
  /\ assoc "val" [("val", [XText "1F497D"])] = Some [XText "1F497D"]
  /\ extractColorValue (Some [slotValAsElement]) = None.
Proof.
  assert (H1 : Xml.child slotValAsElement "a:srgbClr" "srgbClr"
               = Some [XElem [] [("val", [XText "1F497D"])]]) by reflexivity.
  assert (H2 : assoc "val" [("val", [XText "1F497D"])] = Some [XText "1F497D"])
    by reflexivity.
  split; [exact H1 | split; [exact H2 |]].
  exact (proj1 (extractColorValue_val_element_aborts [] _ [] [] _ _
                  "a:accent1" "accent1" "#5B9BD5" (XText EmptyString) H1 H2)).
Defined.

(** ** Counting slides and layouts *)

Lemma strip_prefix_append (p x : string) : strip_prefix p (p +:+ x) = Some x.
Proof.
  induction p as [| c p IH]; [now destruct x |].
  rewrite append_cons. cbn [strip_prefix]. now rewrite Ascii.eqb_refl.
Qed.

Lemma strip_prefix_Some (p s r : string) :
  strip_prefix p s = Some r -> s = p +:+ r.
Proof.
  revert s. induction p as [| c p IH]; intros s.
  - destruct s; intros [= <-]; reflexivity.
  - destruct s as [| d s]; cbn [strip_prefix]; [discriminate |].
    destruct (Ascii.eqb_spec c d) as [<- | _]; [| discriminate].
    intros Hs. rewrite append_cons. f_equal. now apply IH.
Qed.

Lemma take_drop_digits (s : string) : s = take_digits s +:+ drop_digits s.
Proof.
  induction s as [| c t IH]; [reflexivity |].
  cbn [take_digits drop_digits]. destruct (JS.is_digit c); [| reflexivity].
  rewrite append_cons. now f_equal.
Qed.

Lemma take_digits_all (s : string) : all_chars JS.is_digit (take_digits s) = true.
Proof.
  induction s as [| c t IH]; [reflexivity |].
  cbn [take_digits]. destruct (JS.is_digit c) eqn:E; [| reflexivity].
  cbn [all_chars]. now rewrite E, IH.
Qed.

Lemma drop_digits_append (d suf : string) :
  all_chars JS.is_digit d = true ->
  match suf with String c _ => JS.is_digit c = false | EmptyString => True end ->
  drop_digits (d +:+ suf) = suf.
Proof.
  intros Hd Hsuf. induction d as [| c d IH].
  - rewrite append_nil_l. destruct suf as [| c t]; [reflexivity |].
    cbn [drop_digits]. now rewrite Hsuf.
  - cbn [all_chars] in Hd. apply andb_true_iff in Hd as [Hc Hd].
    rewrite append_cons. cbn [drop_digits]. rewrite Hc. now apply IH.
Qed.

Lemma numbered_part_iff (prefix suffix f : string) :
  match suffix with String c _ => JS.is_digit c = false | EmptyString => True end ->
  numbered_part prefix suffix f = true <->
  exists digits,
    digits <> EmptyString /\ all_chars JS.is_digit digits = true /\
    f = prefix +:+ digits +:+ suffix.
Proof.
  intros Hsuf. unfold numbered_part. split.
  - destruct (strip_prefix prefix f) as [[| c t] |] eqn:Hs; try discriminate.
    intros Hm. apply andb_true_iff in Hm as [Hc Hd].
    apply String.eqb_eq in Hd.
    exists (String c (take_digits t)). split; [discriminate |]. split.
    + cbn [all_chars]. now rewrite Hc, take_digits_all.
    + rewrite (strip_prefix_Some _ _ _ Hs). f_equal.
      rewrite append_cons. f_equal. rewrite <- Hd. apply take_drop_digits.
  - intros (digits & Hne & Hall & ->).
    rewrite strip_prefix_append.
    destruct digits as [| c d]; [congruence |].
    cbn [all_chars] in Hall. apply andb_true_iff in Hall as [Hc Hd].
    rewrite append_cons, Hc. cbn [andb].
    apply String.eqb_eq. now apply drop_digits_append.
Qed.

Lemma analyzeSlideStructure_eq (zip : JSZip) :
  analyzeSlideStructure zip =
  Ok {| ss_slideCount :=
          List.length (List.filter (numbered_part "ppt/slides/slide" ".xml")
                                   (Zip.keys zip));
        ss_layoutCount :=
          List.length (List.filter
                         (numbered_part "ppt/slideLayouts/slideLayout" ".xml")
                         (Zip.keys zip));
        ss_masterLayouts :=
          match Zip.file zip "ppt/slideMasters/slideMaster1.xml" with
          | Some _ => defaultMasterLayouts
          | None => []
          end |}.
Proof.
  unfold analyzeSlideStructure, Zip.async_string.
  destruct (Zip.file zip "ppt/slideMasters/slideMaster1.xml") as [f |];
    [destruct (zdata f) |]; reflexivity.
Qed.

(** X15. The slide count of the structure analysis is the number of listed
    parts named [ppt/slides/slide<digits>.xml] with at least one digit, and the
    layout count the number of parts named
    [ppt/slideLayouts/slideLayout<digits>.xml]; the analysis never falls back
    to its one-slide, five-layout record, and it reports the five default
    layout names exactly when the first slide master is a file of the archive,
    even if that file cannot be read. *)
Theorem analyzeSlideStructure_counts (zip : JSZip) :
  exists ss,
    analyzeSlideStructure zip = Ok ss /\
    ss_slideCount ss =
      List.length (List.filter (numbered_part "ppt/slides/slide" ".xml")
                               (Zip.keys zip)) /\
    ss_layoutCount ss =
      List.length (List.filter (numbered_part "ppt/slideLayouts/slideLayout" ".xml")
                               (Zip.keys zip)) /\
    (forall f, numbered_part "ppt/slides/slide" ".xml" f = true <->
               exists digits, digits <> EmptyString /\
                 all_chars JS.is_digit digits = true /\
                 f = "ppt/slides/slide" +:+ digits +:+ ".xml") /\
    (forall f, numbered_part "ppt/slideLayouts/slideLayout" ".xml" f = true <->
               exists digits, digits <> EmptyString /\
                 all_chars JS.is_digit digits = true /\
                 f = "ppt/slideLayouts/slideLayout" +:+ digits +:+ ".xml") /\
    ss_masterLayouts ss =
      match Zip.file zip "ppt/slideMasters/slideMaster1.xml" with
      | Some _ => defaultMasterLayouts
      | None => []
      end.
Proof.
  eexists. split; [apply analyzeSlideStructure_eq |].
  cbn [ss_slideCount ss_layoutCount ss_masterLayouts].
  repeat split; try (apply numbered_part_iff; reflexivity);
    try (apply (proj2 (numbered_part_iff _ _ _ eq_refl)));
    try (apply (proj1 (numbered_part_iff _ _ _ eq_refl))); auto.
Qed.

(** ** Generating with a template that cannot be analysed *)

Lemma createSlide_background `{Externals} (w : World) (sd : SlideData)
    (options : option GenOptions) (templateAnalysis : option TemplateAnalysis)
    (slide : Pptx.Slide) :
  createSlide w sd options templateAnalysis = Ok slide ->
  Pptx.background slide = Some (slideBackground templateAnalysis).
Proof.
  unfold createSlide.
  set (blank := Pptx.setBackground (slideBackground templateAnalysis) Pptx.newSlide).
  set (sc := getStyleContext templateAnalysis).
  assert (Hnotes : forall built : Pptx.Slide,
            Pptx.background built = Some (slideBackground templateAnalysis) ->
            match notesToAdd sd options with
            | Some n => Ok (Pptx.addNotes n built)
            | None => Ok built
            end = Ok slide ->
            Pptx.background slide = Some (slideBackground templateAnalysis)).
  { intros built Hb Hn.
    destruct (notesToAdd sd options); injection Hn as <-; exact Hb. }
  destruct (String.eqb (layout sd) "title_slide").
  { cbn [exc_bind]. apply Hnotes. unfold createTitleSlide.
    now destruct (JS.truthy (content sd)). }
  destruct (String.eqb (layout sd) "content").
  { cbn [exc_bind]. now apply Hnotes. }
  destruct (String.eqb (layout sd) "two_column").
  { cbn [exc_bind]. now apply Hnotes. }
  destruct (String.eqb (layout sd) "image_content").
  { unfold createImageContentSlide.
    destruct (selectImageForReuse templateAnalysis) as [img |];
      [destruct (Fs.existsSync w (filePath img));
         [unfold addImage; destruct (addImage_throws (filePath img)) |] |];
      cbn [exc_catch exc_bind]; now apply Hnotes. }
  destruct (String.eqb (layout sd) "conclusion"); cbn [exc_bind]; now apply Hnotes.
Qed.

(** What [createSlide] builds against the fallback analysis. *)
Lemma createSlide_fallback `{Externals} (w : World) (sd : SlideData)
    (options : option GenOptions) (slide : Pptx.Slide) :
  createSlide w sd options (Some fallbackAnalysis) = Ok slide ->
  Pptx.background slide = Some "FFFFFF" /\
  (layout sd = "content" ->
   Pptx.objects slide =
     [ Pptx.Text (title sd)
         {| Pptx.box := {| Pptx.x := 0.5; Pptx.y := 0.3; Pptx.w := 9; Pptx.h := 1 |};
            Pptx.fontSize := 32; Pptx.fontFace := "Calibri";
            Pptx.color := "2563EB"; Pptx.bold := Some true;
            Pptx.align := Some "left"; Pptx.valign := None;
            Pptx.fill := None; Pptx.border := None |};
       Pptx.Text (content sd)
         {| Pptx.box := {| Pptx.x := 0.5; Pptx.y := 1.5; Pptx.w := 9; Pptx.h := 3.5 |};
            Pptx.fontSize := 18; Pptx.fontFace := "Calibri";
            Pptx.color := "000000"; Pptx.bold := None;
            Pptx.align := Some "left"; Pptx.valign := Some "top";
            Pptx.fill := None; Pptx.border := None |} ]).
Proof.
  intros Hrun. split.
  - exact (createSlide_background _ _ _ _ _ Hrun).
  - intros Hl. unfold createSlide in Hrun. rewrite Hl in Hrun.
    cbn [String.eqb Ascii.eqb Bool.eqb exc_bind] in Hrun.
    destruct (notesToAdd sd options); injection Hrun as <-; reflexivity.
Qed.

(** X16. A template that is on disk but cannot be read or opened does not
    stop the generation, and does not give the no-template style either.  The
    document is built, nothing is written, and it has the master of the
    fallback analysis: [EXTRACTED_TEMPLATE] on a background [FFFFFF], with a
    title placeholder in Calibri [2563EB] and a body placeholder in Calibri
    [000000].  There is one slide per record, in order, each built against the
    fallback analysis: its background is [FFFFFF], and a record of layout
    [content] gets its title in Calibri [2563EB] and its text in Calibri
    [000000] (not the [1F2937] of the no-template style). *)
Theorem buildPresentation_corrupt_template `{Externals}
    (pd : PresentationData) (templatePath : string)
    (options : option GenOptions) (w : World) (data : Buffer) :
  JS.truthy templatePath = true ->
  files w !! templatePath = Some data ->
  read_denied w templatePath = true \/ (exists e, JSZip_loadAsync data = Throw e) ->
  exists built,
    buildPresentation pd (Some templatePath) options w =
      (Ok {| Pptx.author := "Auto PPT Generator";
             Pptx.title := pres_title pd;
             Pptx.subject := "Generated Presentation";
             Pptx.layouts :=
               [ {| Pptx.layout_name := "LAYOUT_16x9";
                    Pptx.width := 10; Pptx.height := 5.625 |} ];
             Pptx.masters :=
               [ {| Pptx.master_title := "EXTRACTED_TEMPLATE";
                    Pptx.master_background := "FFFFFF";
                    Pptx.master_objects :=
                      [ {| Pptx.name := "title"; Pptx.type := "title";
                           Pptx.options :=
                             {| Pptx.box := {| Pptx.x := 0.5; Pptx.y := 0.5;
                                               Pptx.w := 9; Pptx.h := 1.5 |};
                                Pptx.fontSize := 28; Pptx.fontFace := "Calibri";
                                Pptx.color := "2563EB";
                                Pptx.bold := None; Pptx.align := None;
                                Pptx.valign := None;
                                Pptx.fill := None; Pptx.border := None |};
                           Pptx.text := "Title Placeholder" |};
                        {| Pptx.name := "body"; Pptx.type := "body";
                           Pptx.options :=
                             {| Pptx.box := {| Pptx.x := 0.5; Pptx.y := 2;
                                               Pptx.w := 9; Pptx.h := 3 |};
                                Pptx.fontSize := 16; Pptx.fontFace := "Calibri";
                                Pptx.color := "000000";
                                Pptx.bold := None; Pptx.align := None;
                                Pptx.valign := None;
                                Pptx.fill := None; Pptx.border := None |};
                           Pptx.text := "Content Placeholder" |} ] |} ];
             Pptx.slides := built |}, w)
    /\ Forall2
         (fun sd slide =>
            createSlide w sd options (Some fallbackAnalysis) = Ok slide /\
            Pptx.background slide = Some "FFFFFF" /\
            (layout sd = "content" ->
             Pptx.objects slide =
               [ Pptx.Text (title sd)
                   {| Pptx.box := {| Pptx.x := 0.5; Pptx.y := 0.3;
                                     Pptx.w := 9; Pptx.h := 1 |};
                      Pptx.fontSize := 32; Pptx.fontFace := "Calibri";
                      Pptx.color := "2563EB"; Pptx.bold := Some true;
                      Pptx.align := Some "left"; Pptx.valign := None;
                      Pptx.fill := None; Pptx.border := None |};
                 Pptx.Text (content sd)
                   {| Pptx.box := {| Pptx.x := 0.5; Pptx.y := 1.5;
                                     Pptx.w := 9; Pptx.h := 3.5 |};
                      Pptx.fontSize := 18; Pptx.fontFace := "Calibri";
                      Pptx.color := "000000"; Pptx.bold := None;
                      Pptx.align := Some "left"; Pptx.valign := Some "top";
                      Pptx.fill := None; Pptx.border := None |} ]))
         (slides pd) built.
Proof.
  intros Htp Hfile Hbad.
  destruct (createSlides_spec w (slides pd)
              (applyExtractedStyling (newPresentation pd) fallbackAnalysis)
              options (Some fallbackAnalysis)) as (built & Hb & Hall).
  exists built. split.
  - unfold buildPresentation, styleDocument, bind.
    rewrite Htp. unfold Fs.existsSync.
    rewrite bool_decide_eq_true_2 by (rewrite Hfile; eauto). cbn [andb].
    rewrite analyzeTemplate_not_opened by (rewrite Hfile; exact Hbad).
    unfold ret, lift. cbn [fst snd]. rewrite Hb. reflexivity.
  - clear Hb. induction Hall as [| sd slide sds slides' Hs _ IH]; constructor.
    + split; [exact Hs | exact (createSlide_fallback _ _ _ _ Hs)].
    + exact IH.
Qed.

Lemma buildPresentation_corrupt_template_witness :
  let pd := {| pres_title := "Plan";
               slides := [ {| slideNumber := 1; title := "Plan"; content := "Steps";
                              layout := "content"; speakerNotes := None;
                              imagePrompt := None |} ];
               totalSlides := 1; estimatedDuration := "1 min" |} in
  JS.truthy "/tmp/bad.pptx" = true
  /\ files Sample.world !! "/tmp/bad.pptx" = Some (Sample.bytes_of "not a zip")
  /\ (read_denied Sample.world "/tmp/bad.pptx" = true \/
      exists e, JSZip_loadAsync (Externals := Sample.externals)
                  (Sample.bytes_of "not a zip") = Throw e)
  /\ exists doc,
       buildPresentation (Ext := Sample.externals) pd (Some "/tmp/bad.pptx") None
         Sample.world = (Ok doc, Sample.world)
       /\ List.length (Pptx.masters doc) = 1
       /\ List.length (Pptx.slides doc) = 1.
Proof.
  intros pd.
  assert (H1 : JS.truthy "/tmp/bad.pptx" = true) by reflexivity.
  assert (H2 : files Sample.world !! "/tmp/bad.pptx"
               = Some (Sample.bytes_of "not a zip")) by (vm_compute; reflexivity).
  assert (H3 : read_denied Sample.world "/tmp/bad.pptx" = true \/
               exists e, JSZip_loadAsync (Externals := Sample.externals)
                           (Sample.bytes_of "not a zip") = Throw e)
    by (right; eexists; vm_compute; reflexivity).
  split; [exact H1 | split; [exact H2 | split; [exact H3 |]]].
  destruct (buildPresentation_corrupt_template (H := Sample.externals)
              pd "/tmp/bad.pptx" None Sample.world _ H1 H2 H3)
    as (built & Hrun & Hall).
  eexists. split; [exact Hrun |]. split; [reflexivity |].
  cbn [Pptx.slides]. apply Forall2_length in Hall. now rewrite <- Hall.
Defined.

(** ** Cleanup *)

(** X17. [cleanupFile] never raises.  Where the file system does not refuse
    the removal the file is gone afterwards (a missing file stays missing);
    where it refuses, the world is unchanged; in both cases no other path is
    touched. *)
Theorem cleanupFile_removes `{Externals} (filePath : string) (w : World) :
  exists w',
    cleanupFile filePath w = (Ok tt, w') /\
    (write_denied w filePath = false -> files w' !! filePath = None) /\
    (write_denied w filePath = true -> w' = w) /\
    (forall p, p <> filePath -> files w' !! p = files w !! p).
Proof.
  unfold cleanupFile, try_catch, bind, Fs.existsSync, FsDir.unlinkSync, ret.
  destruct (files w !! filePath) as [data |] eqn:Hfile.
  - rewrite bool_decide_eq_true_2 by eauto. rewrite Hfile.
    destruct (write_denied w filePath).
    + exists w. repeat split; auto. discriminate.
    + eexists. split; [reflexivity |]. cbn [files]. repeat split.
      * intros _. apply lookup_delete_eq.
      * discriminate.
      * intros p Hp. now apply lookup_delete_ne.
  - rewrite bool_decide_eq_false_2 by (intros [? [=]]).
    exists w. repeat split; auto.
Qed.

Lemma shrunk_by_refl (P : string -> Prop) (w : World) : shrunk_by P w w.
Proof. unfold shrunk_by. repeat split; auto. Qed.

Lemma shrunk_by_trans (P : string -> Prop) (w1 w2 w3 : World) :
  shrunk_by P w1 w2 -> shrunk_by P w2 w3 -> shrunk_by P w1 w3.
Proof.
  intros (Hu1 & Hr1 & Hw1 & Hd1 & Hf1) (Hu2 & Hr2 & Hw2 & Hd2 & Hf2).
  unfold shrunk_by. repeat split; try congruence.
  intros p. destruct (Hf2 p) as [E2 | H2]; [| now right].
  rewrite E2. apply Hf1.
Qed.

Lemma shrunk_by_weaken (P Q : string -> Prop) (w w' : World) :
  (forall p, P p -> Q p) -> shrunk_by P w w' -> shrunk_by Q w w'.
Proof.
  intros HPQ (Hu & Hr & Hw & Hd & Hf). unfold shrunk_by. repeat split; auto.
  intros p. destruct (Hf p) as [E | [E HP]]; auto.
Qed.

Lemma unlinkSync_shrunk (p : string) (w w' : World) (r : Exc unit) :
  FsDir.unlinkSync p w = (r, w') -> shrunk_by (fun q => q = p) w w'.
Proof.
  unfold FsDir.unlinkSync. destruct (files w !! p);
    [destruct (write_denied w p) |]; intros [= <- <-];
    try apply shrunk_by_refl.
  unfold shrunk_by. cbn. repeat split; auto.
  intros q. destruct (decide (p = q)) as [<- | Hne].
  - right. split; [apply lookup_delete_eq | reflexivity].
  - left. now apply lookup_delete_ne.
Qed.

Lemma unlinkAll_shrunk `{Externals} (names : list string) (w w' : World)
    (r : Exc unit) :
  unlinkAll names w = (r, w') ->
  shrunk_by (fun p => exists n, In n names /\ p = Fs.join imagesDir n) w w'.
Proof.
  revert w. induction names as [| n rest IH]; intros w.
  - intros [= <- <-]. apply shrunk_by_refl.
  - cbn [unlinkAll]. unfold bind.
    destruct (FsDir.unlinkSync (Fs.join imagesDir n) w) as [[[] | e] w1] eqn:Hu.
    + intros Hr. apply IH in Hr. apply unlinkSync_shrunk in Hu.
      eapply shrunk_by_trans.
      * eapply shrunk_by_weaken; [| exact Hu]. intros p ->. exists n. split; [now left | reflexivity].
      * eapply shrunk_by_weaken; [| exact Hr].
        intros p (m & Hm & ->). exists m. split; [now right | reflexivity].
    + intros [= <- <-]. apply unlinkSync_shrunk in Hu.
      eapply shrunk_by_weaken; [| exact Hu].
      intros p ->. exists n. split; [now left | reflexivity].
Qed.

Lemma join_dir_prefix (dir name : string) :
  Fs.join dir name = FsDir.dir_prefix dir +:+ name.
Proof.
  unfold Fs.join, FsDir.dir_prefix. destruct (JS.endsWith dir "/"); [reflexivity |].
  now rewrite append_assoc.
Qed.

Lemma join_inj (dir a b : string) : Fs.join dir a = Fs.join dir b -> a = b.
Proof. rewrite !join_dir_prefix. apply append_cancel_l. Qed.

Lemma dir_listing_In (dir : string) (fs : gmap string Buffer) (name : string) :
  In name (dir_listing dir fs) <->
  exists p, is_Some (fs !! p) /\ FsDir.entry_name dir p = Some name.
Proof.
  unfold dir_listing. rewrite <- list_elem_of_In, elem_of_remove_dups, list_elem_of_omap.
  split.
  - intros (p & Hp & He). exists p. split; [| exact He].
    apply list_elem_of_In, in_map_iff in Hp as ([q d] & <- & Hq).
    apply list_elem_of_In, elem_of_map_to_list in Hq. cbn. eauto.
  - intros (p & [d Hd] & He). exists p. split; [| exact He].
    apply list_elem_of_In, in_map_iff. exists (p, d). split; [reflexivity |].
    now apply list_elem_of_In, elem_of_map_to_list.
Qed.

Lemma first_segment_no_slash (s : string) :
  JS.includes (FsDir.first_segment s) "/" = false.
Proof.
  induction s as [| c t IH]; [reflexivity |].
  cbn [FsDir.first_segment].
  destruct (Ascii.eqb_spec c "/"%char) as [-> | Hc]; [reflexivity |].
  cbn [JS.includes String.prefix].
  destruct (ascii_dec "/" c) as [E | _]; [congruence |]. exact IH.
Qed.

(** What [readdirSync] lists are single, non-empty segments. *)
Lemma dir_listing_segment (dir : string) (fs : gmap string Buffer) (name : string) :
  In name (dir_listing dir fs) ->
  JS.truthy name = true /\ JS.includes name "/" = false.
Proof.
  intros Hin. apply dir_listing_In in Hin as (p & _ & He).
  unfold FsDir.entry_name in He.
  destruct (strip_prefix (FsDir.dir_prefix dir) p) as [rest |]; [| discriminate].
  destruct (JS.truthy (FsDir.first_segment rest)) eqn:Ht; [| discriminate].
  injection He as <-. split; [exact Ht | apply first_segment_no_slash].
Qed.

Lemma startsWith_underscore (name imageId : string) :
  JS.startsWith name (imageId +:+ "_") = true -> JS.includes name "_" = true.
Proof.
  unfold JS.startsWith. intros Hp. rewrite (prefix_drop _ _ Hp).
  rewrite !includes_char_append.
  change (JS.includes "_" "_") with true. now rewrite orb_true_r.
Qed.

Lemma cleanupLoop_shrunk `{Externals} (imageIds : list string) (w w' : World)
    (r : Exc unit) :
  cleanupLoop imageIds w = (r, w') -> shrunk_by (cleanup_target imageIds) w w'.
Proof.
  revert w. induction imageIds as [| imageId rest IH]; intros w.
  - intros [= <- <-]. apply shrunk_by_refl.
  - cbn [cleanupLoop]. unfold bind at 1. unfold FsDir.readdirSync at 1.
    fold (dir_listing imagesDir (files w)). unfold bind.
    set (names := dir_listing imagesDir (files w)).
    assert (Htarget : forall p,
              (exists n,
                 In n (List.filter (fun f => JS.startsWith f (imageId +:+ "_")) names)
                 /\ p = Fs.join imagesDir n) ->
              cleanup_target (imageId :: rest) p).
    { intros p (n & Hn & ->). apply filter_In in Hn as [Hlisted Hn].
      destruct (dir_listing_segment _ _ _ Hlisted) as [_ Hseg].
      exists imageId, n. split; [now left | split; [exact Hn | split; [| reflexivity]]].
      apply underscore_entry_name; [| exact Hseg].
      exact (startsWith_underscore _ _ Hn). }
    destruct (unlinkAll (List.filter (fun f => JS.startsWith f (imageId +:+ "_")) names) w)
      as [[[] | e] w1] eqn:Hu.
    + intros Hr. apply IH in Hr. apply unlinkAll_shrunk in Hu.
      eapply shrunk_by_trans.
      * eapply shrunk_by_weaken; [exact Htarget | exact Hu].
      * eapply shrunk_by_weaken; [| exact Hr].
        intros p (i & n & Hi & Hn & He & ->). exists i, n.
        split; [now right | split; [exact Hn | split; [exact He | reflexivity]]].
    + intros [= <- <-]. apply unlinkAll_shrunk in Hu.
      eapply shrunk_by_weaken; [exact Htarget | exact Hu].
Qed.

(** X18. [cleanupExtractedImages] never raises, and however it ends it has
    only removed entries of the images directory: a path whose content is not
    what it was holds no file afterwards and is the images directory joined
    with a single entry name that starts with one of the given ids and an
    underscore.  Files below a sub-directory of the images directory, files
    elsewhere, the permissions and the UUID source are as before, and no file
    is created or changed. *)
Theorem cleanupExtractedImages_only_removes `{Externals}
    (imageIds : list string) (w : World) :
  let w' := snd (cleanupExtractedImages imageIds w) in
  fst (cleanupExtractedImages imageIds w) = Ok tt
  /\ (forall p,
        files w' !! p = files w !! p \/
        (files w' !! p = None /\
         exists imageId name,
           In imageId imageIds /\ JS.startsWith name (imageId +:+ "_") = true /\
           is_entry_name name = true /\ p = Fs.join imagesDir name))
  /\ uuids w' = uuids w /\ read_denied w' = read_denied w
  /\ write_denied w' = write_denied w /\ drawn w' = drawn w.
Proof.
  cbv zeta. unfold cleanupExtractedImages, try_catch, ret.
  destruct (cleanupLoop imageIds w) as [[[] | e] w'] eqn:Hl; cbn [fst snd];
    destruct (cleanupLoop_shrunk _ _ _ _ Hl) as (Hu & Hr & Hw & Hd & Hf);
    repeat split; assumption.
Qed.

Lemma dir_listing_NoDup (dir : string) (fs : gmap string Buffer) :
  List.NoDup (dir_listing dir fs).
Proof. apply NoDup_ListNoDup, NoDup_remove_dups. Qed.

Lemma flat_listed (dir : string) (fs : gmap string Buffer) (name : string) :
  flat dir fs -> In name (dir_listing dir fs) -> is_Some (fs !! Fs.join dir name).
Proof.
  intros Hflat Hin. apply dir_listing_In in Hin as (p & Hp & He).
  assert (Hs : exists rest, strip_prefix (FsDir.dir_prefix dir) p = Some rest).
  { unfold FsDir.entry_name in He.
    destruct (strip_prefix (FsDir.dir_prefix dir) p); [eauto | discriminate]. }
  destruct Hs as [rest Hs]. pose proof (Hflat p rest Hp Hs) as He'.
  rewrite He in He'. injection He' as ->.
  rewrite join_dir_prefix, <- (strip_prefix_Some _ _ _ Hs). exact Hp.
Qed.

Lemma flat_lists (dir : string) (fs : gmap string Buffer) (name : string) :
  flat dir fs -> is_Some (fs !! Fs.join dir name) -> In name (dir_listing dir fs).
Proof.
  intros Hflat Hp. apply dir_listing_In. exists (Fs.join dir name).
  split; [exact Hp |]. apply Hflat; [exact Hp |].
  rewrite join_dir_prefix. apply strip_prefix_append.
Qed.

Lemma remove_all_None (paths : list string) (fs : gmap string Buffer) (q : string) :
  fs !! q = None -> remove_all paths fs !! q = None.
Proof.
  revert fs. induction paths as [| p ps IH]; intros fs Hq; [exact Hq |].
  cbn [remove_all fold_left]. apply IH.
  destruct (decide (p = q)) as [<- | Hne];
    [apply lookup_delete_eq | now rewrite lookup_delete_ne].
Qed.

Lemma remove_all_In (paths : list string) (fs : gmap string Buffer) (q : string) :
  In q paths -> remove_all paths fs !! q = None.
Proof.
  revert fs. induction paths as [| p ps IH]; intros fs; [intros [] |].
  cbn [remove_all fold_left]. intros [-> | Hin]; [| now apply IH].
  apply remove_all_None, lookup_delete_eq.
Qed.

Lemma remove_all_subset (paths : list string) (fs : gmap string Buffer) (q : string) :
  is_Some (remove_all paths fs !! q) -> remove_all paths fs !! q = fs !! q.
Proof.
  revert fs. induction paths as [| p ps IH]; intros fs Hq; [reflexivity |].
  change (remove_all (p :: ps) fs) with (remove_all ps (delete p fs)) in *.
  rewrite (IH _ Hq).
  destruct (decide (p = q)) as [<- | Hne]; [| now apply lookup_delete_ne].
  rewrite (IH _ Hq) in Hq. rewrite lookup_delete_eq in Hq. now destruct Hq.
Qed.

Lemma unlinkAll_ok `{Externals} (names : list string) (w : World) :
  List.NoDup names ->
  (forall n, In n names -> is_Some (files w !! Fs.join imagesDir n)) ->
  (forall p, write_denied w p = false) ->
  unlinkAll names w =
  (Ok tt, advance w (remove_all (map (Fs.join imagesDir) names) (files w)) (drawn w)).
Proof.
  revert w. induction names as [| n rest IH]; intros w Hnd Hex Hwr.
  - cbn. unfold ret, advance. now destruct w.
  - apply NoDup_cons_iff in Hnd as [Hfresh Hnd].
    cbn [unlinkAll]. unfold bind, FsDir.unlinkSync.
    destruct (Hex n (or_introl eq_refl)) as [d Hd]. rewrite Hd, Hwr.
    rewrite IH; [reflexivity | exact Hnd | | exact Hwr].
    intros m Hm. cbn [files]. rewrite lookup_delete_ne.
    + apply Hex. now right.
    + intros E. apply join_inj in E. congruence.
Qed.

Lemma flat_subset (dir : string) (fs fs' : gmap string Buffer) :
  flat dir fs -> (forall p, is_Some (fs' !! p) -> is_Some (fs !! p)) -> flat dir fs'.
Proof. intros Hflat Hsub p rest Hp. apply Hflat. now apply Hsub. Qed.

Lemma cleanupLoop_ok `{Externals} (imageIds : list string) (w : World) :
  flat imagesDir (files w) ->
  (forall p, write_denied w p = false) ->
  exists fs',
    cleanupLoop imageIds w = (Ok tt, advance w fs' (drawn w)) /\
    (forall p, is_Some (fs' !! p) -> fs' !! p = files w !! p) /\
    (forall imageId name,
       In imageId imageIds -> JS.startsWith name (imageId +:+ "_") = true ->
       fs' !! Fs.join imagesDir name = None).
Proof.
  revert w. induction imageIds as [| imageId rest IH]; intros w Hflat Hwr.
  - exists (files w). split; [| split].
    + cbn. unfold ret, advance. now destruct w.
    + auto.
    + intros i n [].
  - cbn [cleanupLoop]. unfold bind at 1. unfold FsDir.readdirSync at 1.
    fold (dir_listing imagesDir (files w)). unfold bind.
    set (sel := List.filter (fun f => JS.startsWith f (imageId +:+ "_"))
                            (dir_listing imagesDir (files w))).
    assert (Hsel : forall n, In n sel -> is_Some (files w !! Fs.join imagesDir n)).
    { intros n Hn. apply filter_In in Hn as [Hn _]. now apply flat_listed. }
    rewrite (unlinkAll_ok sel w); [| apply List.NoDup_filter, dir_listing_NoDup | exact Hsel | exact Hwr].
    set (fs1 := remove_all (map (Fs.join imagesDir) sel) (files w)).
    destruct (IH (advance w fs1 (drawn w))) as (fs' & Hrun & Hsub & Hgone).
    + cbn [files advance]. apply (flat_subset _ (files w)); [exact Hflat |].
      intros p Hp. unfold fs1 in Hp. now rewrite (remove_all_subset _ _ _ Hp) in Hp.
    + exact Hwr.
    + exists fs'. cbn [files drawn advance] in *. split; [| split].
      * rewrite Hrun. reflexivity.
      * intros p Hp. rewrite (Hsub p Hp).
        apply remove_all_subset. change (is_Some (fs1 !! p)).
        now rewrite <- (Hsub p Hp).
      * intros i name [<- | Hi] Hname; [| now apply (Hgone i name)].
        destruct (fs' !! Fs.join imagesDir name) as [d |] eqn:Hd; [| reflexivity].
        exfalso. assert (Hs : is_Some (fs' !! Fs.join imagesDir name)) by eauto.
        pose proof (Hsub _ Hs) as E1. rewrite Hd in E1. symmetry in E1.
        assert (H1 : is_Some (fs1 !! Fs.join imagesDir name)) by eauto.
        pose proof (remove_all_subset _ _ _ H1) as E2. fold fs1 in E2.
        rewrite E1 in E2. symmetry in E2.
        assert (Hin : In name sel).
        { apply filter_In. split; [| exact Hname].
          apply flat_lists; [exact Hflat | eauto]. }
        assert (Hnone : fs1 !! Fs.join imagesDir name = None).
        { apply remove_all_In, in_map_iff. eauto. }
        congruence.
Qed.

Lemma flatb_flat (dir : string) (fs : gmap string Buffer) :
  flatb dir fs = true -> flat dir fs.
Proof.
  unfold flatb, flat. rewrite forallb_forall. intros Hall p rest [d Hd] Hs.
  assert (Hin : In p (map fst (map_to_list fs))).
  { apply in_map_iff. exists (p, d). split; [reflexivity |].
    now apply list_elem_of_In, elem_of_map_to_list. }
  specialize (Hall p Hin). rewrite Hs in Hall.
  destruct (FsDir.entry_name dir p) as [name |]; [| discriminate].
  apply String.eqb_eq in Hall. now subst.
Qed.

(** X19. On a disk that accepts every removal and whose images directory
    has no sub-directory, [cleanupExtractedImages] succeeds and leaves no
    entry of the images directory whose name starts with one of the given ids
    and an underscore. *)
Theorem cleanupExtractedImages_removes_all `{Externals}
    (imageIds : list string) (w : World) :
  flatb imagesDir (files w) = true ->
  (forall p, write_denied w p = false) ->
  exists w',
    cleanupExtractedImages imageIds w = (Ok tt, w') /\
    forall imageId name,
      In imageId imageIds -> JS.startsWith name (imageId +:+ "_") = true ->
      files w' !! Fs.join imagesDir name = None.
Proof.
  intros Hflat Hwr.
  destruct (cleanupLoop_ok imageIds w (flatb_flat _ _ Hflat) Hwr)
    as (fs' & Hrun & _ & Hgone).
  exists (advance w fs' (drawn w)). split; [| exact Hgone].
  unfold cleanupExtractedImages, try_catch. now rewrite Hrun.
Qed.

Lemma cleanupExtractedImages_removes_all_witness :
  flatb (imagesDir (Ext := Sample.externals)) (files worldWithImages) = true
  /\ (forall p, write_denied worldWithImages p = false)
  /\ exists w',
       cleanupExtractedImages (Ext := Sample.externals) ["aaa"] worldWithImages
       = (Ok tt, w') /\
       files w' !! "/app/uploads/extracted_images/aaa_image1.png" = None /\
       files w' !! "/app/uploads/extracted_images/aaa_image2.png" = None /\
       files w' !! "/app/uploads/extracted_images/bbb_logo.png"
       = Some (Sample.bytes_of "L").
Proof.
  assert (H1 : flatb (imagesDir (Ext := Sample.externals)) (files worldWithImages)
               = true) by (vm_compute; reflexivity).
  assert (H2 : forall p, write_denied worldWithImages p = false) by reflexivity.
  split; [exact H1 | split; [exact H2 |]].
  destruct (cleanupExtractedImages_removes_all (H := Sample.externals)
              ["aaa"] worldWithImages H1 H2) as (w' & Hrun & Hgone).
  exists w'. split; [exact Hrun |].
  split; [exact (Hgone "aaa" "aaa_image1.png" (or_introl eq_refl) eq_refl) |].
  split; [exact (Hgone "aaa" "aaa_image2.png" (or_introl eq_refl) eq_refl) |].
  vm_compute in Hrun. injection Hrun as <-. vm_compute. reflexivity.
Defined.

(** ** Extraction followed by cleanup *)

Lemma first_segment_id (s : string) :
  JS.includes s "/" = false -> FsDir.first_segment s = s.
Proof.
  induction s as [| c t IH]; [reflexivity |].
  cbn [JS.includes String.prefix FsDir.first_segment].
  destruct (ascii_dec "/" c) as [<- | Hc].
  - rewrite prefix_empty. discriminate.
  - cbn [orb]. intros Ht.
    rewrite (proj2 (Ascii.eqb_neq c "/"%char)) by congruence.
    now rewrite IH.
Qed.

Lemma flat_insert (dir seg : string) (data : Buffer) (fs : gmap string Buffer) :
  flat dir fs -> JS.includes seg "/" = false -> JS.truthy seg = true ->
  flat dir (<[Fs.join dir seg := data]> fs).
Proof.
  intros Hflat Hseg Hne p rest Hp Hs.
  destruct (decide (Fs.join dir seg = p)) as [<- | Hneq].
  - rewrite join_dir_prefix in Hs |- *. rewrite strip_prefix_append in Hs.
    injection Hs as <-. unfold FsDir.entry_name.
    now rewrite strip_prefix_append, (first_segment_id _ Hseg), Hne.
  - rewrite lookup_insert_ne in Hp by exact Hneq. now apply Hflat.
Qed.

Lemma saved_name_segment (u name : string) :
  JS.includes u "/" = false -> JS.includes name "/" = false ->
  JS.includes (u +:+ "_" +:+ name) "/" = false /\
  JS.truthy (u +:+ "_" +:+ name) = true.
Proof.
  intros Hu Hn. split.
  - now rewrite !includes_char_append, Hu, Hn.
  - now destruct u.
Qed.

Lemma extractLoop_flat `{Externals} (zip : JSZip) (templatePath : string)
    (paths : list string) (acc : list ExtractedImage) (w w' : World)
    (r : Exc (list ExtractedImage)) :
  (forall k, JS.includes (uuids w k) "/" = false) ->
  flat imagesDir (files w) ->
  extractLoop zip templatePath paths acc w = (r, w') ->
  flat imagesDir (files w').
Proof.
  revert acc w. induction paths as [| p rest IH]; intros acc w Hu Hflat.
  - now intros [= <- <-].
  - cbn [extractLoop]. unfold bind. rewrite extractOne_eq.
    destruct (Zip.file zip p) as [file |]; [| now apply IH].
    destruct (zdata file) as [buf | e]; [| now intros [= <- <-]].
    cbv zeta. destruct (write_denied w _); [now intros [= <- <-] |].
    apply IH; [exact Hu |]. cbn [files advance filePath imageRecord].
    destruct (saved_name_segment (uuids w (drawn w)) (Fs.basename p)
                (Hu _) (basename_no_slash p)) as [Hs Ht].
    now apply flat_insert.
Qed.

Lemma extractImages_shape `{Externals} (zip : JSZip) (templatePath : string)
    (w w' : World) (imgs : list ExtractedImage) :
  extractImages zip templatePath w = (Ok imgs, w') ->
  Forall (fun img =>
            filePath img =
            Fs.join imagesDir (imageId img +:+ "_" +:+ originalName img)) imgs.
Proof.
  pose proof (extractImages_plan zip templatePath w) as Hp.
  destruct (planLoop zip templatePath (uuids w) (write_denied w) (mediaFiles zip) (drawn w))
    as [plan | e] eqn:Hplan.
  - rewrite Hp. intros [= <- <-]. apply Forall_map.
    eapply List.Forall_impl; [| exact (planLoop_records _ _ _ _ _ _ _ Hplan)].
    intros e (p & k & _ & _ & ->). reflexivity.
  - destruct Hp as [w1 ->]. intros [= <- <-]. constructor.
Qed.

(** X20. What extraction saves, cleanup removes: on a disk that accepts
    every write and removal and whose images directory has no sub-directory,
    with UUIDs free of path separators, extracting the pictures of a template
    and then calling [cleanupExtractedImages] with the ids of the returned
    records succeeds and leaves none of the records' files on disk. *)
Theorem extract_then_cleanup `{Externals}
    (zip : JSZip) (templatePath : string) (w : World) :
  flatb imagesDir (files w) = true ->
  (forall p, write_denied w p = false) ->
  (forall k, JS.includes (uuids w k) "/" = false) ->
  exists imgs w1 w2,
    extractImages zip templatePath w = (Ok imgs, w1) /\
    cleanupExtractedImages (map imageId imgs) w1 = (Ok tt, w2) /\
    Forall (fun img => files w2 !! filePath img = None) imgs.
Proof.
  intros Hflat Hwr Hu.
  destruct (extractImages_total zip templatePath w) as (imgs & w1 & Hex).
  pose proof (extractImages_grown _ _ _ _ _ Hex) as (_ & _ & Hw1 & _ & _).
  assert (Hflat1 : flat imagesDir (files w1)).
  { unfold extractImages, try_catch in Hex.
    destruct (extractLoop zip templatePath (mediaFiles zip) [] w)
      as [[l | e] w0] eqn:Hl; injection Hex as <- <-;
      exact (extractLoop_flat _ _ _ _ _ _ _ Hu (flatb_flat _ _ Hflat) Hl). }
  assert (Hwr1 : forall p, write_denied w1 p = false)
    by (intros p; now rewrite Hw1).
  destruct (cleanupLoop_ok (map imageId imgs) w1 Hflat1 Hwr1)
    as (fs' & Hrun & _ & Hgone).
  exists imgs, w1, (advance w1 fs' (drawn w1)). split; [exact Hex |]. split.
  - unfold cleanupExtractedImages, try_catch. now rewrite Hrun.
  - pose proof (extractImages_shape _ _ _ _ _ Hex) as Hshape.
    rewrite List.Forall_forall in Hshape |- *. intros img Himg.
    rewrite (Hshape img Himg). cbn [files advance].
    apply (Hgone (imageId img)); [apply in_map; exact Himg |].
    unfold JS.startsWith.
    change (imageId img +:+ "_" +:+ originalName img)
      with (imageId img +:+ ("_" +:+ originalName img)).
    rewrite <- append_assoc. apply prefix_append.
Qed.

Lemma extract_then_cleanup_witness :
  flatb (imagesDir (Ext := Sample.externals)) (files Sample.world) = true
  /\ (forall p, write_denied Sample.world p = false)
  /\ (forall k, JS.includes (uuids Sample.world k) "/" = false)
  /\ exists imgs w1 w2,
       extractImages (Ext := Sample.externals) Sample.zip "/tmp/good.pptx"
         Sample.world = (Ok imgs, w1) /\
       List.length imgs = 2 /\
       cleanupExtractedImages (Ext := Sample.externals) (map imageId imgs) w1
       = (Ok tt, w2) /\
       Forall (fun img => files w2 !! filePath img = None) imgs.
Proof.
  assert (H1 : flatb (imagesDir (Ext := Sample.externals)) (files Sample.world)
               = true) by (vm_compute; reflexivity).
  assert (H2 : forall p, write_denied Sample.world p = false) by reflexivity.
  assert (H3 : forall k, JS.includes (uuids Sample.world k) "/" = false)
    by (intros [| [| [| k]]]; reflexivity).
  split; [exact H1 | split; [exact H2 | split; [exact H3 |]]].
  destruct (extract_then_cleanup (H := Sample.externals) Sample.zip
              "/tmp/good.pptx" Sample.world H1 H2 H3)
    as (imgs & w1 & w2 & Hex & Hcl & Hall).
  exists imgs, w1, w2. split; [exact Hex |]. split; [| split; assumption].
  vm_compute in Hex. injection Hex as <- _. reflexivity.
Defined.

(** ** Names and types of the extracted pictures *)

Lemma basename_go_append (a b cur : string) :
  Fs.basename_go (a +:+ b) cur = Fs.basename_go b (Fs.basename_go a cur).
Proof.
  revert cur. induction a as [| c a IH]; intros cur; [reflexivity |].
  rewrite append_cons. cbn [Fs.basename_go]. destruct (Ascii.eqb c "/"); apply IH.
Qed.

Lemma basename_go_segment (x cur : string) :
  JS.includes x "/" = false -> Fs.basename_go x cur = cur +:+ x.
Proof.
  revert cur. induction x as [| c t IH]; intros cur.
  - intros _. cbn. now rewrite append_empty_r.
  - cbn [JS.includes String.prefix Fs.basename_go].
    destruct (ascii_dec "/" c) as [<- | Hc].
    + rewrite prefix_empty. discriminate.
    + cbn [orb]. intros Ht.
      rewrite (proj2 (Ascii.eqb_neq c "/"%char)) by congruence.
      rewrite (IH _ Ht). now rewrite append_assoc.
Qed.

Lemma basename_in_folder (folder x : string) :
  JS.includes x "/" = false -> Fs.basename (folder +:+ "/" +:+ x) = x.
Proof.
  intros Hx. unfold Fs.basename.
  rewrite basename_go_append.
  change ("/" +:+ x) with (String "/" x). cbn [Fs.basename_go].
  change (Ascii.eqb "/" "/") with true. cbn iota.
  now rewrite basename_go_segment.
Qed.

Lemma extname_go_no_dot (s : string) (found : option string) :
  JS.includes s "." = false -> Fs.extname_go s found = found.
Proof.
  revert found. induction s as [| c t IH]; intros found; [reflexivity |].
  cbn [JS.includes String.prefix Fs.extname_go].
  destruct (ascii_dec "." c) as [<- | Hc].
  - rewrite prefix_empty. discriminate.
  - cbn [orb]. intros Ht.
    rewrite (proj2 (Ascii.eqb_neq c "."%char)) by congruence. now apply IH.
Qed.

Lemma extname_go_dotted (a ext : string) (found : option string) :
  JS.includes ext "." = false ->
  Fs.extname_go (a +:+ "." +:+ ext) found = Some ("." +:+ ext).
Proof.
  intros He. revert found. induction a as [| c a IH]; intros found.
  - rewrite append_nil_l. change ("." +:+ ext) with (String "." ext).
    cbn [Fs.extname_go]. change (Ascii.eqb "." ".") with true. cbn iota.
    now apply extname_go_no_dot.
  - rewrite append_cons. cbn [Fs.extname_go]. apply IH.
Qed.

(** X21. The type of a record is the part's extension in lower case, unless
    the part's base name is nothing but the extension: for a part
    [<folder>/<stem>.<ext>] the original name is [<stem>.<ext>] and the file
    type is [<ext>] lower-cased when the stem is not empty, and the empty
    string when it is (a part such as [ppt/media/.png] is extracted with no
    type). *)
Theorem imageRecord_file_type `{Externals}
    (templatePath folder stem ext imageId : string) :
  JS.includes stem "/" = false ->
  JS.includes ext "/" = false ->
  JS.includes ext "." = false ->
  let img := imageRecord templatePath
               (folder +:+ "/" +:+ stem +:+ "." +:+ ext) imageId in
  originalName img = stem +:+ "." +:+ ext /\
  fileType img = if JS.truthy stem then JS.toLowerCase ext else EmptyString.
Proof.
  intros Hstem Hslash Hdot. cbv zeta. cbn [originalName fileType imageRecord].
  assert (Hb : Fs.basename (folder +:+ "/" +:+ stem +:+ "." +:+ ext)
               = stem +:+ "." +:+ ext).
  { apply basename_in_folder.
    now rewrite !includes_char_append, Hstem, Hslash. }
  rewrite Hb. split; [reflexivity |].
  destruct stem as [| c stem'].
  - rewrite append_nil_l. change ("." +:+ ext) with (String "." ext).
    cbn [Fs.extname JS.truthy]. now rewrite extname_go_no_dot.
  - rewrite append_cons. cbn [Fs.extname JS.truthy].
    now rewrite extname_go_dotted.
Qed.

Lemma imageRecord_file_type_witness :
  JS.includes "Photo.Final" "/" = false
  /\ JS.includes "JPEG" "/" = false
  /\ JS.includes "JPEG" "." = false
  /\ originalName (imageRecord (H := Sample.externals) "/tmp/good.pptx"
                     "ppt/media/Photo.Final.JPEG" "id") = "Photo.Final.JPEG"
  /\ fileType (imageRecord (H := Sample.externals) "/tmp/good.pptx"
                 "ppt/media/Photo.Final.JPEG" "id") = "jpeg".
Proof.
  assert (H1 : JS.includes "Photo.Final" "/" = false) by reflexivity.
  assert (H2 : JS.includes "JPEG" "/" = false) by reflexivity.
  assert (H3 : JS.includes "JPEG" "." = false) by reflexivity.
  split; [exact H1 | split; [exact H2 | split; [exact H3 |]]].
  exact (imageRecord_file_type (H := Sample.externals) "/tmp/good.pptx"
           "ppt/media" "Photo.Final" "JPEG" "id" H1 H2 H3).
Defined.

(** ** What the generation does to the disk *)

Lemma buildPresentation_grown `{Externals}
    (pd : PresentationData) (templatePath : option string)
    (options : option GenOptions) (w : World) :
  grown_by (image_path (uuids w) (drawn w)) w
           (snd (buildPresentation pd templatePath options w)).
Proof.
  destruct (styleDocument_spec (newPresentation pd) templatePath w)
    as (ta & w1 & Hs & Hta).
  unfold buildPresentation, bind. rewrite Hs. unfold lift. cbn [snd fst].
  destruct ta as [a |].
  - destruct Hta as (tp & _ & _ & Ha).
    pose proof (analyzeTemplate_grown tp w) as Hg. now rewrite Ha in Hg.
  - destruct Hta as [-> _]. apply grown_by_refl.
Qed.

Lemma sanitize_name_chars (pageTitle : string) :
  all_chars is_name_char (JS.sanitize pageTitle) = true.
Proof.
  unfold JS.sanitize, is_name_char.
  induction pageTitle as [| c t IH]; [reflexivity |].
  cbn [JS.map_chars all_chars]. rewrite IH, andb_true_r.
  destruct (JS.is_alnum c) eqn:E; [now rewrite E | reflexivity].
Qed.

(** The name of the output file is a single entry name. *)
Lemma output_name_entry (pageTitle uuid : string) :
  JS.includes uuid "/" = false ->
  is_entry_name (JS.sanitize pageTitle +:+ "_" +:+ uuid +:+ ".pptx") = true.
Proof.
  intros Hu. apply underscore_entry_name.
  - rewrite includes_char_append.
    change ("_" +:+ uuid +:+ ".pptx") with (String "_" (uuid +:+ ".pptx")).
    now rewrite includes_self, orb_true_r.
  - rewrite !includes_char_append, Hu.
    now rewrite (all_chars_no_slash is_name_char _ eq_refl (sanitize_name_chars _)).
Qed.

(** X22. With UUIDs free of path separators, and a [pptx.writeFile] that
    creates or changes no other file than the one it is given the name of and
    removes none, [generatePresentation] -- whatever its arguments and
    however it ends -- only adds or replaces files that lie directly in the
    uploads directory or directly in the images directory below it: a path
    whose content is not what it was holds a file afterwards and is either
    the images directory joined with a single entry name (a picture of the
    template), or the uploads directory joined with the output name,
    [<sanitised title>_<uuid>.pptx], itself a single entry name whatever the
    title.  No file disappears. *)
Theorem generatePresentation_writes_under_uploads `{Externals}
    (pd : PresentationData) (templatePath : option string)
    (options : option GenOptions) (w : World) :
  (forall k, JS.includes (uuids w k) "/" = false) ->
  writeFile_confined ->
  let w' := snd (generatePresentation pd templatePath options w) in
  (forall p,
     files w' !! p = files w !! p \/
     (is_Some (files w' !! p) /\
      exists k name,
        drawn w <= k /\ is_entry_name name = true /\
        ((JS.startsWith name (uuids w k +:+ "_") = true /\
          p = Fs.join imagesDir name) \/
         (name = JS.sanitize (pres_title pd) +:+ "_" +:+ uuids w k +:+ ".pptx" /\
          p = Fs.join uploadsDir name))))
  /\ (forall p, is_Some (files w !! p) -> is_Some (files w' !! p)).
Proof.
  intros Huu Hwrite. cbv zeta.
  pose proof (buildPresentation_grown pd templatePath options w) as Hg.
  destruct (buildPresentation_total pd templatePath options w) as (doc & w1 & Hb).
  rewrite Hb in Hg. cbn [snd] in Hg. destruct Hg as (Hu1 & _ & _ & Hd1 & Hf).
  set (name := JS.sanitize (pres_title pd) +:+ "_" +:+ uuids w1 (drawn w1) +:+ ".pptx").
  assert (Hout : forall p,
            files (snd (generatePresentation pd templatePath options w)) !! p
            = files w1 !! p \/
            (is_Some (files (snd (generatePresentation pd templatePath options w)) !! p)
             /\ p = Fs.join uploadsDir name)).
  { intros p. unfold generatePresentation, bind. rewrite Hb.
    unfold randomUUID, ret. fold name.
    set (w2 := {| files := files w1; read_denied := read_denied w1;
                  write_denied := write_denied w1; uuids := uuids w1;
                  drawn := S (drawn w1) |}).
    pose proof (Hwrite doc (Fs.join uploadsDir name) w2 p) as Hw.
    destruct (pptx_writeFile doc (Fs.join uploadsDir name) w2) as [[[] | e] w3];
      exact Hw. }
  split.
  - intros p. destruct (Hout p) as [E | [Hs ->]].
    + rewrite E. destruct (Hf p) as [E1 | [Hs Hp]]; [now left | right].
      split; [exact Hs |].
      destruct (image_path_entry _ _ _ Huu Hp) as (k & nm & Hk & Hn & Hst & ->).
      exists k, nm. split; [exact Hk | split; [exact Hn | left; now split]].
    + right. split; [exact Hs |]. exists (drawn w1), name.
      split; [exact Hd1 |]. unfold name. rewrite Hu1.
      split; [apply output_name_entry, Huu | right; now split].
  - intros p Hp. destruct (Hout p) as [-> | [Hs _]]; [| exact Hs].
    destruct (Hf p) as [-> | [Hs _]]; [exact Hp | exact Hs].
Qed.

Lemma generatePresentation_writes_under_uploads_witness :
  let pd := {| pres_title := "../../etc/x";
               slides := [ {| slideNumber := 1; title := "Plan"; content := "Steps";
                              layout := "content"; speakerNotes := None;
                              imagePrompt := None |} ];
               totalSlides := 1; estimatedDuration := "1 min" |} in
  let out := "/app/uploads/______etc_x_00000000-0000-4000-8000-000000000000.pptx" in
  let w' := snd (generatePresentation (Ext := Sample.externals) pd None None
                   Sample.world) in
  (forall k, JS.includes (uuids Sample.world k) "/" = false)
  /\ writeFile_confined (H := Sample.externals)
  /\ files w' !! out = Some (Sample.bytes_of "PK")
  /\ files Sample.world !! out = None
  /\ (files w' !! out = files Sample.world !! out \/
      (is_Some (files w' !! out) /\
       exists k name,
         drawn Sample.world <= k /\ is_entry_name name = true /\
         ((JS.startsWith name (uuids Sample.world k +:+ "_") = true /\
           out = Fs.join (imagesDir (Ext := Sample.externals)) name) \/
          (name = JS.sanitize (pres_title pd) +:+ "_"
                  +:+ uuids Sample.world k +:+ ".pptx" /\
           out = Fs.join (uploadsDir (Ext := Sample.externals)) name)))).
Proof.
  intros pd out w'.
  assert (Hu : forall k, JS.includes (uuids Sample.world k) "/" = false)
    by (intros [| [| [| k]]]; reflexivity).
  assert (Hw : writeFile_confined (H := Sample.externals)).
  { intros doc fileName w p. cbn [pptx_writeFile Sample.externals].
    unfold Fs.writeFileSync. destruct (write_denied w fileName); [now left |].
    cbn [snd files]. destruct (decide (fileName = p)) as [<- | Hne].
    - right. rewrite lookup_insert_eq. eauto.
    - left. now apply lookup_insert_ne. }
  split; [exact Hu | split; [exact Hw |]].
  split; [vm_compute; reflexivity |].
  split; [vm_compute; reflexivity |].
  exact (proj1 (generatePresentation_writes_under_uploads
                  (H := Sample.externals) pd None None Sample.world Hu Hw) out).
Defined.
